(** * The HDF5 formatter of QCodes (qcodes/data/hdf5_format.py)

    A shallow embedding of [HDF5Format] and of the two module-level helpers
    [_encode_to_utf8] and [str_to_bool], together with the parts of Python,
    numpy and h5py the formatter relies on:

    - text is a list of Unicode code points, [bytes] a list of octets, and
      [str.encode('utf-8')] / [bytes.decode()] are the strict UTF-8 codec;
    - numpy arrays are a shape and a row-major list of IEEE-754 values
      ([spec_float], whose [S754_nan] is the not-a-number sentinel);
    - an h5py file is a finite map of groups, a data set a shape, a maximal
      shape, a row-major table and a finite map of attributes;
    - Python objects that are mutated or shared ([DataArray]) live in a
      heap and are referred to by address;
    - methods run in a state-and-exception monad in which the state
      survives a raised exception, as the file on disk does. *)

From Stdlib Require Import ZArith Floats.SpecFloat String Ascii DecimalString.
From stdpp Require Import gmap list strings.

(** ** Text, bytes and the UTF-8 codec *)

Abbreviation pystr := (list Z).
Abbreviation pybytes := (list Z).

(** A literal of the source, as code points (the literals are all ASCII). *)
Definition py (s : string) : pystr :=
  (λ a, Z.of_N (N_of_ascii a)) <$> String.list_ascii_of_string s.

Module Utf8.

Definition is_surrogate (c : Z) : bool :=
  ((55296 <=? c) && (c <=? 57343))%Z.

(** One code point to its one to four octets; [None] where Python raises
    [UnicodeEncodeError] (lone surrogates; values that are no code point). *)
Definition encode_cp (c : Z) : option pybytes :=
  if (c <? 0)%Z then None
  else if (c <? 128)%Z then Some [c]
  else if (c <? 2048)%Z then
    Some [192 + c / 64; 128 + c mod 64]%Z
  else if (c <? 65536)%Z then
    if is_surrogate c then None
    else Some [224 + c / 4096; 128 + (c / 64) mod 64; 128 + c mod 64]%Z
  else if (c <? 1114112)%Z then
    Some [240 + c / 262144; 128 + (c / 4096) mod 64;
          128 + (c / 64) mod 64; 128 + c mod 64]%Z
  else None.

Fixpoint encode (s : pystr) : option pybytes :=
  match s with
  | [] => Some []
  | c :: s' =>
      match encode_cp c, encode s' with
      | Some b, Some bs => Some (b ++ bs)
      | _, _ => None
      end
  end.

Definition is_cont (b : Z) : bool := ((128 <=? b) && (b <? 192))%Z.

Definition cons_cp (c : Z) (r : option pystr) : option pystr :=
  match r with Some s => Some (c :: s) | None => None end.

(** The strict decoder: overlong forms, surrogates, values above U+10FFFF,
    stray continuation octets and truncated sequences are rejected
    ([None] where Python raises [UnicodeDecodeError]). *)
Fixpoint decode (b : pybytes) : option pystr :=
  match b with
  | [] => Some []
  | b0 :: r0 =>
      if ((0 <=? b0) && (b0 <? 128))%Z then cons_cp b0 (decode r0)
      else if ((194 <=? b0) && (b0 <? 224))%Z then
        match r0 with
        | b1 :: r1 =>
            if is_cont b1
            then cons_cp ((b0 - 192) * 64 + (b1 - 128))%Z (decode r1)
            else None
        | _ => None
        end
      else if ((224 <=? b0) && (b0 <? 240))%Z then
        match r0 with
        | b1 :: b2 :: r2 =>
            let c := ((b0 - 224) * 4096 + (b1 - 128) * 64 + (b2 - 128))%Z in
            if is_cont b1 && is_cont b2
               && negb (c <? 2048)%Z && negb (is_surrogate c)
            then cons_cp c (decode r2)
            else None
        | _ => None
        end
      else if ((240 <=? b0) && (b0 <? 245))%Z then
        match r0 with
        | b1 :: b2 :: b3 :: r3 =>
            let c := ((b0 - 240) * 262144 + (b1 - 128) * 4096
                      + (b2 - 128) * 64 + (b3 - 128))%Z in
            if is_cont b1 && is_cont b2 && is_cont b3
               && negb (c <? 65536)%Z && (c <? 1114112)%Z
            then cons_cp c (decode r3)
            else None
        | _ => None
        end
      else None
  end.

End Utf8.

(** ** Python values, exceptions and results *)

Inductive exn :=
  | KeyError | ValueError | TypeError | AttributeError | IndexError
  | NameError | OSError | RuntimeError
  | UnicodeEncodeError | UnicodeDecodeError
  | SystemError. (* an address or handle that denotes nothing: unreachable
                    from states built by the program itself *)

Inductive result (A : Type) :=
  | Ok (a : A)
  | Raise (e : exn).
Arguments Ok {A} a.
Arguments Raise {A} e.

#[global] Instance exn_eq_dec : EqDecision exn.
Proof. solve_decision. Defined.

#[global] Instance result_ret : MRet result := @Ok.
#[global] Instance result_bind : MBind result := λ A B f r,
  match r with Ok a => f a | Raise e => Raise e end.
#[global] Instance result_fmap : FMap result := λ A B f r,
  match r with Ok a => Ok (f a) | Raise e => Raise e end.

(** The values the formatter hands to its helpers and to h5py attributes.
    [VArray] is a one-dimensional [numpy.ndarray] of objects. *)
#[warnings="-register-all"]
Inductive pyval :=
  | VNone
  | VBool (b : bool)
  | VInt (z : Z)
  | VStr (s : pystr)
  | VBytes (b : pybytes)
  | VList (l : list pyval)
  | VArray (l : list pyval).

Inductive pytype := TNoneType | Tbool | Tint | Tstr | Tbytes | Tlist | Tndarray.

#[global] Instance pytype_eq_dec : EqDecision pytype.
Proof. solve_decision. Defined.

Definition py_type (v : pyval) : pytype :=
  match v with
  | VNone => TNoneType | VBool _ => Tbool | VInt _ => Tint | VStr _ => Tstr
  | VBytes _ => Tbytes | VList _ => Tlist | VArray _ => Tndarray
  end.

(** A class object used as a condition is true. *)
Definition class_truth (t : pytype) : bool := true.

Definition join_with (sep : pystr) (l : list pystr) : pystr :=
  match l with
  | [] => []
  | x :: r => x ++ concat ((λ y, sep ++ y) <$> r)
  end.

(** [repr] and [str]. The quoted forms of text and bytes are exact for
    contents without quote, backslash or unprintable characters, which is
    all the formatter itself ever builds (its placeholder is [['']]). *)
Fixpoint py_repr (v : pyval) : pystr :=
  match v with
  | VNone => py "None"
  | VBool true => py "True"
  | VBool false => py "False"
  | VInt z => py (NilZero.string_of_int (Z.to_int z))
  | VStr s => py "'" ++ s ++ py "'"
  | VBytes b => py "b'" ++ b ++ py "'"
  | VList l => py "[" ++ join_with (py ", ") (map py_repr l) ++ py "]"
  | VArray l => py "[" ++ join_with (py " ") (map py_repr l) ++ py "]"
  end.

Definition py_str (v : pyval) : pystr :=
  match v with
  | VStr s => s
  | _ => py_repr v
  end.

(** [len(v)] *)
Definition py_len (v : pyval) : result nat :=
  match v with
  | VStr s => Ok (length s)
  | VBytes b => Ok (length b)
  | VList l | VArray l => Ok (length l)
  | _ => Raise TypeError
  end.

(** [for x in v] *)
Definition py_iter (v : pyval) : result (list pyval) :=
  match v with
  | VList l | VArray l => Ok l
  | VStr s => Ok ((λ c, VStr [c]) <$> s)
  | VBytes b => Ok (VInt <$> b)
  | _ => Raise TypeError
  end.

(** [v.encode('utf-8')]: only text has the method. *)
Definition encode_method (v : pyval) : result pyval :=
  match v with
  | VStr s =>
      match Utf8.encode s with
      | Some b => Ok (VBytes b)
      | None => Raise UnicodeEncodeError
      end
  | _ => Raise AttributeError
  end.

(** [v.decode()]: only bytes have the method. *)
Definition decode_method (v : pyval) : result pystr :=
  match v with
  | VBytes b =>
      match Utf8.decode b with
      | Some s => Ok s
      | None => Raise UnicodeDecodeError
      end
  | _ => Raise AttributeError
  end.

(** ** The module-level helpers (hdf5_format.py, lines 225-244) *)

Definition _encode_to_utf8 (s : pyval) : result pyval :=
  if bool_decide (py_type s = Tstr) then encode_method s
  else if bool_decide (py_type s = Tndarray) || class_truth Tlist then
    items ← py_iter s;
    VList <$> mapM encode_method items
  else Ok s.

Definition str_to_bool (s : pystr) : result bool :=
  if bool_decide (s = py "True") then Ok true
  else if bool_decide (s = py "False") then Ok false
  else Raise ValueError.

(** ** Python dictionaries: insertion-ordered association lists *)

Fixpoint dict_get {V} (k : pystr) (d : list (pystr * V)) : option V :=
  match d with
  | [] => None
  | (k', v) :: d' => if bool_decide (k' = k) then Some v else dict_get k d'
  end.

(** [d[k] = v]: an existing key keeps its place, a new one goes last. *)
Fixpoint dict_set {V} (k : pystr) (v : V) (d : list (pystr * V))
  : list (pystr * V) :=
  match d with
  | [] => [(k, v)]
  | (k', v') :: d' =>
      if bool_decide (k' = k) then (k', v) :: d' else (k', v') :: dict_set k v d'
  end.

Definition dict_keys {V} (d : list (pystr * V)) : list pystr := d.*1.

(** ** numpy arrays *)

Record ndarray_t := mk_ndarray {
  nd_shape : list nat;
  nd_data : list spec_float; (* row-major *)
}.

Definition is_nan (x : spec_float) : bool :=
  match x with S754_nan => true | _ => false end.

(** [np.isnan(x)], [~m] and [x[m]] for a boolean mask [m] of [x]'s shape:
    the selected elements, flattened. *)
Definition np_isnan (x : ndarray_t) : list bool := is_nan <$> nd_data x.
Definition np_invert (m : list bool) : list bool := negb <$> m.
Fixpoint np_mask_select (d : list spec_float) (m : list bool)
  : list spec_float :=
  match d, m with
  | x :: d', b :: m' =>
      if b then x :: np_mask_select d' m' else np_mask_select d' m'
  | _, _ => []
  end.

Definition nd_size (shape : list nat) : nat := foldr Nat.mul 1 shape.

(** [x[a:b]] with [0 <= a], [0 <= b]: a slice of the first axis, clipped to
    the array (a zero-dimensional array cannot be sliced). *)
Definition nd_slice (x : ndarray_t) (a b : nat) : result ndarray_t :=
  match nd_shape x with
  | [] => Raise IndexError
  | n :: rest =>
      let rs := nd_size rest in
      let a' := a `min` n in
      let b' := b `min` n in
      Ok {| nd_shape := (b' - a') :: rest;
            nd_data := take ((b' - a') * rs) (drop (a' * rs) (nd_data x)) |}
  end.

(** [x.reshape(shape)]: the element count must be kept. *)
Definition nd_reshape (x : ndarray_t) (shape : list nat) : result ndarray_t :=
  if bool_decide (nd_size shape = length (nd_data x))
  then Ok {| nd_shape := shape; nd_data := nd_data x |}
  else Raise ValueError.

(** The length [write] computes: [len(x[~np.isnan(x)])]. *)
Definition populated_length (x : ndarray_t) : nat :=
  length (np_mask_select (nd_data x) (np_invert (np_isnan x))).

(** ** os.path *)

Definition slash : Z := 47.

(** [p[:i+1], p[i+1:]] for [i] the last index of ['/'] in [p]. *)
Fixpoint split_at_last_slash (p : pystr) : pystr * pystr :=
  match p with
  | [] => ([], [])
  | c :: p' =>
      let '(h, t) := split_at_last_slash p' in
      match h with
      | [] => if bool_decide (c = slash) then ([c], t) else ([], c :: t)
      | _ => (c :: h, t)
      end
  end.

Fixpoint lstrip_slash (p : pystr) : pystr :=
  match p with
  | c :: p' => if bool_decide (c = slash) then lstrip_slash p' else p
  | [] => []
  end.

Definition os_path_split (p : pystr) : pystr * pystr :=
  let '(head, tail) := split_at_last_slash p in
  if forallb (λ c, bool_decide (c = slash)) head then (head, tail)
  else (reverse (lstrip_slash (reverse head)), tail).

(** ** h5py containers *)

(** A two-dimensional data set: current shape, maximal shape ([None] is an
    unlimited dimension), the table in row-major order, the attributes. *)
Record dset := mk_dset {
  shape : nat * nat;
  maxshape : option nat * option nat;
  value : list spec_float;
  attrs : gmap pystr pyval;
}.

(** A container. The formatter touches two top-level groups: 'Data Arrays',
    one data set per array, and 'Meta-data', one subgroup of attributes per
    instrument; [None] is a group that does not exist. *)
Record h5file := mk_h5file {
  data_arrays : option (gmap pystr dset);
  meta_data : option (gmap pystr (gmap pystr pyval));
}.

Definition empty_h5file : h5file :=
  {| data_arrays := None; meta_data := None |}.

(** h5py's default fill value for cells that were allocated and not
    written. *)
Definition fillvalue : spec_float := S754_zero false.

Definition cell (d : dset) (i j : nat) : spec_float :=
  nth (i * d.(shape).2 + j) d.(value) fillvalue.

(** ** The objects of the measurement layer *)

(** Modelled from the spec: the [DataArray] class (qcodes/data/data_array.py
    is not among the sources). Its fields are those of the spec's data model
    and of the formatter's uses; [set_arrays] holds addresses of sibling
    objects; [_sa_array_ids] is the attribute [read] attaches ([None]: not
    set). Indexing and [len] go to the [ndarray] field. *)
Record DataArray := mk_DataArray {
  array_id : pystr;
  name : option pystr;
  label : option pystr;
  units : pyval;
  is_setpoint : bool;
  set_arrays : list nat;
  ndarray : ndarray_t;
  _sa_array_ids : option (list pystr);
}.

(** Modelled from the spec: the data set handed to the formatter, with its
    [location], the path-join operation of its io manager and its [arrays]
    dictionary from array id to [DataArray] object. *)
Record DataSet := mk_DataSet {
  location : pystr;
  io_join : pystr → pystr;
  arrays : list (pystr * nat);
}.

(** What an instrument's [snapshot()['parameters']] holds: per parameter
    name a dictionary that may have a ['value'] entry. *)
Abbreviation par_snap_t := (list (pystr * list (pystr * pyval))).

(** The formatter object; [None] is an attribute that is [None] or, for
    [filepath], [arr_group] and [station], one that was never assigned
    ([__init__] assigns [data_object] only). A file or group object is
    referred to by the path of its container; [station] is reduced to its
    [instruments] dictionary. *)
Record HDF5Format := mk_HDF5Format {
  data_object : option pystr;
  filepath : option pystr;
  arr_group : option pystr;
  station : option (list (pystr * par_snap_t));
}.

Definition __init__ : HDF5Format :=
  {| data_object := None; filepath := None; arr_group := None;
     station := None |}.

(** ** The state and the monad of methods *)

Record state := mk_state {
  st_heap : list DataArray;
  st_dirs : gset pystr;
  st_files : gmap pystr h5file;
  st_self : HDF5Format;
}.

Definition M (A : Type) : Type := state → result A * state.

#[global] Instance M_ret : MRet M := λ A a st, (Ok a, st).
#[global] Instance M_bind : MBind M := λ A B f m st,
  match m st with
  | (Ok a, st') => f a st'
  | (Raise e, st') => (Raise e, st')
  end.

Definition raise {A} (e : exn) : M A := λ st, (Raise e, st).
Definition lift {A} (r : result A) : M A := λ st, (r, st).
Definition gets {A} (f : state → A) : M A := λ st, (Ok (f st), st).
Definition modify (f : state → state) : M unit := λ st, (Ok tt, f st).
Definition from_option {A} (e : exn) (o : option A) : M A :=
  match o with Some a => mret a | None => raise e end.

(** [for x in l: body] *)
Fixpoint for_each {A} (l : list A) (body : A → M unit) : M unit :=
  match l with
  | [] => mret tt
  | x :: l' => body x;; for_each l' body
  end.

(** A loop that threads a local variable. *)
Fixpoint fold_each {A S} (l : list A) (acc : S) (body : S → A → M S) : M S :=
  match l with
  | [] => mret acc
  | x :: l' => acc' ← body acc x; fold_each l' acc' body
  end.

Definition set_heap (h : list DataArray) (st : state) : state :=
  {| st_heap := h; st_dirs := st_dirs st;
     st_files := st_files st; st_self := st_self st |}.
Definition set_dirs (d : gset pystr) (st : state) : state :=
  {| st_heap := st_heap st; st_dirs := d;
     st_files := st_files st; st_self := st_self st |}.
Definition set_files (f : gmap pystr h5file) (st : state) : state :=
  {| st_heap := st_heap st; st_dirs := st_dirs st;
     st_files := f; st_self := st_self st |}.
Definition set_self (s : HDF5Format) (st : state) : state :=
  {| st_heap := st_heap st; st_dirs := st_dirs st;
     st_files := st_files st; st_self := s |}.

(** *** Heap *)

Definition deref (a : nat) : M DataArray :=
  h ← gets st_heap; from_option SystemError (h !! a).

Definition heap_store (a : nat) (d : DataArray) : M unit :=
  modify (λ st, set_heap (<[a := d]> (st_heap st)) st).

Definition alloc (d : DataArray) : M nat :=
  h ← gets st_heap;
  modify (set_heap (h ++ [d]));;
  mret (length h).

(** *** File system and h5py *)

Definition os_path_isdir (p : pystr) : M bool :=
  gets (λ st, bool_decide (p ∈ st_dirs st)).

Definition os_makedirs (p : pystr) : M unit :=
  modify (λ st, set_dirs ({[p]} ∪ st_dirs st) st).

(** [h5py.File(p, 'a')]: read-write, created when missing. *)
Definition h5py_File_a (p : pystr) : M pystr :=
  fs ← gets st_files;
  match fs !! p with
  | Some _ => mret p
  | None => modify (set_files (<[p := empty_h5file]> fs));; mret p
  end.

(** [h5py.File(p, 'r+')]: read-write, the file must exist. *)
Definition h5py_File_rw (p : pystr) : M pystr :=
  fs ← gets st_files;
  match fs !! p with
  | Some _ => mret p
  | None => raise OSError
  end.

Definition get_file (h : pystr) : M h5file :=
  fs ← gets st_files; from_option SystemError (fs !! h).

Definition put_file (h : pystr) (f : h5file) : M unit :=
  modify (λ st, set_files (<[h := f]> (st_files st)) st).

Definition file_keys (h : pystr) : M (list pystr) :=
  f ← get_file h;
  mret (match data_arrays f with Some _ => [py "Data Arrays"] | None => [] end
        ++ match meta_data f with Some _ => [py "Meta-data"] | None => [] end).

(** [file.create_group('Data Arrays')] *)
Definition create_arrays_group (h : pystr) : M pystr :=
  f ← get_file h;
  match data_arrays f with
  | Some _ => raise ValueError
  | None =>
      put_file h {| data_arrays := Some ∅; meta_data := meta_data f |};;
      mret h
  end.

(** [file['Data Arrays']] *)
Definition file_arrays_group (h : pystr) : M (gmap pystr dset) :=
  f ← get_file h; from_option KeyError (data_arrays f).

(** The members of a group object that was obtained before. *)
Definition group_members (g : pystr) : M (gmap pystr dset) :=
  f ← get_file g; from_option SystemError (data_arrays f).

Definition put_members (g : pystr) (m : gmap pystr dset) : M unit :=
  f ← get_file g;
  put_file g {| data_arrays := Some m; meta_data := meta_data f |}.

(** [group.keys()], in the container's order of iteration. *)
Definition group_keys (g : pystr) : M (list pystr) :=
  m ← group_members g; mret (map_to_list m).*1.

(** [group[key]] *)
Definition group_getitem (g : pystr) (key : pystr) : M dset :=
  m ← group_members g; from_option KeyError (m !! key).

Definition put_dset (g : pystr) (key : pystr) (d : dset) : M unit :=
  m ← group_members g; put_members g (<[key := d]> m).

(** [group.create_dataset(key, shape, maxshape=maxshape)] *)
Definition create_dataset (g key : pystr) (shp : nat * nat)
    (mx : option nat * option nat) : M unit :=
  m ← group_members g;
  match m !! key with
  | Some _ => raise RuntimeError
  | None =>
      put_members g
        (<[key := {| shape := shp; maxshape := mx;
                     value := replicate (shp.1 * shp.2) fillvalue;
                     attrs := ∅ |}]> m)
  end.

(** [group[key].attrs[a] = v] *)
Definition set_attr (a : pystr) (v : pyval) (d : dset) : dset :=
  {| shape := shape d; maxshape := maxshape d;
     value := value d; attrs := <[a := v]> (attrs d) |}.

Definition attrs_setitem (g key a : pystr) (v : pyval) : M unit :=
  d ← group_getitem g key;
  put_dset g key (set_attr a v d).

Definition within (n : nat) (mx : option nat) : bool :=
  match mx with None => true | Some k => bool_decide (n ≤ k) end.

(** The table after [resize]: cells inside both extents keep their value,
    new cells hold the fill value. *)
Definition resized_value (d : dset) (shp : nat * nat) : list spec_float :=
  flat_map (λ i,
    map (λ j, if bool_decide (i < d.(shape).1) && bool_decide (j < d.(shape).2)
              then cell d i j else fillvalue)
        (seq 0 shp.2))
    (seq 0 shp.1).

(** [dset.resize(shp)]: refused beyond the maximal shape. *)
Definition resize (shp : nat * nat) (d : dset) : result dset :=
  if within shp.1 d.(maxshape).1 && within shp.2 d.(maxshape).2 then
    Ok {| shape := shp; maxshape := maxshape d;
          value := resized_value d shp; attrs := attrs d |}
  else Raise ValueError.

Definition dset_resize (g key : pystr) (shp : nat * nat) : M unit :=
  d ← group_getitem g key;
  d' ← lift (resize shp d);
  put_dset g key d'.

(** The cells h5py writes for [dset[start:stop] = v] once the shapes were
    found compatible: an extent of one in [v] is repeated. *)
Definition broadcast_rows (v : ndarray_t) (vr vc count cols : nat)
  : list spec_float :=
  flat_map (λ i,
    map (λ j, nth ((if bool_decide (vr = 1) then 0 else i) * vc
                   + (if bool_decide (vc = 1) then 0 else j))
                  (nd_data v) fillvalue)
        (seq 0 cols))
    (seq 0 count).

(** [dset[start:stop] = v]: an empty selection returns at once; otherwise
    every extent of [v] must be one or the selection's. *)
Definition assign_rows (start stop : nat) (v : ndarray_t) (d : dset)
  : result dset :=
  let '(rows, cols) := shape d in
  let a := start `min` rows in
  let b := stop `min` rows in
  let count := b - a in
  if bool_decide (count * cols = 0) then Ok d
  else
    match nd_shape v with
    | [vr; vc] =>
        if (bool_decide (vr = 1) || bool_decide (vr = count))
           && (bool_decide (vc = 1) || bool_decide (vc = cols))
        then
          Ok {| shape := shape d; maxshape := maxshape d;
                value := take (a * cols) (value d)
                         ++ broadcast_rows v vr vc count cols
                         ++ drop (b * cols) (value d);
                attrs := attrs d |}
        else Raise TypeError
    | _ => Raise TypeError
    end.

Definition dset_setitem (g key : pystr) (start stop : nat) (v : ndarray_t)
  : M unit :=
  d ← group_getitem g key;
  d' ← lift (assign_rows start stop v d);
  put_dset g key d'.

(** *** Attributes of the formatter object *)

Definition load_data_object : M pystr :=
  o ← gets (λ st, data_object (st_self st)); from_option AttributeError o.

Definition load_arr_group : M pystr :=
  o ← gets (λ st, arr_group (st_self st)); from_option AttributeError o.

Definition store_data_object (h : pystr) : M unit :=
  modify (λ st, set_self {| data_object := Some h;
                            filepath := filepath (st_self st);
                            arr_group := arr_group (st_self st);
                            station := station (st_self st) |} st).

Definition store_filepath (p : pystr) : M unit :=
  modify (λ st, set_self {| data_object := data_object (st_self st);
                            filepath := Some p;
                            arr_group := arr_group (st_self st);
                            station := station (st_self st) |} st).

Definition store_arr_group (g : pystr) : M unit :=
  modify (λ st, set_self {| data_object := data_object (st_self st);
                            filepath := filepath (st_self st);
                            arr_group := Some g;
                            station := station (st_self st) |} st).

(** ** HDF5Format (hdf5_format.py, lines 23-160) *)

Definition _create_file (filepath : pystr) : M pystr :=
  let '(folder, _filename) := os_path_split filepath in
  isdir ← os_path_isdir folder;
  (if negb isdir then os_makedirs folder else mret tt);;
  data_object ← h5py_File_a filepath;
  mret data_object.

Definition set_units (u : pyval) (d : DataArray) : DataArray :=
  {| array_id := array_id d; name := name d; label := label d; units := u;
     is_setpoint := is_setpoint d; set_arrays := set_arrays d;
     ndarray := ndarray d; _sa_array_ids := _sa_array_ids d |}.

(** [array] is the address of the DataArray, [group] the group object. *)
Definition _create_dataarray_dset (array : nat) (group : pystr) : M unit :=
  a ← deref array;
  let label := match label a with Some l => l | None => array_id a end in
  let name := match name a with Some n => n | None => array_id a end in
  match units a with
   | VNone => heap_store array (set_units (VList [VStr []]) a)
   | _ => mret tt
   end;;
  a ← deref array;
  let units := units a in
  n ← lift (py_len units);
  create_dataset group (array_id a) (0, n) (None, Some n);;
  v ← lift (_encode_to_utf8 (VStr (py_str (VStr label))));
  attrs_setitem group (array_id a) (py "label") v;;
  v ← lift (_encode_to_utf8 (VStr (py_str (VStr name))));
  attrs_setitem group (array_id a) (py "name") v;;
  v ← lift (_encode_to_utf8 (VStr (py_str units)));
  attrs_setitem group (array_id a) (py "units") v;;
  v ← lift (_encode_to_utf8 (VStr (py_str (VBool (is_setpoint a)))));
  attrs_setitem group (array_id a) (py "is_setpoint") v;;
  if negb (is_setpoint a) then
    set_arrays ← fold_each (seq 0 (length (set_arrays a))) []
      (λ acc i,
         r ← from_option IndexError (set_arrays a !! i);
         sa ← deref r;
         v ← lift (_encode_to_utf8 (VStr (py_str (VStr (array_id sa)))));
         mret (acc ++ [v]));
    attrs_setitem group (array_id a) (py "set_arrays") (VList set_arrays)
  else mret tt.

(** Lines 108-121, the second half of the body of the loop of [write]:
    resize the stored table and add the new values. *)
Definition append_new_values (data_set : DataSet) (array_id : pystr)
  : M unit :=
  grp ← load_arr_group;
  dset ← group_getitem grp array_id;
  let datasetshape := shape dset in
  let old_dlen := datasetshape.1 in
  xa ← from_option KeyError (dict_get array_id (arrays data_set));
  x ← deref xa;
  let new_dlen := populated_length (ndarray x) in
  let new_datasetshape := (new_dlen, datasetshape.2) in
  dset_resize grp array_id new_datasetshape;;
  ya ← from_option KeyError (dict_get array_id (arrays data_set));
  y ← deref ya;
  s ← lift (nd_slice (ndarray y) old_dlen new_dlen);
  v ← lift (nd_reshape s [new_datasetshape.1; new_datasetshape.2]);
  dset_setitem grp array_id old_dlen new_dlen v.

(** The body of the loop of [write] (lines 105-121). *)
Definition write_array (data_set : DataSet) (force_write : bool)
    (array_id : pystr) : M unit :=
  grp ← load_arr_group;
  keys ← group_keys grp;
  (if bool_decide (array_id ∉ keys) || force_write then
     array ← from_option KeyError (dict_get array_id (arrays data_set));
     group ← load_arr_group;
     _create_dataarray_dset array group
   else mret tt);;
  append_new_values data_set array_id.

Definition write (data_set : DataSet) (force_write : bool) : M unit :=
  obj ← gets (λ st, data_object (st_self st));
  (if bool_decide (obj = None) || force_write then
     let location := location data_set in
     let filename := (os_path_split location).2 in
     let path := io_join data_set
                   (location ++ py "/" ++ filename ++ py ".hdf5") in
     store_filepath path;;
     f ← _create_file path;
     store_data_object f
   else mret tt);;
  f ← load_data_object;
  keys ← file_keys f;
  (if bool_decide (py "Data Arrays" ∉ keys) then
     g ← create_arrays_group f;
     store_arr_group g
   else mret tt);;
  for_each (dict_keys (arrays data_set)) (write_array data_set force_write).

(** [dat_arr.value[:, 0]] *)
Definition first_column (d : dset) : result (list spec_float) :=
  if bool_decide (d.(shape).2 = 0) then Raise IndexError
  else Ok ((λ i, cell d i 0) <$> seq 0 d.(shape).1).

(** Modelled from the spec: the constructor call
    [DataArray(name=.., array_id=.., label=.., parameter=None, units=..,
    is_setpoint=.., set_arrays=.., preset_data=..)], which keeps what it is
    given and takes [preset_data] as the one-dimensional payload. *)
Definition new_DataArray (name : pystr) (array_id : pystr)
    (label : option pystr) (units : pyval) (is_setpoint : bool)
    (set_arrays : list nat) (preset_data : list spec_float) : DataArray :=
  {| array_id := array_id; name := Some name; label := label; units := units;
     is_setpoint := is_setpoint; set_arrays := set_arrays;
     ndarray := {| nd_shape := [length preset_data]; nd_data := preset_data |};
     _sa_array_ids := None |}.

(** Modelled from the spec: [data_set.add_array(d)] files the object under
    its array id. *)
Definition add_array (data_set : DataSet) (d_id : pystr) (d : nat) : DataSet :=
  {| location := location data_set; io_join := io_join data_set;
     arrays := dict_set d_id d (arrays data_set) |}.

(** Lines 52-75 of [read]: what is taken from one stored entry, the new
    DataArray and the list of array ids kept for the second pass. *)
Definition read_entry (array_id : pystr) (dat_arr : dset)
  : result (DataArray * list pystr) :=
  let name := array_id in
  label ← match attrs dat_arr !! py "label" with
           | Some v => Some <$> decode_method v
           | None => Ok None
           end;
  name ← match attrs dat_arr !! py "name" with
          | Some v => decode_method v
          | None => Ok name
          end;
  units ← match attrs dat_arr !! py "units" with
           | Some v => VStr <$> decode_method v
           | None => Ok VNone
           end;
  v ← match attrs dat_arr !! py "is_setpoint" with
       | Some v => Ok v | None => Raise KeyError end;
  s ← decode_method v;
  is_setpoint ← str_to_bool s;
  set_arrays ←
    (if negb is_setpoint then
       set_arrays ← match attrs dat_arr !! py "set_arrays" with
                     | Some v => Ok v | None => Raise KeyError end;
       items ← py_iter set_arrays;
       mapM decode_method items
     else Ok []);
  preset_data ← first_column dat_arr;
  Ok (new_DataArray name array_id label units is_setpoint [] preset_data,
      set_arrays).

Definition set_sa_array_ids (ids : list pystr) (d : DataArray) : DataArray :=
  {| array_id := array_id d; name := name d; label := label d;
     units := units d; is_setpoint := is_setpoint d;
     set_arrays := set_arrays d; ndarray := ndarray d;
     _sa_array_ids := Some ids |}.

Definition add_set_array (r : nat) (d : DataArray) : DataArray :=
  {| array_id := array_id d; name := name d; label := label d;
     units := units d; is_setpoint := is_setpoint d;
     set_arrays := set_arrays d ++ [r]; ndarray := ndarray d;
     _sa_array_ids := _sa_array_ids d |}.

(** The body of the first loop of [read] (lines 52-78); the data set is
    mutated in place in the source and threaded here. [f] is
    [self.data_object]. *)
Definition read_array (f : pystr) (data_set : DataSet) (array_id : pystr)
  : M DataSet :=
  grp ← file_arrays_group f;
  dat_arr ← from_option KeyError (grp !! array_id);
  '(d_array, set_arrays) ← lift (read_entry array_id dat_arr);
  d ← alloc d_array;
  let data_set := add_array data_set array_id d in
  a ← from_option KeyError (dict_get array_id (arrays data_set));
  o ← deref a;
  heap_store a (set_sa_array_ids set_arrays o);;
  mret data_set.

(** The first loop of [read] (lines 49-78). *)
Definition read_arrays (f : pystr) (data_set : DataSet) : M DataSet :=
  grp ← file_arrays_group f;
  fold_each (map_to_list grp).*1 data_set (read_array f).

(** Line 85: [d_array.set_arrays += (data_set.arrays[sa_id], )]. *)
Definition append_set_array (data_set : DataSet) (d_array : nat)
    (sa_id : pystr) : M unit :=
  r ← from_option KeyError (dict_get sa_id (arrays data_set));
  d ← deref d_array;
  heap_store d_array (add_set_array r d).

(** The body of the second loop of [read] (lines 83-85); the [print] of
    line 83 writes to the standard output only and is left out. *)
Definition resolve_array (data_set : DataSet) (item : pystr * nat) : M unit :=
  let '(array_id, d_array) := item in
  d ← deref d_array;
  ids ← from_option AttributeError (_sa_array_ids d);
  for_each ids (append_set_array data_set d_array).

(** The second loop of [read] (lines 82-85). *)
Definition resolve_set_arrays (data_set : DataSet) : M unit :=
  for_each (arrays data_set) (resolve_array data_set).

Definition read (data_set : DataSet) : M DataSet :=
  let location := location data_set in
  let filepath := location in
  f ← h5py_File_rw filepath;
  store_data_object f;;
  data_set ← read_arrays f data_set;
  resolve_set_arrays data_set;;
  mret data_set.

(** ** save_instrument_snapshot (lines 200-222) *)

(** What a name of the module namespace can be bound to. The source binds
    modules, classes and functions only; [BFile] and [BSorter] stand for
    what the body expects behind [data_object] and
    [dict_to_ordered_tuples]. *)
Inductive binding :=
  | BModule | BClass | BFunction
  | BFile (h : pystr)
  | BSorter.

(** The names the module binds: its imports, its class, its two helpers. *)
Definition module_globals : gmap string binding :=
  list_to_map
    [("np", BModule); ("h5py", BModule); ("re", BModule); ("math", BModule);
     ("os", BModule); ("DataArray", BClass); ("Formatter", BClass);
     ("HDF5Format", BClass); ("_encode_to_utf8", BFunction);
     ("str_to_bool", BFunction)]%string.

(** A name that is neither local nor global nor built in: [NameError]. *)
Definition load_global (globals : gmap string binding) (n : string)
  : M binding :=
  from_option NameError (globals !! n).

Fixpoint lex_leb (a b : pystr) : bool :=
  match a, b with
  | [], _ => true
  | _ :: _, [] => false
  | x :: a', y :: b' =>
      if (x <? y)%Z then true else if (y <? x)%Z then false else lex_leb a' b'
  end.

Fixpoint insert_sorted {V} (kv : pystr * V) (l : list (pystr * V))
  : list (pystr * V) :=
  match l with
  | [] => [kv]
  | kv' :: l' =>
      if lex_leb kv.1 kv'.1 then kv :: l else kv' :: insert_sorted kv l'
  end.

(** Modelled from the spec: [dict_to_ordered_tuples], which the module
    neither defines nor imports; the items of the dictionary, sorted by
    name. *)
Definition dict_to_ordered_tuples {V} (d : list (pystr * V))
  : list (pystr * V) :=
  foldr insert_sorted [] d.

Definition call_sorter {V} (f : binding) (d : list (pystr * V))
  : M (list (pystr * V)) :=
  match f with
  | BSorter => mret (dict_to_ordered_tuples d)
  | _ => raise TypeError
  end.

(** [file.create_group('Meta-data')] *)
Definition create_meta_group (o : binding) : M pystr :=
  match o with
  | BFile h =>
      f ← get_file h;
      match meta_data f with
      | Some _ => raise ValueError
      | None =>
          put_file h {| data_arrays := data_arrays f; meta_data := Some ∅ |};;
          mret h
      end
  | _ => raise AttributeError
  end.

Definition meta_members (g : pystr) : M (gmap pystr (gmap pystr pyval)) :=
  f ← get_file g; from_option SystemError (meta_data f).

Definition put_meta (g : pystr) (m : gmap pystr (gmap pystr pyval)) : M unit :=
  f ← get_file g;
  put_file g {| data_arrays := data_arrays f; meta_data := Some m |}.

(** [set_grp.create_group(iname)] *)
Definition create_subgroup (g iname : pystr) : M pystr :=
  m ← meta_members g;
  match m !! iname with
  | Some _ => raise ValueError
  | None => put_meta g (<[iname := ∅]> m);; mret iname
  end.

(** [instrument_grp.attrs[p_name] = v] *)
Definition subgroup_attrs_setitem (g iname p_name : pystr) (v : pyval)
  : M unit :=
  m ← meta_members g;
  a ← from_option SystemError (m !! iname);
  put_meta g (<[iname := <[p_name := v]> a]> m).

(** The [snapshot] argument is never read by the body. *)
Definition save_instrument_snapshot (globals : gmap string binding)
    (snapshot : list (pystr * par_snap_t)) : M unit :=
  data_object ← load_global globals "data_object";
  set_grp ← create_meta_group data_object;
  f ← load_global globals "dict_to_ordered_tuples";
  station ← (o ← gets (λ st, station (st_self st));
             from_option AttributeError o);
  inslist ← call_sorter f station;
  for_each inslist
    (λ '(iname, ins),
       instrument_grp ← create_subgroup set_grp iname;
       let par_snap := ins in
       f ← load_global globals "dict_to_ordered_tuples";
       parameter_list ← call_sorter f par_snap;
       for_each parameter_list
         (λ '(p_name, p),
            let val := match dict_get (py "value") p with
                       | Some v => py_str v
                       | None => py ""
                       end in
            subgroup_attrs_setitem set_grp instrument_grp p_name
              (VStr (py_str (VStr val))))).

(** ** Notions used to state the properties *)

(** The data sets of the group 'Data Arrays' of the container at [g]. *)
Definition members_of (st : state) (g : pystr) : option (gmap pystr dset) :=
  st_files st !! g ≫= data_arrays.

(** The state in which that group holds the data sets [m]. *)
Definition with_members (g : pystr) (m : gmap pystr dset) (st : state)
  : state :=
  match st_files st !! g with
  | Some f =>
      set_files (<[g := {| data_arrays := Some m;
                           meta_data := meta_data f |}]> (st_files st)) st
  | None => st
  end.

(** Lines 119-121 on the resized table [d1]: slice, reshape, assign. *)
Definition append_rows (x : ndarray_t) (d1 : dset) (old new : nat)
  : result dset :=
  s ← nd_slice x old new;
  v ← nd_reshape s [new; d1.(shape).2];
  assign_rows old new v d1.

(** The populated prefix in the spec's words: the length of the longest
    prefix without the not-a-number sentinel. *)
Fixpoint nan_free_prefix (l : list spec_float) : nat :=
  match l with
  | [] => 0
  | x :: l' => if is_nan x then 0 else S (nan_free_prefix l')
  end.

(** The column count and the maximal shape of every stored table of [st]
    are those it has in [st']. *)
Definition cols_kept (st st' : state) : Prop :=
  ∀ g m key d,
    members_of st g = Some m → m !! key = Some d →
    ∃ m' d', members_of st' g = Some m' ∧ m' !! key = Some d' ∧
             (shape d').2 = (shape d).2 ∧ maxshape d' = maxshape d.

(** The encoded array ids collected by the loop of lines 155-157. *)
Definition set_array_attr (heap : list DataArray) (r : nat) (v : pyval) : Prop :=
  ∃ sa, heap !! r = Some sa ∧
        _encode_to_utf8 (VStr (py_str (VStr (array_id sa)))) = Ok v.

(** The units the storage is created with: the placeholder for [None]. *)
Definition with_placeholder_units (a : DataArray) : DataArray :=
  match units a with
  | VNone => set_units (VList [VStr []]) a
  | _ => a
  end.

(** *** Reading, as functions of the container *)

(** What the first loop of [read] takes from the stored entries, in the
    order of iteration. *)
Definition read_entries (l : list (pystr * dset))
  : result (list (DataArray * list pystr)) :=
  mapM (λ kd, read_entry kd.1 kd.2) l.

(** The object the first loop leaves on the heap for one entry. *)
Definition first_pass_object (o : DataArray * list pystr) : DataArray :=
  set_sa_array_ids o.2 o.1.

Definition with_set_arrays (rs : list nat) (d : DataArray) : DataArray :=
  {| array_id := array_id d; name := name d; label := label d;
     units := units d; is_setpoint := is_setpoint d;
     set_arrays := set_arrays d ++ rs; ndarray := ndarray d;
     _sa_array_ids := _sa_array_ids d |}.

(** The addresses the kept array ids denote in the dictionary [A]; [None]
    when an id is no key of [A]. *)
Definition resolve_ids (A : list (pystr * nat)) (ids : list pystr)
  : option (list nat) :=
  mapM (λ id, dict_get id A) ids.

Definition resolve_all (A : list (pystr * nat))
    (objs : list (DataArray * list pystr)) : option (list (list nat)) :=
  mapM (λ o, resolve_ids A o.2) objs.

(** The object the second loop leaves on the heap. *)
Definition second_pass_object (o : DataArray * list pystr) (rs : list nat)
  : DataArray :=
  with_set_arrays rs (first_pass_object o).

(** The formatter after [read] took the container of the data set. *)
Definition reading (ds : DataSet) (self : HDF5Format) : HDF5Format :=
  {| data_object := Some (location ds); filepath := filepath self;
     arr_group := arr_group self; station := station self |}.

(** The optional attributes of a stored entry, where present, are bytes
    that decode. *)
Definition optional_attrs_decodable (dat : dset) : Prop :=
  ∀ a v, a ∈ [py "label"; py "name"; py "units"] →
         attrs dat !! a = Some v → ∃ s, decode_method v = Ok s.

(** ** The measurement of the spec's scenario *)

Module Scenario.

(** An integer as a sample. *)
Definition num (z : Z) : spec_float :=
  match z with
  | Z0 => S754_zero false
  | Zpos p => S754_finite false p 0
  | Zneg p => S754_finite true p 0
  end.

Definition nan : spec_float := S754_nan.

Definition vector (l : list spec_float) : ndarray_t :=
  {| nd_shape := [length l]; nd_data := l |}.

Definition new_array (id : pystr) (u : pyval) (setpoint : bool)
    (sa : list nat) (l : list spec_float) : DataArray :=
  {| array_id := id; name := None; label := None; units := u;
     is_setpoint := setpoint; set_arrays := sa; ndarray := vector l;
     _sa_array_ids := None |}.

(** [x] is a setpoint array at address 0, [y] depends on it. *)
Definition measured (xs ys : list spec_float) : list DataArray :=
  [new_array (py "x") VNone true [] xs;
   new_array (py "y") VNone false [0] ys].

Definition data_set : DataSet :=
  {| location := py "data/run1"; io_join := λ p, p;
     arrays := [(py "x", 0); (py "y", 1)] |}.

Definition container : pystr := py "data/run1/run1.hdf5".

(** Nothing on disk, a new formatter, three samples taken. *)
Definition start : state :=
  {| st_heap := measured [num 0; num 1; num 2; nan; nan]
                         [num 10; num 11; num 12; nan; nan];
     st_dirs := ∅; st_files := ∅; st_self := __init__ |}.

(** The measurement layer replaces the payloads; the stored metadata of
    the arrays is what the formatter left. *)
Definition set_payload (l : list spec_float) (d : DataArray) : DataArray :=
  {| array_id := array_id d; name := name d; label := label d;
     units := units d; is_setpoint := is_setpoint d;
     set_arrays := set_arrays d; ndarray := vector l;
     _sa_array_ids := _sa_array_ids d |}.

Definition acquire (xs ys : list spec_float) (st : state) : state :=
  set_heap (alter (set_payload ys) 1 (alter (set_payload xs) 0 (st_heap st)))
           st.

Definition after_first_write : state := (write data_set false start).2.

(** A fourth sample arrives. *)
Definition grown : state :=
  acquire [num 0; num 1; num 2; num 3; nan]
          [num 10; num 11; num 12; num 13; nan] after_first_write.

(** The arrays are cleared for another sweep. *)
Definition cleared : state :=
  acquire [nan; nan; nan; nan; nan] [nan; nan; nan; nan; nan]
          after_first_write.

(** The same container, written by a formatter created afterwards. *)
Definition reopened : state := set_self __init__ grown.

Definition stored (st : state) (key : pystr) : option dset :=
  members_of st container ≫= (.!! key).

Definition stored_shape (st : state) (key : pystr) : option (nat * nat) :=
  shape <$> stored st key.

Definition stored_value (st : state) (key : pystr)
  : option (list spec_float) :=
  value <$> stored st key.

(** An array whose populated cells are not a prefix. *)
Definition gap_set : DataSet :=
  {| location := py "data/run2"; io_join := λ p, p;
     arrays := [(py "x", 0)] |}.

Definition gap_start : state :=
  {| st_heap := [new_array (py "x") VNone true [] [num 1; nan; num 2]];
     st_dirs := ∅; st_files := ∅; st_self := __init__ |}.

Definition gap_stored (st : state) : option dset :=
  members_of st (py "data/run2/run2.hdf5") ≫= (.!! py "x").

(** An array with a three-element unit descriptor. *)
Definition ohm_set : DataSet :=
  {| location := py "data/run3"; io_join := λ p, p;
     arrays := [(py "r", 0)] |}.

Definition ohm_start : state :=
  {| st_heap := [new_array (py "r") (VStr (py "ohm")) true []
                   [num 1; num 2; num 3; nan; nan]];
     st_dirs := ∅; st_files := ∅; st_self := __init__ |}.

(** The data set handed to [read]: its location is the container. *)
Definition to_read : DataSet :=
  {| location := container; io_join := λ p, p; arrays := [] |}.

(** The container after the table of [x] was removed from it. *)
Definition without_x : state :=
match members_of after_first_write container with
| Some m => with_members container (delete (py "x") m) after_first_write
| None => after_first_write
end.

(** A stored entry without some of its attributes. *)
Definition drop_attrs (l : list pystr) (d : dset) : dset :=
{| shape := shape d; maxshape := maxshape d; value := value d;
   attrs := foldr delete (attrs d) l |}.

Definition empty_dset : dset :=
{| shape := (0, 1); maxshape := (None, Some 1); value := []; attrs := ∅ |}.

Definition entry_x : dset :=
default empty_dset (stored after_first_write (py "x")).

Definition entry_y : dset :=
default empty_dset (stored after_first_write (py "y")).

(** The container with the entry of [key] replaced. *)
Definition with_entry (key : pystr) (d : dset) : state :=
match members_of after_first_write container with
| Some m => with_members container (<[key := d]> m) after_first_write
| None => after_first_write
end.

(** The entry of [x] with a token that is no boolean. *)
Definition corrupted_x : dset :=
set_attr (py "is_setpoint") (VBytes (py "yes")) entry_x.

End Scenario.

Module Prepared.
Import Scenario.

(** The state in which the loop of the first write meets the array with
    the three-element unit descriptor: the container and its group were
    just created. *)
Definition ohm_container : pystr := py "data/run3/run3.hdf5".

Definition ohm_ready : state :=
  {| st_heap := st_heap ohm_start;
     st_dirs := {[py "data/run3"]};
     st_files := {[ohm_container :=
                     {| data_arrays := Some ∅; meta_data := None |}]};
     st_self := {| data_object := Some ohm_container;
                   filepath := Some ohm_container;
                   arr_group := Some ohm_container;
                   station := None |} |}.
End Prepared.

(** ** Notions used to state the further properties *)

(** The path of the container of a data set (lines 93-96 of [write]). *)
Definition container_path (ds : DataSet) : pystr :=
  io_join ds (location ds ++ py "/" ++ (os_path_split (location ds)).2
              ++ py ".hdf5").

(** The path has a folder part: [os.makedirs] is never asked to make the
    empty path, which it refuses. *)
Definition has_folder (p : pystr) : Prop := (os_path_split p).1 ≠ [].

(** The formatter once it holds the container at [p]; [g] is what its
    [arr_group] attribute becomes. *)
Definition holding (p : pystr) (g : option pystr) (self : HDF5Format)
  : HDF5Format :=
  {| data_object := Some p; filepath := Some p; arr_group := g;
     station := station self |}.

(** The state in which the loop of a [write] that opens the container
    starts: the folder is a directory, the container exists and has its
    group 'Data Arrays', the formatter holds both (it keeps the group object
    it had when the group was there already). *)
Definition opened (ds : DataSet) (st : state) : state :=
  let p := container_path ds in
  let folder := (os_path_split p).1 in
  let f := default empty_h5file (st_files st !! p) in
  {| st_heap := st_heap st;
     st_dirs := if bool_decide (folder ∈ st_dirs st) then st_dirs st
                else {[folder]} ∪ st_dirs st;
     st_files :=
       match st_files st !! p, data_arrays f with
       | Some _, Some _ => st_files st
       | _, _ => <[p := {| data_arrays := Some (default ∅ (data_arrays f));
                           meta_data := meta_data f |}]> (st_files st)
       end;
     st_self := holding p (match data_arrays f with
                           | Some _ => arr_group (st_self st)
                           | None => Some p
                           end) (st_self st) |}.

(** The attribute value a text is stored as. *)
Definition encoded (s : pystr) : option pyval := VBytes <$> Utf8.encode s.

(** The attributes the storage of the array [a] is created with (lines
    148-158); [None] when a text has no encoding or a referenced address
    holds no object. *)
Definition stored_attrs (heap : list DataArray) (a : DataArray)
  : option (gmap pystr pyval) :=
  vl ← encoded (default (array_id a) (label a));
  vn ← encoded (default (array_id a) (name a));
  vu ← encoded (py_str (units a));
  let base :=
    <[py "is_setpoint" :=
        VBytes (py (if is_setpoint a then "True" else "False"))]>
      (<[py "units" := vu]> (<[py "name" := vn]> (<[py "label" := vl]> ∅))) in
  if is_setpoint a then Some base
  else
    ids ← mapM (λ r, heap !! r ≫= λ sa, encoded (array_id sa)) (set_arrays a);
    Some (<[py "set_arrays" := VList ids]> base).

(** The table a first write leaves for a one-dimensional array stored in
    one column: the first [populated_length] values. *)
Definition first_table (A : gmap pystr pyval) (x : ndarray_t) : dset :=
  {| shape := (populated_length x, 1); maxshape := (None, Some 1);
     value := take (populated_length x) (nd_data x); attrs := A |}.

(** What a [write] whose container is at [p] may do to the rest of the
    state: the objects of the heap stay where they are and as they are but
    for the placeholder that replaces missing units; no container other
    than [p] appears, none disappears, the meta-data of each is kept; no
    directory disappears; the station of the formatter is kept. *)
Definition write_frame (p : pystr) (st st' : state) : Prop :=
  length (st_heap st') = length (st_heap st) ∧
  (∀ i a, st_heap st !! i = Some a →
          st_heap st' !! i = Some a ∨
          st_heap st' !! i = Some (with_placeholder_units a)) ∧
  (∀ q, q ≠ p → st_files st !! q = None → st_files st' !! q = None) ∧
  (∀ q f, st_files st !! q = Some f →
          ∃ f', st_files st' !! q = Some f' ∧ meta_data f' = meta_data f) ∧
  st_dirs st ⊆ st_dirs st' ∧
  station (st_self st') = station (st_self st).

(** What a [read] of the container at [p] may do to the rest of the state:
    the containers and the directories are as they were, the formatter
    keeps all but its [data_object], which may become [p], and no object
    leaves the heap. *)
Definition read_frame (p : pystr) (st st' : state) : Prop :=
  st_files st' = st_files st ∧ st_dirs st' = st_dirs st ∧
  filepath (st_self st') = filepath (st_self st) ∧
  arr_group (st_self st') = arr_group (st_self st) ∧
  station (st_self st') = station (st_self st) ∧
  length (st_heap st) ≤ length (st_heap st') ∧
  (data_object (st_self st') = data_object (st_self st) ∨
   data_object (st_self st') = Some p).

(** An array a first write can store: it is filed under its own array id,
    it is one-dimensional, its unit descriptor (the placeholder when it has
    none) has length one, and the texts of its attributes have encodings. *)
Definition storable (heap : list DataArray) (key : pystr) (a : DataArray)
  : Prop :=
  array_id a = key ∧
  nd_shape (ndarray a) = [length (nd_data (ndarray a))] ∧
  py_len (units (with_placeholder_units a)) = Ok 1 ∧
  is_Some (stored_attrs heap (with_placeholder_units a)).

(** The heap [h] is the heap [h0] but for placeholder units. *)
Definition placeholders_only (h0 h : list DataArray) : Prop :=
  length h = length h0 ∧
  ∀ i a, h0 !! i = Some a →
         h !! i = Some a ∨ h !! i = Some (with_placeholder_units a).

(** The array ids of the set arrays of [a] as they are stored: none for a
    setpoint array. *)
Definition set_array_ids (heap : list DataArray) (a : DataArray)
  : option (list pystr) :=
  if is_setpoint a then Some []
  else mapM (λ r, array_id <$> heap !! r) (set_arrays a).

(** What [read] makes of the table a first write left for [a] under [key],
    before the set arrays are resolved: name and label are texts, the units
    are the text of what was given, the payload is the stored rows. *)
Definition read_back (key : pystr) (a : DataArray) : DataArray :=
  new_DataArray (default (array_id a) (name a)) key
    (Some (default (array_id a) (label a)))
    (VStr (py_str (units a))) (is_setpoint a) []
    (take (populated_length (ndarray a)) (nd_data (ndarray a))).

(** * Properties *)

(** ** The UTF-8 codec *)

Ltac cmp_step :=
  match goal with
  | |- context [(?a <? ?b)%Z] =>
      destruct (Z.ltb_spec a b); [try (exfalso; lia) | try (exfalso; lia)]
  | |- context [(?a <=? ?b)%Z] =>
      destruct (Z.leb_spec a b); [try (exfalso; lia) | try (exfalso; lia)]
  end.

(** The quotients and remainders of a code point by 64, 4096 and 262144,
    as linear facts. *)
Lemma radix64 c :
  (0 ≤ c)%Z →
  ∃ q1 r1 q2 r2 q3 r3 : Z,
    (c / 64 = q1 ∧ c mod 64 = r1 ∧ c = 64 * q1 + r1 ∧ 0 ≤ r1 < 64 ∧
     c / 4096 = q2 ∧ (c / 64) mod 64 = r2 ∧ q1 = 64 * q2 + r2 ∧ 0 ≤ r2 < 64 ∧
     c / 262144 = q3 ∧ (c / 4096) mod 64 = r3 ∧ q2 = 64 * q3 + r3 ∧
     0 ≤ r3 < 64 ∧ 0 ≤ q3)%Z.
Proof.
  intros Hc.
  exists (c / 64)%Z, (c mod 64)%Z, (c / 4096)%Z, ((c / 64) mod 64)%Z,
    (c / 262144)%Z, ((c / 4096) mod 64)%Z.
  assert (c / 4096 = c / 64 / 64)%Z as E2 by (rewrite Z.div_div by lia; reflexivity).
  assert (c / 262144 = c / 4096 / 64)%Z as E3 by (rewrite Z.div_div by lia; reflexivity).
  pose proof (Z.div_mod c 64). pose proof (Z.mod_pos_bound c 64).
  pose proof (Z.div_mod (c / 64) 64). pose proof (Z.mod_pos_bound (c / 64) 64).
  pose proof (Z.div_mod (c / 4096) 64).
  pose proof (Z.mod_pos_bound (c / 4096) 64).
  assert (0 ≤ c / 262144)%Z by (apply Z.div_pos; lia).
  rewrite <- E2 in *. rewrite <- E3 in *.
  repeat split; lia.
Qed.

Lemma utf8_decode_encode_cp c b rest :
  Utf8.encode_cp c = Some b → Utf8.decode (b ++ rest) = Utf8.cons_cp c (Utf8.decode rest).
Proof.
  unfold Utf8.encode_cp.
  destruct (Z.ltb_spec c 0) as [|Hc0]; [done|].
  destruct (radix64 c) as
    (q1 & r1 & q2 & r2 & q3 & r3 & Hq1 & Hr1 & E1 & B1 & Hq2 & Hr2 & E2 & B2
     & Hq3 & Hr3 & E3 & B3 & B4); [done|].
  rewrite Hr2, Hr3, Hq1, Hr1, Hq2, Hq3. clear Hq1 Hr1 Hq2 Hr2 Hq3 Hr3.
  intros Henc.
  destruct (Z.ltb_spec c 128).
  { injection Henc as <-. cbn [app Utf8.decode]. repeat cmp_step. done. }
  destruct (Z.ltb_spec c 2048).
  { injection Henc as <-. cbn [app Utf8.decode]. unfold Utf8.is_cont.
    repeat cmp_step. cbn [andb]. f_equal. lia. }
  destruct (Z.ltb_spec c 65536).
  { destruct (Utf8.is_surrogate c) eqn:Hs; [done|]. injection Henc as <-.
    cbn [app Utf8.decode]. unfold Utf8.is_cont.
    replace ((224 + q2 - 224) * 4096 + (128 + r2 - 128) * 64
             + (128 + r1 - 128))%Z with c by lia.
    rewrite Hs. repeat cmp_step. done. }
  destruct (Z.ltb_spec c 1114112); [|done].
  injection Henc as <-. cbn [app Utf8.decode]. unfold Utf8.is_cont.
  replace ((240 + q3 - 240) * 262144 + (128 + r3 - 128) * 4096
           + (128 + r2 - 128) * 64 + (128 + r1 - 128))%Z with c by lia.
  repeat cmp_step. done.
Qed.

Lemma utf8_decode_encode s b : Utf8.encode s = Some b → Utf8.decode b = Some s.
Proof.
  revert b. induction s as [|c s IH]; intros b; simpl.
  - by intros [= <-].
  - destruct (Utf8.encode_cp c) as [bc|] eqn:Hc; [|done].
    destruct (Utf8.encode s) as [bs|]; [|done]. intros [= <-].
    rewrite (utf8_decode_encode_cp _ _ _ Hc), (IH bs eq_refl). done.
Qed.

(** Code points below 128 are their own encoding. *)
Lemma utf8_encode_ascii s :
  Forall (λ c, 0 ≤ c < 128)%Z s → Utf8.encode s = Some s.
Proof.
  induction 1 as [|c s Hc _ IH]; simpl; [done|].
  rewrite IH. unfold Utf8.encode_cp.
  destruct (Z.ltb_spec c 0); [lia|]. destruct (Z.ltb_spec c 128); [done|lia].
Qed.

(** ** Running the monad *)

Lemma run_bind {A B} (m : M A) (f : A → M B) st :
  (m ≫= f) st = match m st with
                | (Ok a, st') => f a st'
                | (Raise e, st') => (Raise e, st')
                end.
Proof. reflexivity. Qed.

Lemma run_ret {A} (a : A) st : mret (M := M) a st = (Ok a, st).
Proof. reflexivity. Qed.

Lemma group_members_run g st m :
  members_of st g = Some m → group_members g st = (Ok m, st).
Proof.
  unfold members_of, group_members, get_file. intros H.
  rewrite !run_bind. unfold gets. simpl.
  destruct (st_files st !! g) as [f|]; [|done]. simpl in *. rewrite H. done.
Qed.

Lemma group_getitem_run g key st m :
  members_of st g = Some m →
  group_getitem g key st
  = (match m !! key with Some d => Ok d | None => Raise KeyError end, st).
Proof.
  intros H. unfold group_getitem. rewrite run_bind, (group_members_run _ _ _ H).
  by destruct (m !! key).
Qed.

Lemma put_dset_run g key d st m :
  members_of st g = Some m →
  put_dset g key d st = (Ok tt, with_members g (<[key := d]> m) st).
Proof.
  intros H. unfold put_dset. rewrite run_bind, (group_members_run _ _ _ H).
  unfold put_members, with_members, get_file, put_file, members_of in *.
  rewrite !run_bind. unfold gets, modify. simpl.
  destruct (st_files st !! g) as [f|]; [|done]. done.
Qed.

Lemma members_of_with_members g m m' st :
  members_of st g = Some m → members_of (with_members g m' st) g = Some m'.
Proof.
  unfold members_of, with_members. destruct (st_files st !! g) as [f|] eqn:E; [|done].
  intros _. simpl. rewrite lookup_insert_eq. done.
Qed.

Lemma with_members_twice g m m1 m2 st :
  members_of st g = Some m →
  with_members g m2 (with_members g m1 st) = with_members g m2 st.
Proof.
  unfold members_of, with_members. destruct (st_files st !! g) as [f|] eqn:E; [|done].
  intros _. simpl. rewrite lookup_insert_eq. unfold set_files; simpl.
  by rewrite insert_insert_eq.
Qed.

Lemma st_heap_with_members g m st : st_heap (with_members g m st) = st_heap st.
Proof. unfold with_members. by destruct (st_files st !! g). Qed.

Lemma st_self_with_members g m st : st_self (with_members g m st) = st_self st.
Proof. unfold with_members. by destruct (st_files st !! g). Qed.

Lemma load_arr_group_run st :
  load_arr_group st
  = (match arr_group (st_self st) with
     | Some g => Ok g | None => Raise AttributeError end, st).
Proof. unfold load_arr_group. rewrite run_bind. unfold gets. by destruct (arr_group _). Qed.

Lemma group_keys_run g st m :
  members_of st g = Some m → group_keys g st = (Ok (map_to_list m).*1, st).
Proof. intros H. unfold group_keys. by rewrite run_bind, (group_members_run _ _ _ H). Qed.

Lemma deref_run a st :
  deref a st
  = (match st_heap st !! a with Some d => Ok d | None => Raise SystemError end, st).
Proof. unfold deref. rewrite run_bind. unfold gets. by destruct (_ !! a). Qed.

Lemma key_in_group (m : gmap pystr dset) key d :
  m !! key = Some d → bool_decide (key ∉ (map_to_list m).*1) = false.
Proof.
  intros H. apply bool_decide_eq_false. intros Hn. apply Hn.
  apply list_elem_of_fmap. exists (key, d). split; [done|].
  by apply elem_of_map_to_list.
Qed.

Lemma dset_resize_run g key shp st m d :
  members_of st g = Some m → m !! key = Some d →
  dset_resize g key shp st
  = match resize shp d with
    | Ok d' => (Ok tt, with_members g (<[key := d']> m) st)
    | Raise e => (Raise e, st)
    end.
Proof.
  intros Hm Hd. unfold dset_resize.
  rewrite run_bind, (group_getitem_run _ _ _ _ Hm), Hd, run_bind. unfold lift.
  destruct (resize shp d); [|done]. by rewrite (put_dset_run _ _ _ _ _ Hm).
Qed.

Lemma dset_setitem_run g key a b v st m d :
  members_of st g = Some m → m !! key = Some d →
  dset_setitem g key a b v st
  = match assign_rows a b v d with
    | Ok d' => (Ok tt, with_members g (<[key := d']> m) st)
    | Raise e => (Raise e, st)
    end.
Proof.
  intros Hm Hd. unfold dset_setitem.
  rewrite run_bind, (group_getitem_run _ _ _ _ Hm), Hd, run_bind. unfold lift.
  destruct (assign_rows a b v d); [|done]. by rewrite (put_dset_run _ _ _ _ _ Hm).
Qed.

Lemma append_new_values_run ds key st g m d xa x :
  arr_group (st_self st) = Some g →
  members_of st g = Some m →
  m !! key = Some d →
  dict_get key (arrays ds) = Some xa →
  st_heap st !! xa = Some x →
  let new := populated_length (ndarray x) in
  append_new_values ds key st
  = match resize (new, d.(shape).2) d with
    | Raise e => (Raise e, st)
    | Ok d1 =>
        match append_rows (ndarray x) d1 d.(shape).1 new with
        | Raise e => (Raise e, with_members g (<[key := d1]> m) st)
        | Ok d2 => (Ok tt, with_members g (<[key := d2]> m) st)
        end
    end.
Proof.
  intros Hg Hm Hd Hxa Hx new. unfold append_new_values.
  rewrite run_bind, load_arr_group_run, Hg.
  rewrite run_bind, (group_getitem_run _ _ _ _ Hm), Hd.
  rewrite Hxa. cbn [from_option]. rewrite run_bind, run_ret.
  rewrite run_bind, deref_run, Hx.
  rewrite run_bind, (dset_resize_run _ _ _ _ _ _ Hm Hd). fold new.
  destruct (resize (new, (shape d).2) d) as [d1|e] eqn:Hr; [|done].
  assert (shape d1 = (new, (shape d).2)) as Hs1.
  { unfold resize in Hr. destruct (_ && _); [|done]. by injection Hr as <-. }
  rewrite run_bind, run_ret, run_bind, deref_run, st_heap_with_members, Hx.
  unfold append_rows. rewrite Hs1. cbn [snd fst].
  rewrite run_bind. unfold lift.
  destruct (nd_slice (ndarray x) (shape d).1 new) as [s|e];
    cbn [mbind result_bind]; [|done].
  rewrite run_bind.
  destruct (nd_reshape s [new; (shape d).2]) as [v|e];
    cbn [mbind result_bind]; [|done].
  rewrite (dset_setitem_run _ _ _ _ _ _ _ d1 (members_of_with_members _ _ _ _ Hm)).
  2:{ by rewrite lookup_insert_eq. }
  destruct (assign_rows _ _ v d1); [|done].
  by rewrite (with_members_twice _ _ _ _ _ Hm), insert_insert_eq.
Qed.

(** What [write_array] does to a stored table that exists already. *)
Lemma write_array_existing ds key st g m d xa x :
  arr_group (st_self st) = Some g →
  members_of st g = Some m →
  m !! key = Some d →
  dict_get key (arrays ds) = Some xa →
  st_heap st !! xa = Some x →
  let new := populated_length (ndarray x) in
  write_array ds false key st
  = match resize (new, d.(shape).2) d with
    | Raise e => (Raise e, st)
    | Ok d1 =>
        match append_rows (ndarray x) d1 d.(shape).1 new with
        | Raise e => (Raise e, with_members g (<[key := d1]> m) st)
        | Ok d2 => (Ok tt, with_members g (<[key := d2]> m) st)
        end
    end.
Proof.
  intros Hg Hm Hd Hxa Hx new. unfold write_array.
  rewrite run_bind, load_arr_group_run, Hg.
  rewrite run_bind, (group_keys_run _ _ _ Hm).
  rewrite (key_in_group _ _ _ Hd). cbn [orb].
  rewrite run_bind, run_ret.
  by apply (append_new_values_run _ _ _ _ _ _ xa).
Qed.

(** ** Tables: resizing and assignment *)

Section table.
Context {A : Type} (f : nat → nat → A) (c : nat) (dflt : A).

Lemma length_table r s :
  length (flat_map (λ i, map (f i) (seq 0 c)) (seq s r)) = r * c.
Proof.
  revert s. induction r as [|r IH]; intros s; [done|].
  cbn [seq flat_map]. rewrite length_app, length_map, length_seq, IH. lia.
Qed.

Lemma nth_table r s i j :
  i < r → j < c →
  nth (i * c + j) (flat_map (λ i, map (f i) (seq 0 c)) (seq s r)) dflt
  = f (s + i) j.
Proof.
  revert s i. induction r as [|r IH]; intros s i Hi Hj; [lia|].
  cbn [seq flat_map]. destruct i as [|i].
  - rewrite app_nth1 by (rewrite length_map, length_seq; lia).
    rewrite Nat.add_0_r. cbn [Nat.mul Nat.add].
    rewrite (nth_indep _ dflt (f s 0)) by (rewrite length_map, length_seq; lia).
    rewrite map_nth, seq_nth by lia. done.
  - rewrite app_nth2 by (rewrite length_map, length_seq; lia).
    rewrite length_map, length_seq.
    replace (S i * c + j - c) with (i * c + j) by lia.
    rewrite IH by lia. f_equal. lia.
Qed.
End table.

Lemma resize_spec shp d d1 :
  resize shp d = Ok d1 →
  shape d1 = shp ∧ maxshape d1 = maxshape d ∧ attrs d1 = attrs d ∧
  length (value d1) = shp.1 * shp.2 ∧
  (shp.2 = (shape d).2 →
   ∀ i j, i < (shape d).1 `min` shp.1 → j < shp.2 → cell d1 i j = cell d i j).
Proof.
  unfold resize. destruct (_ && _); [|done]. intros [= <-]. cbn.
  split_and!; try done.
  - apply length_table.
  - intros Hc i j Hi Hj. unfold cell at 1. cbn [shape value snd].
    unfold resized_value.
    rewrite (nth_table _ _ fillvalue) by lia. cbn [Nat.add].
    rewrite !bool_decide_eq_true_2 by lia. done.
Qed.

Lemma assign_rows_spec a b v d1 d2 :
  assign_rows a b v d1 = Ok d2 →
  shape d2 = shape d1 ∧ maxshape d2 = maxshape d1 ∧ attrs d2 = attrs d1 ∧
  (length (value d1) = (shape d1).1 * (shape d1).2 →
   ∀ i j, i < a `min` (shape d1).1 → j < (shape d1).2 →
          cell d2 i j = cell d1 i j).
Proof.
  unfold assign_rows. destruct (shape d1) as [rows cols] eqn:Hs.
  case_bool_decide as Hsel; [by intros [= <-]|].
  destruct (nd_shape v) as [|vr [|vc [|]]]; try done.
  destruct (_ && _); [|done]. intros [= <-]. cbn [shape maxshape attrs].
  split_and!; try done.
  intros Hlen i j Hi Hj. unfold cell. cbn [shape value fst snd] in *.
  rewrite ?Hs. cbn [snd].
  assert (i * cols + j < (a `min` rows) * cols) by nia.
  rewrite app_nth1 by (rewrite length_take; nia).
  rewrite !nth_lookup, lookup_take_lt by done. done.
Qed.

(** ** Relations kept by every step *)

Definition preserved {A} (R : relation state) (m : M A) : Prop :=
  ∀ st r st', m st = (r, st') → R st st'.

Section preserved.
Context (R : relation state) `{!PreOrder R}.

Lemma preserved_ret {A} (a : A) : preserved R (mret a).
Proof. intros st r st' [= _ <-]. reflexivity. Qed.

Lemma preserved_raise {A} e : preserved R (raise (A := A) e).
Proof. intros st r st' [= _ <-]. reflexivity. Qed.

Lemma preserved_lift {A} (x : result A) : preserved R (lift x).
Proof. intros st r st' [= _ <-]. reflexivity. Qed.

Lemma preserved_gets {A} (f : state → A) : preserved R (gets f).
Proof. intros st r st' [= _ <-]. reflexivity. Qed.

Lemma preserved_from_option {A} e (o : option A) :
  preserved R (from_option e o).
Proof. destruct o; [apply preserved_ret|apply preserved_raise]. Qed.

Lemma preserved_modify f : (∀ st, R st (f st)) → preserved R (modify f).
Proof. intros H st r st' [= _ <-]. apply H. Qed.

Lemma preserved_bind {A B} (m : M A) (f : A → M B) :
  preserved R m → (∀ a, preserved R (f a)) → preserved R (m ≫= f).
Proof.
  intros Hm Hf st r st'. rewrite run_bind.
  destruct (m st) as [[a|e] st1] eqn:E.
  - intros H. etrans; [by eapply Hm|by eapply Hf].
  - intros [= _ <-]. by eapply Hm.
Qed.

Lemma preserved_for_each {A} (l : list A) body :
  (∀ x, preserved R (body x)) → preserved R (for_each l body).
Proof.
  intros H. induction l as [|x l IH]; cbn [for_each].
  - apply preserved_ret.
  - apply preserved_bind; [apply H|done].
Qed.

Lemma preserved_fold_each {A S} (l : list A) (acc : S) body :
  (∀ s x, preserved R (body s x)) → preserved R (fold_each l acc body).
Proof.
  intros H. revert acc. induction l as [|x l IH]; intros acc; cbn [fold_each].
  - apply preserved_ret.
  - apply preserved_bind; [apply H|done].
Qed.
End preserved.

#[global] Instance cols_kept_preorder : PreOrder cols_kept.
Proof.
  split.
  - intros st g m key d ??. by exists m, d.
  - intros s1 s2 s3 H12 H23 g m key d Hm Hd.
    destruct (H12 _ _ _ _ Hm Hd) as (m2 & d2 & Hm2 & Hd2 & Hc2 & Hx2).
    destruct (H23 _ _ _ _ Hm2 Hd2) as (m3 & d3 & Hm3 & Hd3 & Hc3 & Hx3).
    exists m3, d3. split_and!; [done|done|congruence|congruence].
Qed.

Lemma cols_kept_files st st' :
  st_files st' = st_files st → cols_kept st st'.
Proof.
  intros E g m key d Hm Hd. exists m, d. unfold members_of in *. by rewrite E.
Qed.

Lemma cols_kept_with_members st g m key d' :
  members_of st g = Some m →
  (∀ d, m !! key = Some d →
        (shape d').2 = (shape d).2 ∧ maxshape d' = maxshape d) →
  cols_kept st (with_members g (<[key := d']> m) st).
Proof.
  intros Hm Hd g0 m0 key0 d0 Hm0 Hd0.
  destruct (decide (g0 = g)) as [->|Hg].
  - rewrite (members_of_with_members _ _ _ _ Hm).
    assert (m0 = m) as -> by congruence.
    destruct (decide (key0 = key)) as [->|Hk].
    + exists (<[key := d']> m), d'. rewrite lookup_insert_eq.
      destruct (Hd _ Hd0). done.
    + exists (<[key := d']> m), d0. by rewrite lookup_insert_ne.
  - exists m0, d0. split_and!; try done.
    unfold members_of, with_members in *.
    destruct (st_files st !! g); [|done]. cbn. by rewrite lookup_insert_ne.
Qed.

(** Every step of [write] keeps the column count and the maximal shape of
    every stored table. *)

Lemma group_getitem_inv g key st r st' :
  group_getitem g key st = (r, st') →
  st' = st ∧
  ∀ d, r = Ok d → ∃ m, members_of st g = Some m ∧ m !! key = Some d.
Proof.
  unfold group_getitem, group_members, get_file, members_of.
  rewrite !run_bind. unfold gets. cbn.
  destruct (st_files st !! g) as [f|]; cbn; [|by intros [= <- <-]].
  destruct (data_arrays f) as [m|]; cbn; [|by intros [= <- <-]].
  destruct (m !! key) as [d|] eqn:Hd; cbn; intros [= <- <-]; [|done].
  split; [done|]. intros ? [= <-]. eauto.
Qed.

Lemma group_members_inv g st r st' :
  group_members g st = (r, st') →
  st' = st ∧ ∀ m, r = Ok m → members_of st g = Some m.
Proof.
  unfold group_members, get_file, members_of.
  rewrite !run_bind. unfold gets. cbn.
  destruct (st_files st !! g) as [f|]; cbn; [|by intros [= <- <-]].
  destruct (data_arrays f) as [m|]; cbn; intros [= <- <-]; [|done].
  split; [done|]. by intros ? [= <-].
Qed.

Lemma put_members_run g m' st m :
  members_of st g = Some m →
  put_members g m' st = (Ok tt, with_members g m' st).
Proof.
  unfold put_members, with_members, get_file, put_file, members_of.
  rewrite !run_bind. unfold gets, modify. cbn.
  by destruct (st_files st !! g) as [f|].
Qed.

Lemma attrs_setitem_kept g key a v :
  preserved cols_kept (attrs_setitem g key a v).
Proof.
  intros st r st' Hrun. unfold attrs_setitem in Hrun. rewrite run_bind in Hrun.
  destruct (group_getitem g key st) as [[d|e] st1] eqn:E;
    apply group_getitem_inv in E as [-> Hd].
  - destruct (Hd _ eq_refl) as (m & Hm & Hk).
    rewrite (put_dset_run _ _ _ _ _ Hm) in Hrun. injection Hrun as <- <-.
    apply cols_kept_with_members; [done|]. intros d0 Hd0.
    by assert (d0 = d) as -> by congruence.
  - injection Hrun as _ <-. reflexivity.
Qed.

Lemma dset_setitem_kept g key a b v :
  preserved cols_kept (dset_setitem g key a b v).
Proof.
  intros st r st' Hrun. unfold dset_setitem in Hrun. rewrite run_bind in Hrun.
  destruct (group_getitem g key st) as [[d|e] st1] eqn:E;
    apply group_getitem_inv in E as [-> Hd].
  - destruct (Hd _ eq_refl) as (m & Hm & Hk).
    rewrite run_bind in Hrun. unfold lift in Hrun.
    destruct (assign_rows a b v d) as [d'|e] eqn:Ha.
    + rewrite (put_dset_run _ _ _ _ _ Hm) in Hrun. injection Hrun as <- <-.
      apply assign_rows_spec in Ha as (Hs & Hx & _).
      apply cols_kept_with_members; [done|]. intros d0 Hd0.
      assert (d0 = d) as -> by congruence. by rewrite Hs, Hx.
    + injection Hrun as _ <-. reflexivity.
  - injection Hrun as _ <-. reflexivity.
Qed.

Lemma create_dataset_kept g key shp mx :
  preserved cols_kept (create_dataset g key shp mx).
Proof.
  intros st r st' Hrun. unfold create_dataset in Hrun. rewrite run_bind in Hrun.
  destruct (group_members g st) as [[m|e] st1] eqn:E;
    apply group_members_inv in E as [-> Hm].
  - specialize (Hm _ eq_refl). destruct (m !! key) as [d|] eqn:Hk.
    + injection Hrun as _ <-. reflexivity.
    + rewrite (put_members_run _ _ _ _ Hm) in Hrun. injection Hrun as <- <-.
      apply cols_kept_with_members; [done|]. intros d0 Hd0. congruence.
  - injection Hrun as _ <-. reflexivity.
Qed.

Ltac pbind := apply preserved_bind; [exact _| |].
Ltac pleaf :=
  first [apply preserved_ret | apply preserved_lift | apply preserved_gets
        | apply preserved_from_option | apply preserved_raise]; exact _.

Lemma heap_store_kept a d : preserved cols_kept (heap_store a d).
Proof. apply preserved_modify. intros st. by apply cols_kept_files. Qed.

Lemma deref_kept a : preserved cols_kept (deref a).
Proof. pbind; [pleaf|]. intros h. pleaf. Qed.

Lemma load_arr_group_kept : preserved cols_kept load_arr_group.
Proof. pbind; [pleaf|]. intros h. pleaf. Qed.

Lemma group_keys_kept g : preserved cols_kept (group_keys g).
Proof.
  intros st r st' Hrun. unfold group_keys in Hrun. rewrite run_bind in Hrun.
  destruct (group_members g st) as [[m|e] st1] eqn:E;
    apply group_members_inv in E as [-> Hm]; injection Hrun as _ <-; reflexivity.
Qed.

Lemma group_getitem_kept g key : preserved cols_kept (group_getitem g key).
Proof.
  intros st r st' Hrun. apply group_getitem_inv in Hrun as [-> _]. reflexivity.
Qed.

Lemma create_dataarray_dset_kept array group :
  preserved cols_kept (_create_dataarray_dset array group).
Proof.
  unfold _create_dataarray_dset.
  pbind; [apply deref_kept|]. intros a.
  pbind. { destruct (units a); first [apply heap_store_kept|pleaf]. }
  intros _. pbind; [apply deref_kept|]. intros a'.
  pbind; [pleaf|]. intros n.
  pbind; [apply create_dataset_kept|]. intros _.
  do 4 (pbind; [pleaf|]; intros ?; pbind; [apply attrs_setitem_kept|]; intros _).
  destruct (negb _); [|pleaf].
  pbind; [|intros ?; apply attrs_setitem_kept].
  apply preserved_fold_each; [exact _|]. intros acc i.
  pbind; [pleaf|]. intros r.
  pbind; [apply deref_kept|]. intros sa.
  pbind; [pleaf|]. intros v. pleaf.
Qed.

Lemma append_new_values_kept ds key :
  preserved cols_kept (append_new_values ds key).
Proof.
  unfold append_new_values.
  pbind; [apply load_arr_group_kept|].
  intros grp st r st'. rewrite run_bind.
  destruct (group_getitem grp key st) as [[d|e] st1] eqn:E;
    apply group_getitem_inv in E as [-> Hd]; [|intros [= _ <-]; reflexivity].
  destruct (Hd _ eq_refl) as (m & Hm & Hk). clear Hd.
  rewrite run_bind.
  destruct (dict_get key (arrays ds)) as [xa|]; cbn [from_option];
    [rewrite run_ret|intros [= _ <-]; reflexivity].
  rewrite run_bind, deref_run.
  destruct (st_heap st !! xa) as [x|]; [|intros [= _ <-]; reflexivity].
  rewrite run_bind, (dset_resize_run _ _ _ _ _ _ Hm Hk).
  destruct (resize _ d) as [d1|e] eqn:Hr; [|intros [= _ <-]; reflexivity].
  apply resize_spec in Hr as (Hs1 & Hx1 & _).
  intros Hrun. trans (with_members grp (<[key := d1]> m) st).
  { apply cols_kept_with_members; [done|]. intros d0 Hd0.
    assert (d0 = d) as -> by congruence. by rewrite Hs1, Hx1. }
  revert Hrun. generalize (with_members grp (<[key:=d1]> m) st). intros st1.
  revert st1 r st'. change (preserved cols_kept
    (ya ← from_option KeyError (Some xa);
     y ← deref ya;
     s ← lift (nd_slice (ndarray y) (shape d).1 (populated_length (ndarray x)));
     v ← lift (nd_reshape s [populated_length (ndarray x); (shape d).2]);
     dset_setitem grp key (shape d).1 (populated_length (ndarray x)) v)).
  pbind; [pleaf|]. intros ya.
  pbind; [apply deref_kept|]. intros y.
  pbind; [pleaf|]. intros s.
  pbind; [pleaf|]. intros v.
  apply dset_setitem_kept.
Qed.

Lemma write_array_kept ds force key :
  preserved cols_kept (write_array ds force key).
Proof.
  unfold write_array.
  pbind; [apply load_arr_group_kept|]. intros grp.
  pbind; [apply group_keys_kept|]. intros keys.
  pbind.
  { destruct (_ || _); [|pleaf].
    pbind; [pleaf|]. intros a.
    pbind; [apply load_arr_group_kept|]. intros g.
    apply create_dataarray_dset_kept. }
  intros _. apply append_new_values_kept.
Qed.

Lemma cols_kept_new_file st p f :
  members_of st p = None →
  cols_kept st (set_files (<[p := f]> (st_files st)) st).
Proof.
  intros Hp g m key d Hm Hd. exists m, d. split_and!; try done.
  destruct (decide (g = p)) as [->|Hg]; [congruence|].
  unfold members_of in *. cbn. by rewrite lookup_insert_ne.
Qed.

Lemma h5py_File_a_kept p : preserved cols_kept (h5py_File_a p).
Proof.
  intros st r st'. unfold h5py_File_a. rewrite run_bind. unfold gets.
  destruct (st_files st !! p) as [f|] eqn:E.
  - intros [= _ <-]. reflexivity.
  - rewrite run_bind. unfold modify. intros [= _ <-].
    apply cols_kept_new_file. unfold members_of. by rewrite E.
Qed.

Lemma create_file_kept p : preserved cols_kept (_create_file p).
Proof.
  unfold _create_file. destruct (os_path_split p) as [folder fn].
  pbind; [pleaf|]. intros isdir.
  pbind.
  { destruct (negb isdir); [|pleaf].
    apply preserved_modify. intros st. by apply cols_kept_files. }
  intros _. pbind; [apply h5py_File_a_kept|]. intros f. pleaf.
Qed.

Lemma get_file_kept h : preserved cols_kept (get_file h).
Proof. pbind; [pleaf|]. intros fs. pleaf. Qed.

Lemma create_arrays_group_kept h : preserved cols_kept (create_arrays_group h).
Proof.
  intros st r st'. unfold create_arrays_group, get_file.
  rewrite !run_bind. unfold gets.
  destruct (st_files st !! h) as [f|] eqn:E; cbn [from_option];
    [rewrite run_ret|intros [= _ <-]; reflexivity].
  destruct (data_arrays f) eqn:Ef; [intros [= _ <-]; reflexivity|].
  rewrite run_bind. unfold put_file, modify. intros [= _ <-].
  apply cols_kept_new_file. unfold members_of. by rewrite E.
Qed.

Lemma write_kept ds force : preserved cols_kept (write ds force).
Proof.
  unfold write. pbind; [pleaf|]. intros obj.
  pbind.
  { destruct (_ || _); [|pleaf].
    pbind. { apply preserved_modify. intros st. by apply cols_kept_files. }
    intros _. pbind; [apply create_file_kept|]. intros f.
    apply preserved_modify. intros st. by apply cols_kept_files. }
  intros _. pbind; [pbind; [pleaf|intros ?; pleaf]|]. intros f.
  pbind. { pbind; [apply get_file_kept|]. intros ?. pleaf. }
  intros keys. pbind.
  { destruct (bool_decide _); [|pleaf].
    pbind; [apply create_arrays_group_kept|]. intros g.
    apply preserved_modify. intros st. by apply cols_kept_files. }
  intros _. apply preserved_for_each; [exact _|]. intros key.
  apply write_array_kept.
Qed.

(** ** The two helpers *)

Lemma py_range s : Forall (λ c, 0 ≤ c < 256)%Z (py s).
Proof.
  unfold py. induction s as [|a s IH]; cbn; [done|]. constructor; [|done].
  pose proof (N_ascii_bounded a). lia.
Qed.

(** Text made of Latin-1 code points always has an encoding. *)
Lemma utf8_encode_latin1 s :
  Forall (λ c, 0 ≤ c < 256)%Z s → is_Some (Utf8.encode s).
Proof.
  induction 1 as [|c s Hc _ [b IH]]; cbn; [by eexists|]. rewrite IH.
  unfold Utf8.encode_cp.
  destruct (Z.ltb_spec c 0); [lia|]. destruct (Z.ltb_spec c 128); [by eexists|].
  destruct (Z.ltb_spec c 2048); [by eexists|lia].
Qed.

Lemma encode_to_utf8_str s : _encode_to_utf8 (VStr s) = encode_method (VStr s).
Proof. reflexivity. Qed.

Lemma mapM_encode_texts (l : list pystr) (bs : list pybytes) :
  mapM Utf8.encode l = Some bs →
  mapM encode_method (VStr <$> l) = Ok (VBytes <$> bs).
Proof.
  revert bs. induction l as [|s l IH]; intros bs; cbn.
  - by intros [= <-].
  - destruct (Utf8.encode s) as [b|]; cbn; [|done].
    destruct (mapM Utf8.encode l) as [bs'|]; cbn; [|done].
    intros [= <-]. by rewrite (IH _ eq_refl).
Qed.

(** ** The populated length *)

Lemma mask_select_count d :
  np_mask_select d (np_invert (is_nan <$> d))
  = List.filter (λ v, negb (is_nan v)) d.
Proof.
  unfold np_invert. induction d as [|v d IH]; [done|].
  rewrite !fmap_cons. cbn [np_mask_select List.filter]. rewrite IH.
  by destruct (is_nan v).
Qed.

Lemma populated_length_count x :
  populated_length x
  = length (List.filter (λ v, negb (is_nan v)) (nd_data x)).
Proof. unfold populated_length, np_isnan. by rewrite mask_select_count. Qed.

Lemma filter_all {A} (f : A → bool) l :
  Forall (λ v, f v = true) l → List.filter f l = l.
Proof. induction 1 as [|v l Hv _ IH]; cbn; [done|]. by rewrite Hv, IH. Qed.

Lemma filter_none {A} (f : A → bool) l :
  Forall (λ v, f v = false) l → List.filter f l = [].
Proof. induction 1 as [|v l Hv _ IH]; cbn; [done|]. by rewrite Hv, IH. Qed.

Lemma populated_prefix x p q :
  nd_data x = p ++ q →
  Forall (λ v, is_nan v = false) p → Forall (λ v, is_nan v = true) q →
  populated_length x = length p ∧ nan_free_prefix (nd_data x) = length p.
Proof.
  intros Hd Hp Hq. rewrite Hd. split.
  - rewrite populated_length_count, Hd, List.filter_app.
    rewrite (filter_all _ p), (filter_none _ q), app_nil_r; [done| |].
    + eapply Forall_impl; [done|]. by intros v ->.
    + eapply Forall_impl; [done|]. by intros v ->.
  - clear Hd. induction Hp as [|v p Hv _ IH]; cbn.
    + destruct Hq as [|v q Hv _]; cbn; [done|]. by rewrite Hv.
    + by rewrite Hv, IH.
Qed.

(** ** What a write does to a table that exists *)

Lemma append_rows_spec x d1 old new d2 :
  append_rows x d1 old new = Ok d2 →
  shape d2 = shape d1 ∧ maxshape d2 = maxshape d1 ∧ attrs d2 = attrs d1 ∧
  (length (value d1) = (shape d1).1 * (shape d1).2 →
   ∀ i j, i < old `min` (shape d1).1 → j < (shape d1).2 →
          cell d2 i j = cell d1 i j).
Proof.
  unfold append_rows.
  destruct (nd_slice x old new) as [s|]; cbn; [|done].
  destruct (nd_reshape s _) as [v|]; cbn; [|done].
  apply assign_rows_spec.
Qed.

Lemma resize_unlimited new d :
  maxshape d = (None, Some (shape d).2) →
  ∃ d1, resize (new, (shape d).2) d = Ok d1.
Proof.
  intros Hx. unfold resize. rewrite Hx. cbn.
  rewrite bool_decide_eq_true_2 by done. by eexists.
Qed.

Lemma write_array_resizes ds key st g m d xa x :
  arr_group (st_self st) = Some g →
  members_of st g = Some m →
  m !! key = Some d →
  dict_get key (arrays ds) = Some xa →
  st_heap st !! xa = Some x →
  maxshape d = (None, Some (shape d).2) →
  ∃ r d',
    write_array ds false key st = (r, with_members g (<[key := d']> m) st) ∧
    shape d' = (populated_length (ndarray x), (shape d).2) ∧
    maxshape d' = maxshape d ∧ attrs d' = attrs d ∧
    (∀ i j, i < (shape d).1 `min` populated_length (ndarray x) →
            j < (shape d).2 → cell d' i j = cell d i j).
Proof.
  intros Hg Hm Hd Hxa Hx Hmax.
  rewrite (write_array_existing _ _ _ _ _ _ _ _ Hg Hm Hd Hxa Hx).
  destruct (resize_unlimited (populated_length (ndarray x)) d Hmax) as [d1 Hr].
  rewrite Hr. apply resize_spec in Hr as (Hs1 & Hx1 & Ha1 & Hl1 & Hc1).
  cbn [fst snd] in *.
  destruct (append_rows _ d1 _ _) as [d2|e] eqn:Happ.
  - apply append_rows_spec in Happ as (Hs2 & Hx2 & Ha2 & Hc2).
    exists (Ok tt), d2. split_and!; [done|congruence..|].
    intros i j Hi Hj. rewrite Hs1 in Hc2. cbn [fst snd] in Hc2.
    rewrite Hc2 by (done || lia). by apply Hc1.
  - exists (Raise e), d1. split_and!; [done..|]. by apply Hc1.
Qed.

Lemma for_each_invariant {A} (I : state → Prop) (l : list A) body :
  (∀ x st r st', x ∈ l → I st → body x st = (r, st') → I st') →
  ∀ st r st', I st → for_each l body st = (r, st') → I st'.
Proof.
  induction l as [|x l IH]; intros Hbody st r st' HI; cbn [for_each].
  - by intros [= _ <-].
  - rewrite run_bind. destruct (body x st) as [[[]|e] st1] eqn:E.
    + apply IH.
      * intros y ???? ?. eapply Hbody; [by right|done..].
      * eapply Hbody; [by left|done..].
    + intros [= _ <-]. eapply Hbody; [by left|done..].
Qed.

Lemma members_of_file st g m :
  members_of st g = Some m →
  ∃ f, st_files st !! g = Some f ∧ data_arrays f = Some m.
Proof.
  unfold members_of. destruct (st_files st !! g) as [f|]; [|done]. by exists f.
Qed.

(** A formatter that holds its container and finds the group goes to the
    loop at once. *)
Lemma write_same_formatter ds st g m :
  data_object (st_self st) = Some g →
  members_of st g = Some m →
  write ds false st
  = for_each (dict_keys (arrays ds)) (write_array ds false) st.
Proof.
  intros Hobj Hm. destruct (members_of_file _ _ _ Hm) as (f & Hf & Hda).
  unfold write. rewrite run_bind. unfold gets at 1. rewrite Hobj.
  cbn [bool_decide decide_rel orb]. rewrite bool_decide_eq_false_2 by done.
  cbn [orb]. rewrite run_bind, run_ret.
  unfold load_data_object. rewrite !run_bind. unfold gets at 1. rewrite Hobj.
  cbn [from_option]. rewrite run_ret.
  unfold file_keys, get_file. rewrite !run_bind. unfold gets at 1.
  rewrite Hf. cbn [from_option]. rewrite run_ret, Hda, run_ret.
  rewrite bool_decide_eq_false_2; [by rewrite run_bind, run_ret|].
  intros Hn. apply Hn. apply list_elem_of_here.
Qed.

Lemma write_no_new_rows ds st g m :
  data_object (st_self st) = Some g →
  arr_group (st_self st) = Some g →
  members_of st g = Some m →
  (∀ key, key ∈ dict_keys (arrays ds) →
     ∃ d xa x, m !! key = Some d ∧ dict_get key (arrays ds) = Some xa ∧
               st_heap st !! xa = Some x ∧
               populated_length (ndarray x) = (shape d).1) →
  ∃ m', members_of (write ds false st).2 g = Some m' ∧
        ∀ key d, m !! key = Some d →
                 ∃ d', m' !! key = Some d' ∧ shape d' = shape d.
Proof.
  intros Hobj Hg Hm Hall. rewrite (write_same_formatter _ _ _ _ Hobj Hm).
  set (I := λ st' : state,
    st_heap st' = st_heap st ∧ st_self st' = st_self st ∧
    ∃ m', members_of st' g = Some m' ∧
          ∀ key d, m !! key = Some d →
                   ∃ d', m' !! key = Some d' ∧ shape d' = shape d).
  assert (I (for_each (dict_keys (arrays ds)) (write_array ds false) st).2)
    as (_ & _ & HI); [|done].
  destruct (for_each _ _ st) as [r st'] eqn:Hrun.
  eapply (for_each_invariant I); [|..|done]; clear r st' Hrun.
  - intros key st1 r st' Hkey (Hh & Hs & m1 & Hm1 & Hsh) Hrun.
    destruct (Hall _ Hkey) as (d & xa & x & Hd & Hxa & Hx & Hlen).
    destruct (Hsh _ _ Hd) as (d1 & Hd1 & Hs1).
    rewrite (write_array_existing _ _ _ g m1 d1 xa x) in Hrun;
      [|by rewrite Hs|done..|by rewrite Hh].
    assert (∀ d2, shape d2 = shape d →
                  I (with_members g (<[key := d2]> m1) st1)) as Hput.
    { intros d2 Hs2. split_and!.
      - by rewrite st_heap_with_members.
      - by rewrite st_self_with_members.
      - exists (<[key := d2]> m1).
        split; [by apply (members_of_with_members _ m1)|].
        intros key' d' Hd'. destruct (decide (key' = key)) as [->|Hne].
        + exists d2. rewrite lookup_insert_eq. split; [done|congruence].
        + rewrite lookup_insert_ne by done. by apply Hsh. }
    destruct (resize _ d1) as [d2|e] eqn:Hr.
    + apply resize_spec in Hr as (Hs2 & _).
      assert (shape d2 = shape d) as Hs2'.
      { rewrite Hs2, Hlen, Hs1. by destruct (shape d). }
      destruct (append_rows _ d2 _ _) as [d3|e] eqn:Happ.
      * apply append_rows_spec in Happ as (Hs3 & _).
        injection Hrun as _ <-. apply Hput. congruence.
      * injection Hrun as _ <-. by apply Hput.
    + injection Hrun as _ <-. split_and!; [done..|]. by exists m1.
  - split_and!; [done..|]. exists m. split; [done|]. intros key d Hd. by exists d.
Qed.

(** ** Creating the storage of an array *)

Lemma bind_Ok_inv {A B} (m : M A) (f : A → M B) st b st' :
  (m ≫= f) st = (Ok b, st') →
  ∃ a st1, m st = (Ok a, st1) ∧ f a st1 = (Ok b, st').
Proof.
  rewrite run_bind. destruct (m st) as [[a|e] st1]; [|done]. eauto.
Qed.

Lemma deref_Ok_inv a st d st' :
  deref a st = (Ok d, st') → st' = st ∧ st_heap st !! a = Some d.
Proof.
  rewrite deref_run. destruct (st_heap st !! a); [|done]. by intros [= <- <-].
Qed.

Lemma lift_Ok_inv {A} (x : result A) st v st' :
  lift x st = (Ok v, st') → x = Ok v ∧ st' = st.
Proof. by intros [= -> <-]. Qed.

Lemma create_dataset_Ok_inv g key shp mx st u st' :
  create_dataset g key shp mx st = (Ok u, st') →
  ∃ m, members_of st g = Some m ∧ m !! key = None ∧
       st' = with_members g
               (<[key := {| shape := shp; maxshape := mx;
                            value := replicate (shp.1 * shp.2) fillvalue;
                            attrs := ∅ |}]> m) st.
Proof.
  unfold create_dataset. rewrite run_bind.
  destruct (group_members g st) as [[m|e] st1] eqn:E; [|done].
  apply group_members_inv in E as [-> Hm]. specialize (Hm _ eq_refl).
  destruct (m !! key) eqn:Hk; [done|].
  rewrite (put_members_run _ _ _ _ Hm). intros [= _ <-]. eauto.
Qed.

Lemma attrs_setitem_Ok_inv g key a v st u st' :
  attrs_setitem g key a v st = (Ok u, st') →
  ∃ m d, members_of st g = Some m ∧ m !! key = Some d ∧
         st' = with_members g (<[key := set_attr a v d]> m) st.
Proof.
  unfold attrs_setitem. rewrite run_bind.
  destruct (group_getitem g key st) as [[d|e] st1] eqn:E; [|done].
  apply group_getitem_inv in E as [-> Hd].
  destruct (Hd _ eq_refl) as (m & Hm & Hk).
  rewrite (put_dset_run _ _ _ _ _ Hm). intros [= _ <-]. eauto.
Qed.

Lemma collect_set_arrays_Ok_inv (refs : list nat) k i acc st l st' :
  fold_each (seq i k) acc
    (λ acc i,
       r ← from_option IndexError (refs !! i);
       sa ← deref r;
       v ← lift (_encode_to_utf8 (VStr (py_str (VStr (array_id sa)))));
       mret (acc ++ [v])) st = (Ok l, st') →
  i + k = length refs →
  st' = st ∧ ∃ vs, l = acc ++ vs ∧
                   Forall2 (set_array_attr (st_heap st)) (drop i refs) vs.
Proof.
  revert i acc st. induction k as [|k IH]; intros i acc st; cbn [seq fold_each].
  - intros [= <- <-] Hlen. split; [done|]. exists []. rewrite app_nil_r.
    split; [done|]. rewrite drop_ge by lia. constructor.
  - intros Hrun Hlen.
    apply bind_Ok_inv in Hrun as (acc' & st1 & Hbody & Hrun).
    apply bind_Ok_inv in Hbody as (r & st2 & Hr & Hbody).
    destruct (refs !! i) as [r'|] eqn:Hi; [|done]. injection Hr as <- <-.
    apply bind_Ok_inv in Hbody as (sa & st3 & Hsa & Hbody).
    apply deref_Ok_inv in Hsa as [-> Hsa].
    apply bind_Ok_inv in Hbody as (v & st4 & Hv & Hbody).
    apply lift_Ok_inv in Hv as [Hv ->]. injection Hbody as <- <-.
    apply IH in Hrun as [-> (vs & -> & Hvs)]; [|lia].
    split; [done|]. exists (v :: vs). rewrite <- app_assoc. split; [done|].
    rewrite (drop_S _ _ _ Hi). constructor; [|done]. by exists sa.
Qed.

Lemma create_dataarray_dset_Ok array g st st' a m :
  _create_dataarray_dset array g st = (Ok tt, st') →
  st_heap st !! array = Some a →
  members_of st g = Some m →
  let a' := with_placeholder_units a in
  let heap' := <[array := a']> (st_heap st) in
  ∃ n vl vn vu vs d,
    py_len (units a') = Ok n ∧
    m !! array_id a = None ∧
    _encode_to_utf8 (VStr (default (array_id a) (label a))) = Ok vl ∧
    _encode_to_utf8 (VStr (default (array_id a) (name a))) = Ok vn ∧
    _encode_to_utf8 (VStr (py_str (units a'))) = Ok vu ∧
    (if is_setpoint a then vs = None
     else ∃ ids, vs = Some (VList ids) ∧
                 Forall2 (set_array_attr heap') (set_arrays a) ids) ∧
    shape d = (0, n) ∧ maxshape d = (None, Some n) ∧ value d = [] ∧
    attrs d
    = (match vs with Some v => <[py "set_arrays" := v]> | None => id end)
        (<[py "is_setpoint" :=
             VBytes (py (if is_setpoint a then "True" else "False"))]>
           (<[py "units" := vu]>
              (<[py "name" := vn]> (<[py "label" := vl]> ∅)))) ∧
    st' = with_members g (<[array_id a := d]> m) (set_heap heap' st).
Proof.
  intros Hrun Ha Hm a' heap'. unfold _create_dataarray_dset in Hrun.
  apply bind_Ok_inv in Hrun as (a0 & st0 & H0 & Hrun).
  apply deref_Ok_inv in H0 as [-> H0]. assert (a0 = a) as -> by congruence.
  apply bind_Ok_inv in Hrun as ([] & st1 & H1 & Hrun).
  assert (st1 = set_heap heap' st) as ->.
  { subst heap' a'. unfold with_placeholder_units.
    destruct (units a); injection H1 as <-;
      rewrite ?list_insert_id by done; by destruct st. }
  apply bind_Ok_inv in Hrun as (a1 & st2 & H2 & Hrun).
  apply deref_Ok_inv in H2 as [-> H2]. cbn [set_heap st_heap] in H2.
  assert (a1 = a') as ->.
  { subst heap'. rewrite list_lookup_insert_eq in H2; [congruence|].
    by eapply lookup_lt_Some. }
  assert (array_id a' = array_id a ∧ is_setpoint a' = is_setpoint a
          ∧ set_arrays a' = set_arrays a) as (Eid & Esp & Esa).
  { subst a'. unfold with_placeholder_units. by destruct (units a). }
  rewrite Eid, Esp, Esa in Hrun.
  assert (members_of (set_heap heap' st) g = Some m) as Hm' by done.
  apply bind_Ok_inv in Hrun as (n & st3 & H3 & Hrun).
  apply lift_Ok_inv in H3 as [Hn ->].
  apply bind_Ok_inv in Hrun as ([] & st4 & H4 & Hrun).
  apply create_dataset_Ok_inv in H4 as (m0 & Hm0 & Hfresh & ->).
  assert (m0 = m) as -> by congruence.
  set (key := array_id a) in *.
  (* the four encoded attributes *)
  apply bind_Ok_inv in Hrun as (vl & st5 & H5 & Hrun).
  apply lift_Ok_inv in H5 as [Hvl ->].
  apply bind_Ok_inv in Hrun as ([] & st6 & H6 & Hrun).
  apply attrs_setitem_Ok_inv in H6 as (m6 & d6 & Hm6 & Hd6 & ->).
  rewrite (members_of_with_members _ _ _ _ Hm') in Hm6. injection Hm6 as <-.
  rewrite lookup_insert_eq in Hd6. injection Hd6 as <-.
  rewrite (with_members_twice _ _ _ _ _ Hm'), insert_insert_eq in Hrun.
  apply bind_Ok_inv in Hrun as (vn & st7 & H7 & Hrun).
  apply lift_Ok_inv in H7 as [Hvn ->].
  apply bind_Ok_inv in Hrun as ([] & st8 & H8 & Hrun).
  apply attrs_setitem_Ok_inv in H8 as (m8 & d8 & Hm8 & Hd8 & ->).
  rewrite (members_of_with_members _ _ _ _ Hm') in Hm8. injection Hm8 as <-.
  rewrite lookup_insert_eq in Hd8. injection Hd8 as <-.
  rewrite (with_members_twice _ _ _ _ _ Hm'), insert_insert_eq in Hrun.
  apply bind_Ok_inv in Hrun as (vu & st9 & H9 & Hrun).
  apply lift_Ok_inv in H9 as [Hvu ->].
  apply bind_Ok_inv in Hrun as ([] & st10 & H10 & Hrun).
  apply attrs_setitem_Ok_inv in H10 as (m10 & d10 & Hm10 & Hd10 & ->).
  rewrite (members_of_with_members _ _ _ _ Hm') in Hm10. injection Hm10 as <-.
  rewrite lookup_insert_eq in Hd10. injection Hd10 as <-.
  rewrite (with_members_twice _ _ _ _ _ Hm'), insert_insert_eq in Hrun.
  apply bind_Ok_inv in Hrun as (vf & st11 & H11 & Hrun).
  apply lift_Ok_inv in H11 as [Hvf ->].
  apply bind_Ok_inv in Hrun as ([] & st12 & H12 & Hrun).
  apply attrs_setitem_Ok_inv in H12 as (m12 & d12 & Hm12 & Hd12 & ->).
  rewrite (members_of_with_members _ _ _ _ Hm') in Hm12. injection Hm12 as <-.
  rewrite lookup_insert_eq in Hd12. injection Hd12 as <-.
  rewrite (with_members_twice _ _ _ _ _ Hm'), insert_insert_eq in Hrun.
  assert (vf = VBytes (py (if is_setpoint a then "True" else "False"))) as ->.
  { destruct (is_setpoint a); vm_compute in Hvf; by injection Hvf as <-. }
  assert (default key (label a) = match label a with Some l => l | None => key end)
    as El by by destruct (label a).
  assert (default key (name a) = match name a with Some l => l | None => key end)
    as En by by destruct (name a).
  destruct (is_setpoint a) eqn:Hsp; cbn [negb] in Hrun.
  - injection Hrun as <-.
    eexists n, vl, vn, vu, None, _. rewrite El, En.
    split_and!; [done..| | | | |reflexivity]; done.
  - apply bind_Ok_inv in Hrun as (ids & st13 & H13 & Hrun).
    apply collect_set_arrays_Ok_inv in H13 as [-> (vs & -> & Hvs)]; [|done].
    rewrite drop_0, st_heap_with_members in Hvs. cbn [app] in Hrun.
    apply attrs_setitem_Ok_inv in Hrun as (m14 & d14 & Hm14 & Hd14 & ->).
    rewrite (members_of_with_members _ _ _ _ Hm') in Hm14. injection Hm14 as <-.
    rewrite lookup_insert_eq in Hd14. injection Hd14 as <-.
    rewrite (with_members_twice _ _ _ _ _ Hm'), insert_insert_eq.
    eexists n, vl, vn, vu, (Some (VList vs)), _. rewrite El, En.
    split_and!; [done..|by exists vs| | | | |reflexivity]; done.
Qed.

(** ** Resizing is unconditional; the column count is fixed *)

Lemma nd_size_pair a b : nd_size [a; b] = a * b.
Proof. cbn. lia. Qed.

Lemma write_array_shape_error ds key st g m d xa x s :
  arr_group (st_self st) = Some g →
  members_of st g = Some m →
  m !! key = Some d →
  dict_get key (arrays ds) = Some xa →
  st_heap st !! xa = Some x →
  maxshape d = (None, Some (shape d).2) →
  nd_slice (ndarray x) (shape d).1 (populated_length (ndarray x)) = Ok s →
  length (nd_data s) ≠ populated_length (ndarray x) * (shape d).2 →
  (write_array ds false key st).1 = Raise ValueError.
Proof.
  intros Hg Hm Hd Hxa Hx Hmax Hs Hne.
  rewrite (write_array_existing _ _ _ _ _ _ _ _ Hg Hm Hd Hxa Hx).
  destruct (resize_unlimited (populated_length (ndarray x)) d Hmax) as [d1 Hr].
  rewrite Hr. apply resize_spec in Hr as (Hs1 & _).
  unfold append_rows. rewrite Hs, Hs1. cbn [mbind result_bind snd].
  unfold nd_reshape. rewrite bool_decide_eq_false_2; [done|].
  rewrite nd_size_pair. congruence.
Qed.

(** ** Reading *)

Lemma mapM_result_cons {A B} (f : A → result B) x l :
  mapM f (x :: l)
  = match f x with
    | Ok y => match mapM f l with Ok k => Ok (y :: k) | Raise e => Raise e end
    | Raise e => Raise e
    end.
Proof. cbn. by destruct (f x). Qed.

Lemma mapM_result_Ok {A B} (f : A → result B) l k :
  mapM f l = Ok k → Forall2 (λ x y, f x = Ok y) l k.
Proof.
  revert k. induction l as [|x l IH]; intros k.
  - intros [= <-]. constructor.
  - rewrite mapM_result_cons. destruct (f x) as [y|] eqn:Hx; [|done].
    destruct (mapM f l) as [k'|]; [|done]. intros [= <-].
    constructor; [done|]. by apply IH.
Qed.

Lemma mapM_result_Raise {A B} (f : A → result B) l e :
  mapM f l = Raise e → ∃ x, x ∈ l ∧ f x = Raise e.
Proof.
  induction l as [|x l IH]; [done|].
  rewrite mapM_result_cons. destruct (f x) as [y|e'] eqn:Hx.
  - destruct (mapM f l) as [k'|e'']; [done|]. intros [= ->].
    destruct IH as (x' & Hin & Hx'); [done|]. exists x'. split; [by right|done].
  - intros [= ->]. exists x. split; [by left|done].
Qed.

Lemma mapM_result_all_Ok {A B} (f : A → result B) l :
  (∀ x, x ∈ l → ∃ y, f x = Ok y) → ∃ k, mapM f l = Ok k.
Proof.
  induction l as [|x l IH]; intros H; [by eexists|].
  rewrite mapM_result_cons. destruct (H x) as [y ->]; [by left|].
  destruct IH as [k ->]; [|by eexists]. intros x' Hx'. apply H. by right.
Qed.

(** *** Dictionaries *)

Lemma dict_get_app {V} k (A B : list (pystr * V)) :
  dict_get k (A ++ B)
  = match dict_get k A with Some v => Some v | None => dict_get k B end.
Proof.
  induction A as [|[k' v'] A IH]; cbn; [done|]. by case_bool_decide.
Qed.

Lemma dict_get_None {V} k (A : list (pystr * V)) :
  dict_get k A = None ↔ k ∉ A.*1.
Proof.
  induction A as [|[k' v'] A IH]; cbn.
  - split; [|done]. intros _. apply not_elem_of_nil.
  - rewrite not_elem_of_cons. case_bool_decide; naive_solver.
Qed.

Lemma dict_set_fresh {V} k (v : V) A :
  k ∉ A.*1 → dict_set k v A = A ++ [(k, v)].
Proof.
  induction A as [|[k' v'] A IH]; cbn; [done|].
  rewrite not_elem_of_cons. intros [Hne Hin].
  rewrite bool_decide_eq_false_2 by done. by rewrite IH.
Qed.

Lemma dict_get_zip_seq keys b k i :
  NoDup keys → keys !! i = Some k →
  dict_get k (zip keys (seq b (length keys))) = Some (b + i).
Proof.
  revert b i. induction keys as [|k' keys IH]; intros b i Hnd Hi; [done|].
  apply NoDup_cons in Hnd as [Hk' Hnd]. cbn.
  destruct i as [|i]; cbn in Hi.
  - injection Hi as ->. rewrite bool_decide_eq_true_2 by done. f_equal. lia.
  - rewrite bool_decide_eq_false_2.
    + rewrite (IH _ i) by done. f_equal. lia.
    + intros ->. apply Hk'. by eapply list_elem_of_lookup_2.
Qed.

Lemma dict_get_zip_seq_Some keys b k a :
  dict_get k (zip keys (seq b (length keys))) = Some a →
  ∃ i, keys !! i = Some k ∧ a = b + i.
Proof.
  revert b. induction keys as [|k' keys IH]; intros b; cbn; [done|].
  case_bool_decide as Hk.
  - intros [= <-]. exists 0. subst. split; [done|lia].
  - intros H. apply IH in H as (i & Hi & ->). exists (S i). split; [done|lia].
Qed.

Lemma fst_zip_seq (keys : list pystr) b :
  (zip keys (seq b (length keys))).*1 = keys.
Proof. apply fst_zip. by rewrite length_seq. Qed.

(** *** The first loop *)

Lemma file_arrays_group_run f st grp :
  members_of st f = Some grp → file_arrays_group f st = (Ok grp, st).
Proof.
  intros Hm. destruct (members_of_file _ _ _ Hm) as (file & Hf & Hda).
  unfold file_arrays_group, get_file. rewrite !run_bind. unfold gets.
  rewrite Hf. cbn [from_option]. rewrite run_ret, Hda. done.
Qed.

Lemma set_heap_id st : set_heap (st_heap st) st = st.
Proof. by destruct st. Qed.

Lemma arrays_add_array_fresh ds k a :
  k ∉ (arrays ds).*1 → arrays (add_array ds k a) = arrays ds ++ [(k, a)].
Proof. intros H. cbn. by apply dict_set_fresh. Qed.

Lemma read_array_run f ds k st grp dat :
  members_of st f = Some grp → grp !! k = Some dat → k ∉ (arrays ds).*1 →
  read_array f ds k st
  = match read_entry k dat with
    | Ok o => (Ok (add_array ds k (length (st_heap st))),
               set_heap (st_heap st ++ [first_pass_object o]) st)
    | Raise e => (Raise e, st)
    end.
Proof.
  intros Hm Hk Hfresh. unfold read_array.
  rewrite run_bind, (file_arrays_group_run _ _ _ Hm), Hk.
  cbn [from_option]. rewrite run_bind, run_ret, run_bind. unfold lift.
  destruct (read_entry k dat) as [[d0 ids]|e]; [|done].
  rewrite run_bind.
  change (alloc d0 st)
    with (Ok (length (st_heap st)), set_heap (st_heap st ++ [d0]) st).
  cbv beta iota zeta.
  rewrite arrays_add_array_fresh by done.
  rewrite dict_get_app. apply dict_get_None in Hfresh. rewrite Hfresh.
  cbn [dict_get]. rewrite bool_decide_eq_true_2 by done.
  cbn [from_option]. rewrite run_bind, run_ret, run_bind, deref_run.
  cbn [set_heap st_heap]. rewrite lookup_app_r by done.
  rewrite Nat.sub_diag. cbn [lookup list_lookup].
  rewrite run_bind. unfold heap_store, modify. rewrite run_ret.
  change (set_heap ?h2 (set_heap ?h1 st)) with (set_heap h2 st).
  cbn [set_heap st_heap].
  rewrite insert_app_r_alt by done. rewrite Nat.sub_diag. reflexivity.
Qed.

Lemma read_loop f grp (l : list (pystr * dset)) ds st :
  members_of st f = Some grp →
  (∀ kd, kd ∈ l → grp !! kd.1 = Some kd.2) →
  NoDup l.*1 →
  (∀ k, k ∈ l.*1 → k ∉ (arrays ds).*1) →
  match read_entries l with
  | Ok objs =>
      fold_each l.*1 ds (read_array f) st
      = (Ok {| location := location ds; io_join := io_join ds;
               arrays := arrays ds
                         ++ zip l.*1 (seq (length (st_heap st)) (length l)) |},
         set_heap (st_heap st ++ (first_pass_object <$> objs)) st)
  | Raise e => (fold_each l.*1 ds (read_array f) st).1 = Raise e
  end.
Proof.
  revert ds st. induction l as [|[k dat] l IH]; intros ds st Hm Hin Hnd Hfresh.
  - cbn. rewrite !app_nil_r, set_heap_id. by destruct ds.
  - unfold read_entries in *. rewrite mapM_result_cons.
    rewrite fmap_cons in *. cbn [fst snd fold_each].
    apply NoDup_cons in Hnd as [Hk Hnd].
    rewrite run_bind, (read_array_run _ _ _ _ grp dat); [|done| |].
    2:{ apply (Hin (k, dat)). by left. }
    2:{ apply Hfresh. by left. }
    destruct (read_entry k dat) as [o|e]; [|done].
    specialize (IH (add_array ds k (length (st_heap st)))
                  (set_heap (st_heap st ++ [first_pass_object o]) st)).
    rewrite arrays_add_array_fresh in IH by (apply Hfresh; by left).
    destruct (mapM _ l) as [objs|e].
    + rewrite IH; [|done| |done|].
      * cbn [set_heap st_heap location io_join add_array length seq zip zip_with].
        rewrite length_app. cbn [length]. rewrite Nat.add_1_r.
        rewrite <- !app_assoc. done.
      * intros kd Hkd. apply Hin. by right.
      * intros k' Hk'. rewrite fmap_app, not_elem_of_app. split.
        -- apply Hfresh. by right.
        -- cbn. rewrite list_elem_of_singleton. by intros ->.
    + apply IH; [done| |done|].
      * intros kd Hkd. apply Hin. by right.
      * intros k' Hk'. rewrite fmap_app, not_elem_of_app. split.
        -- apply Hfresh. by right.
        -- cbn. rewrite list_elem_of_singleton. by intros ->.
Qed.

(** *** The second loop *)

Lemma with_set_arrays_nil d : with_set_arrays [] d = d.
Proof. destruct d. unfold with_set_arrays. cbn. by rewrite app_nil_r. Qed.

Lemma with_set_arrays_cons r rs d :
  with_set_arrays rs (add_set_array r d) = with_set_arrays (r :: rs) d.
Proof. unfold with_set_arrays, add_set_array. cbn. by rewrite <- app_assoc. Qed.

Lemma append_set_array_run ds a id st d :
  st_heap st !! a = Some d →
  append_set_array ds a id st
  = match dict_get id (arrays ds) with
    | Some r => (Ok tt, set_heap (<[a := add_set_array r d]> (st_heap st)) st)
    | None => (Raise KeyError, st)
    end.
Proof.
  intros Ha. unfold append_set_array.
  rewrite run_bind. destruct (dict_get id (arrays ds)) as [r|]; [|done].
  cbn [from_option]. rewrite run_ret, run_bind, deref_run, Ha. done.
Qed.

Lemma append_loop ds a ids st d :
  st_heap st !! a = Some d →
  match resolve_ids (arrays ds) ids with
  | Some rs =>
      for_each ids (append_set_array ds a) st
      = (Ok tt, set_heap (<[a := with_set_arrays rs d]> (st_heap st)) st)
  | None => (for_each ids (append_set_array ds a) st).1 = Raise KeyError
  end.
Proof.
  revert st d. induction ids as [|id ids IH]; intros st d Ha.
  - cbn. by rewrite with_set_arrays_nil, list_insert_id, set_heap_id.
  - unfold resolve_ids in *. cbn [mapM mbind option_bind mret option_ret].
    cbn [for_each]. rewrite run_bind, (append_set_array_run _ _ _ _ _ Ha).
    destruct (dict_get id (arrays ds)) as [r|]; [|done].
    specialize (IH (set_heap (<[a := add_set_array r d]> (st_heap st)) st)
                  (add_set_array r d)).
    cbn [set_heap st_heap] in IH.
    rewrite list_lookup_insert_eq in IH by (by eapply lookup_lt_Some).
    specialize (IH eq_refl).
    destruct (mapM _ ids) as [rs|]; cbn [mbind option_bind mret option_ret].
    + rewrite IH, list_insert_insert_eq, with_set_arrays_cons. done.
    + done.
Qed.

Lemma resolve_array_run ds k a st d ids :
  st_heap st !! a = Some d → _sa_array_ids d = Some ids →
  match resolve_ids (arrays ds) ids with
  | Some rs =>
      resolve_array ds (k, a) st
      = (Ok tt, set_heap (<[a := with_set_arrays rs d]> (st_heap st)) st)
  | None => (resolve_array ds (k, a) st).1 = Raise KeyError
  end.
Proof.
  intros Ha Hids. unfold resolve_array.
  rewrite run_bind, deref_run, Ha, Hids. cbn [from_option].
  rewrite run_bind, run_ret. by apply append_loop.
Qed.

Lemma resolve_loop ds H0 (todo : list (DataArray * list pystr)) :
  ∀ (keys : list pystr) (done_ : list DataArray) st,
    length keys = length todo →
    st_heap st = H0 ++ done_ ++ (first_pass_object <$> todo) →
    match resolve_all (arrays ds) todo with
    | Some rss =>
        for_each (zip keys (seq (length H0 + length done_) (length todo)))
          (resolve_array ds) st
        = (Ok tt,
           set_heap (H0 ++ done_ ++ zip_with second_pass_object todo rss) st)
    | None =>
        (for_each (zip keys (seq (length H0 + length done_) (length todo)))
           (resolve_array ds) st).1 = Raise KeyError
    end.
Proof.
  induction todo as [|o todo IH]; intros keys done_ st Hlen Hheap.
  - destruct keys; [|done]. rewrite fmap_nil in Hheap. cbn.
    rewrite <- Hheap. by rewrite set_heap_id.
  - destruct keys as [|k keys]; [done|]. injection Hlen as Hlen.
    unfold resolve_all in *. cbn [mapM mbind option_bind mret option_ret].
    cbn [length seq zip zip_with for_each]. rewrite run_bind.
    assert (st_heap st !! (length H0 + length done_)
            = Some (first_pass_object o)) as Ha.
    { rewrite Hheap, lookup_app_r by lia.
      rewrite lookup_app_r by lia.
      replace (_ - _ - _) with 0 by lia. done. }
    pose proof (resolve_array_run ds k _ st _ o.2 Ha eq_refl) as Hin.
    destruct (resolve_ids (arrays ds) o.2) as [rs|];
      cbn [mbind option_bind mret option_ret].
    2:{ destruct (resolve_array ds _ st) as [[u|e] st1]; cbn in Hin; [done|].
        by injection Hin as ->. }
    rewrite Hin.
    specialize (IH keys (done_ ++ [second_pass_object o rs])
      (set_heap (<[length H0 + length done_ :=
                     with_set_arrays rs (first_pass_object o)]> (st_heap st)) st)
      Hlen).
    rewrite length_app in IH. cbn [length] in IH.
    replace (length H0 + (length done_ + 1)) with (S (length H0 + length done_))
      in IH by lia.
    assert (<[length H0 + length done_ :=
                with_set_arrays rs (first_pass_object o)]> (st_heap st)
            = H0 ++ (done_ ++ [second_pass_object o rs])
                 ++ (first_pass_object <$> todo)) as Hheap'.
    { rewrite Hheap.
      rewrite insert_app_r_alt by lia. rewrite insert_app_r_alt by lia.
      replace (_ - _ - _) with 0 by lia. cbn. by rewrite <- !app_assoc. }
    specialize (IH Hheap').
    destruct (mapM _ todo) as [rss|]; cbn [mbind option_bind mret option_ret].
    + rewrite IH. cbn [zip_with]. by rewrite <- !app_assoc.
    + apply IH.
Qed.

(** *** The whole of [read] *)

Lemma read_unfold ds st grp :
  members_of st (location ds) = Some grp →
  read ds st
  = match fold_each (map_to_list grp).*1 ds (read_array (location ds))
            (set_self (reading ds (st_self st)) st) with
    | (Ok ds1, st1) =>
        match for_each (arrays ds1) (resolve_array ds1) st1 with
        | (Ok _, st2) => (Ok ds1, st2)
        | (Raise e, st2) => (Raise e, st2)
        end
    | (Raise e, st1) => (Raise e, st1)
    end.
Proof.
  intros Hm. destruct (members_of_file _ _ _ Hm) as (file & Hf & Hda).
  unfold read. rewrite run_bind. unfold h5py_File_rw.
  rewrite run_bind. unfold gets at 1. rewrite Hf, run_ret.
  rewrite run_bind. unfold store_data_object, modify at 1.
  fold (reading ds (st_self st)).
  assert (members_of (set_self (reading ds (st_self st)) st) (location ds)
          = Some grp) as Hm0 by done.
  rewrite run_bind. unfold read_arrays.
  rewrite run_bind, (file_arrays_group_run _ _ _ Hm0).
  destruct (fold_each _ _ _ _) as [[ds1|e] st1]; [|done].
  unfold resolve_set_arrays. rewrite run_bind.
  by destruct (for_each _ _ _) as [[[]|e] st2].
Qed.

Lemma read_run ds st grp :
  members_of st (location ds) = Some grp →
  arrays ds = [] →
  let entries := map_to_list grp in
  let A := zip entries.*1 (seq (length (st_heap st)) (length entries)) in
  match read_entries entries with
  | Raise e => (read ds st).1 = Raise e
  | Ok objs =>
      match resolve_all A objs with
      | None => (read ds st).1 = Raise KeyError
      | Some rss =>
          read ds st
          = (Ok {| location := location ds; io_join := io_join ds;
                   arrays := A |},
             set_heap (st_heap st ++ zip_with second_pass_object objs rss)
               (set_self (reading ds (st_self st)) st))
      end
  end.
Proof.
  intros Hm Hempty entries A. rewrite (read_unfold _ _ _ Hm). fold entries.
  set (st0 := set_self (reading ds (st_self st)) st).
  assert (members_of st0 (location ds) = Some grp) as Hm0 by done.
  pose proof (read_loop (location ds) grp entries ds st0 Hm0) as Hloop.
  rewrite Hempty in Hloop. cbn [app] in Hloop.
  change (st_heap st0) with (st_heap st) in Hloop. fold A in Hloop.
  assert (∀ objs, read_entries entries = Ok objs →
                  length entries = length objs) as Hlen.
  { intros objs Hobjs. apply mapM_result_Ok in Hobjs.
    by eapply Forall2_length. }
  destruct (read_entries entries) as [objs|e].
  - rewrite Hloop; clear Hloop.
    + pose proof (resolve_loop
        {| location := location ds; io_join := io_join ds; arrays := A |}
        (st_heap st) objs entries.*1 []
        (set_heap (st_heap st ++ (first_pass_object <$> objs)) st0)) as Hres.
      cbn [length arrays] in Hres.
      rewrite Nat.add_0_r, <- (Hlen _ eq_refl) in Hres.
      fold A in Hres. cbn [app] in Hres. cbn [arrays].
      destruct (resolve_all A objs) as [rss|].
      * rewrite Hres; [done| |done]. by rewrite length_fmap.
      * destruct (for_each _ _ _) as [[[]|e] st2]; cbn in Hres |- *.
        -- discriminate Hres; [|done]. by rewrite length_fmap.
        -- assert (e = KeyError) as ->; [|done].
           assert (Raise (A := unit) e = Raise KeyError) as Heq;
             [|by injection Heq].
           apply Hres; [|done]. by rewrite length_fmap.
    + intros [k d] Hkd. by apply elem_of_map_to_list.
    + apply NoDup_fst_map_to_list.
    + intros k _. apply not_elem_of_nil.
  - destruct (fold_each _ _ _ _) as [[ds1|e1] st1]; cbn in Hloop |- *.
    + discriminate Hloop; [ |apply NoDup_fst_map_to_list| ].
      * intros [k d] Hkd. by apply elem_of_map_to_list.
      * intros k _. apply not_elem_of_nil.
    + apply Hloop; [ |apply NoDup_fst_map_to_list| ].
      * intros [k d] Hkd. by apply elem_of_map_to_list.
      * intros k _. apply not_elem_of_nil.
Qed.

(** *** What an entry is read as *)

Lemma bind_result_Ok {A B} (r : result A) (f : A → result B) b :
  r ≫= f = Ok b → ∃ a, r = Ok a ∧ f a = Ok b.
Proof. destruct r as [a|]; [|done]. cbn. eauto. Qed.

Lemma read_entry_Ok key dat d0 ids :
  read_entry key dat = Ok (d0, ids) →
  array_id d0 = key ∧ set_arrays d0 = [] ∧ _sa_array_ids d0 = None ∧
  (attrs dat !! py "label" = None → label d0 = None) ∧
  (attrs dat !! py "name" = None → name d0 = Some key) ∧
  (attrs dat !! py "units" = None → units d0 = VNone) ∧
  (is_setpoint d0 = true → ids = []) ∧
  (∃ v s, attrs dat !! py "is_setpoint" = Some v ∧ decode_method v = Ok s ∧
          str_to_bool s = Ok (is_setpoint d0)) ∧
  (is_setpoint d0 = false →
   ∃ v items, attrs dat !! py "set_arrays" = Some v ∧ py_iter v = Ok items ∧
              mapM decode_method items = Ok ids).
Proof.
  unfold read_entry. intros H.
  apply bind_result_Ok in H as (lbl & Hlbl & H).
  apply bind_result_Ok in H as (nm & Hnm & H).
  apply bind_result_Ok in H as (un & Hun & H).
  apply bind_result_Ok in H as (v & Hv & H).
  apply bind_result_Ok in H as (s & Hs & H).
  apply bind_result_Ok in H as (sp & Hsp & H).
  apply bind_result_Ok in H as (sa & Hsa & H).
  apply bind_result_Ok in H as (pd & Hpd & H).
  injection H as <- <-. cbn [new_DataArray array_id set_arrays _sa_array_ids
    label name units is_setpoint].
  split_and!; try done.
  - intros E. rewrite E in Hlbl. by injection Hlbl as <-.
  - intros E. rewrite E in Hnm. by injection Hnm as <-.
  - intros E. rewrite E in Hun. by injection Hun as <-.
  - intros ->. cbn in Hsa. by injection Hsa as <-.
  - destruct (attrs dat !! py "is_setpoint") as [v'|]; [|done].
    injection Hv as ->. eauto.
  - intros ->. cbn [negb] in Hsa.
    apply bind_result_Ok in Hsa as (v' & Hv' & Hsa).
    apply bind_result_Ok in Hsa as (items & Hit & Hsa).
    destruct (attrs dat !! py "set_arrays") as [v''|]; [|done].
    injection Hv' as ->. eauto.
Qed.

Lemma optional_reads dat :
  optional_attrs_decodable dat →
  (∃ l, match attrs dat !! py "label" with
        | Some v => Some <$> decode_method v
        | None => Ok None
        end = Ok l) ∧
  (∀ key, ∃ n, match attrs dat !! py "name" with
               | Some v => decode_method v
               | None => Ok key
               end = Ok n) ∧
  (∃ u, match attrs dat !! py "units" with
        | Some v => VStr <$> decode_method v
        | None => Ok VNone
        end = Ok u).
Proof.
  intros H. split_and!.
  - destruct (attrs dat !! py "label") as [v|] eqn:E; [|by eexists].
    destruct (H (py "label") v) as [s ->]; [|done|by eexists].
    apply list_elem_of_here.
  - intros key. destruct (attrs dat !! py "name") as [v|] eqn:E; [|by eexists].
    destruct (H (py "name") v) as [s ->]; [|done|by eexists].
    apply list_elem_of_further, list_elem_of_here.
  - destruct (attrs dat !! py "units") as [v|] eqn:E; [|by eexists].
    destruct (H (py "units") v) as [s ->]; [|done|by eexists].
    do 2 apply list_elem_of_further. apply list_elem_of_here.
Qed.

Lemma read_entry_no_is_setpoint key dat :
  optional_attrs_decodable dat →
  attrs dat !! py "is_setpoint" = None →
  read_entry key dat = Raise KeyError.
Proof.
  intros Hopt Hsp. destruct (optional_reads dat Hopt) as ([l Hl] & Hn & [u Hu]).
  destruct (Hn key) as [n Hn']. unfold read_entry.
  rewrite Hl. cbn [mbind result_bind]. rewrite Hn'. cbn [mbind result_bind].
  rewrite Hu. cbn [mbind result_bind]. by rewrite Hsp.
Qed.

Lemma read_entry_no_set_arrays key dat v s :
  optional_attrs_decodable dat →
  attrs dat !! py "is_setpoint" = Some v →
  decode_method v = Ok s → str_to_bool s = Ok false →
  attrs dat !! py "set_arrays" = None →
  read_entry key dat = Raise KeyError.
Proof.
  intros Hopt Hsp Hv Hs Hsa.
  destruct (optional_reads dat Hopt) as ([l Hl] & Hn & [u Hu]).
  destruct (Hn key) as [n Hn']. unfold read_entry.
  rewrite Hl. cbn [mbind result_bind]. rewrite Hn'. cbn [mbind result_bind].
  rewrite Hu. cbn [mbind result_bind]. rewrite Hsp. cbn [mbind result_bind].
  rewrite Hv. cbn [mbind result_bind]. rewrite Hs. cbn [mbind result_bind negb].
  by rewrite Hsa.
Qed.

(** *** The reconstructed data set *)

(** What [read] leaves for the entry at position [j] of the iteration. *)
Lemma read_object_at (entries : list (pystr * dset)) objs rss A H0 j key dat :
  entries !! j = Some (key, dat) →
  read_entries entries = Ok objs →
  resolve_all A objs = Some rss →
  ∃ d0 ids rs,
    read_entry key dat = Ok (d0, ids) ∧ resolve_ids A ids = Some rs ∧
    (H0 ++ zip_with second_pass_object objs rss) !! (length H0 + j)
    = Some (second_pass_object (d0, ids) rs).
Proof.
  intros Hj Hobjs Hrss.
  apply mapM_result_Ok in Hobjs. apply mapM_Some_1 in Hrss.
  destruct (Forall2_lookup_l _ _ _ _ _ Hobjs Hj) as ([d0 ids] & Ho & Hread).
  destruct (Forall2_lookup_l _ _ _ _ _ Hrss Ho) as (rs & Hrs & Hres).
  exists d0, ids, rs. split_and!; [done..|].
  rewrite lookup_app_r by lia. replace (_ - _) with j by lia.
  rewrite lookup_zip_with, Ho. cbn. by rewrite Hrs.
Qed.

Lemma entry_position (grp : gmap pystr dset) key dat :
  grp !! key = Some dat →
  ∃ j, map_to_list grp !! j = Some (key, dat) ∧
       (map_to_list grp).*1 !! j = Some key.
Proof.
  intros H. apply elem_of_map_to_list in H.
  apply list_elem_of_lookup in H as [j Hj]. exists j. split; [done|].
  by rewrite list_lookup_fmap, Hj.
Qed.

Lemma position_entry (grp : gmap pystr dset) key j :
  (map_to_list grp).*1 !! j = Some key →
  ∃ dat, map_to_list grp !! j = Some (key, dat) ∧ grp !! key = Some dat.
Proof.
  rewrite list_lookup_fmap. destruct (map_to_list grp !! j) as [[k d]|] eqn:E;
    [|done]. intros [= <-]. exists d. split; [done|].
  apply elem_of_map_to_list. by eapply list_elem_of_lookup_2.
Qed.

Lemma length_fst_entries (grp : gmap pystr dset) :
  length (map_to_list grp).*1 = length (map_to_list grp).
Proof. apply length_fmap. Qed.

(** A successful [read] of a container into an empty data set. *)
Lemma read_Ok_spec ds st grp ds' st' :
  members_of st (location ds) = Some grp →
  arrays ds = [] →
  read ds st = (Ok ds', st') →
  ∀ key dat, grp !! key = Some dat →
    ∃ a d0 ids rs,
      dict_get key (arrays ds') = Some a ∧
      read_entry key dat = Ok (d0, ids) ∧
      resolve_ids (arrays ds') ids = Some rs ∧
      st_heap st' !! a = Some (second_pass_object (d0, ids) rs) ∧
      Forall2 (λ id r, dict_get id (arrays ds') = Some r ∧
                       ∃ t, st_heap st' !! r = Some t ∧ array_id t = id)
              ids rs.
Proof.
  intros Hm Hempty Hread key dat Hkey.
  pose proof (read_run ds st grp Hm Hempty) as Hrun. cbv zeta in Hrun.
  set (entries := map_to_list grp) in *.
  set (A := zip entries.*1 (seq (length (st_heap st)) (length entries))) in *.
  destruct (read_entries entries) as [objs|e] eqn:Hobjs;
    [|by rewrite Hread in Hrun].
  destruct (resolve_all A objs) as [rss|] eqn:Hrss;
    [|by rewrite Hread in Hrun].
  rewrite Hread in Hrun. injection Hrun as -> ->.
  cbn [arrays set_heap st_heap].
  pose proof (length_fst_entries grp) as Hlf. fold entries in Hlf.
  assert (∀ k j, entries.*1 !! j = Some k →
                 dict_get k A = Some (length (st_heap st) + j)) as HA.
  { intros k j Hj. subst A. rewrite <- Hlf.
    apply dict_get_zip_seq; [apply NoDup_fst_map_to_list|done]. }
  destruct (entry_position _ _ _ Hkey) as (j & Hj & Hjk).
  destruct (read_object_at _ _ _ A (st_heap st) _ _ _ Hj Hobjs Hrss)
    as (d0 & ids & rs & Hd0 & Hrs & Hobj).
  exists (length (st_heap st) + j), d0, ids, rs.
  split_and!; [by apply HA|done..|].
  apply mapM_Some_1 in Hrs. eapply Forall2_impl; [done|].
  intros id r Hr. cbv beta in Hr. split; [done|].
  subst A. rewrite <- Hlf in Hr.
  apply dict_get_zip_seq_Some in Hr as (i & Hi & ->).
  destruct (position_entry _ _ _ Hi) as (dat' & Hi' & _).
  destruct (read_object_at _ _ _ _ (st_heap st) _ _ _ Hi' Hobjs Hrss)
    as (t0 & tids & trs & Ht0 & _ & Ht).
  eexists. split; [done|].
  apply read_entry_Ok in Ht0 as (Hid & _). done.
Qed.

Lemma dict_get_is_Some {V} k (A : list (pystr * V)) :
  is_Some (dict_get k A) ↔ k ∈ A.*1.
Proof.
  rewrite <- not_eq_None_Some, dict_get_None.
  split; [apply dec_stable|by intros ??].
Qed.

Lemma resolve_ids_is_Some A ids :
  is_Some (resolve_ids A ids) ↔ ∀ id, id ∈ ids → id ∈ A.*1.
Proof.
  unfold resolve_ids. rewrite mapM_is_Some, Forall_forall.
  split; intros H id Hid; apply dict_get_is_Some; by apply H.
Qed.

Lemma resolve_all_is_Some (entries : list (pystr * dset)) objs A :
  read_entries entries = Ok objs →
  is_Some (resolve_all A objs) ↔
  ∀ kd d0 ids id, kd ∈ entries → read_entry kd.1 kd.2 = Ok (d0, ids) →
                  id ∈ ids → id ∈ A.*1.
Proof.
  intros Hobjs. apply mapM_result_Ok in Hobjs.
  unfold resolve_all. rewrite mapM_is_Some, Forall_forall. split.
  - intros H kd d0 ids id Hkd Hread Hid.
    apply list_elem_of_lookup in Hkd as [j Hj].
    destruct (Forall2_lookup_l _ _ _ _ _ Hobjs Hj) as (o & Ho & Hread').
    assert (o = (d0, ids)) as -> by congruence.
    apply (resolve_ids_is_Some A ids); [|done].
    apply (H (d0, ids)). by eapply list_elem_of_lookup_2.
  - intros H o Ho. apply list_elem_of_lookup in Ho as [j Hj].
    destruct (Forall2_lookup_r _ _ _ _ _ Hobjs Hj) as (kd & Hkd & Hread).
    apply resolve_ids_is_Some. intros id Hid. destruct o as [d0 ids].
    eapply H; [|done..]. by eapply list_elem_of_lookup_2.
Qed.

Lemma stored_key (grp : gmap pystr dset) id :
  id ∈ (map_to_list grp).*1 ↔ is_Some (grp !! id).
Proof.
  rewrite list_elem_of_fmap. split.
  - intros ([k d] & -> & H). apply elem_of_map_to_list in H. by eexists.
  - intros [d H]. exists (id, d). split; [done|]. by apply elem_of_map_to_list.
Qed.

(** *** The flag and the arguments of the constructor *)

Lemma str_to_bool_Ok s b :
  str_to_bool s = Ok b → s = py (if b then "True" else "False").
Proof.
  unfold str_to_bool. repeat case_bool_decide; intros [= <-]; done.
Qed.

Lemma read_entry_bad_token key dat v s :
  optional_attrs_decodable dat →
  attrs dat !! py "is_setpoint" = Some v →
  decode_method v = Ok s → s ≠ py "True" → s ≠ py "False" →
  read_entry key dat = Raise ValueError.
Proof.
  intros Hopt Hsp Hv H1 H2.
  destruct (optional_reads dat Hopt) as ([l Hl] & Hn & [u Hu]).
  destruct (Hn key) as [n Hn']. unfold read_entry.
  rewrite Hl. cbn [mbind result_bind]. rewrite Hn'. cbn [mbind result_bind].
  rewrite Hu. cbn [mbind result_bind]. rewrite Hsp. cbn [mbind result_bind].
  rewrite Hv. cbn [mbind result_bind]. unfold str_to_bool.
  by rewrite !bool_decide_eq_false_2.
Qed.

Lemma read_entry_arguments key dat d0 ids :
  read_entry key dat = Ok (d0, ids) →
  ∃ nm lbl un sp pd,
    d0 = new_DataArray nm key lbl un sp [] pd ∧
    (attrs dat !! py "label" = None → lbl = None) ∧
    (attrs dat !! py "name" = None → nm = key) ∧
    (attrs dat !! py "units" = None → un = VNone).
Proof.
  unfold read_entry. intros H.
  apply bind_result_Ok in H as (lbl & Hlbl & H).
  apply bind_result_Ok in H as (nm & Hnm & H).
  apply bind_result_Ok in H as (un & Hun & H).
  apply bind_result_Ok in H as (v & Hv & H).
  apply bind_result_Ok in H as (s & Hs & H).
  apply bind_result_Ok in H as (sp & Hsp & H).
  apply bind_result_Ok in H as (sa & Hsa & H).
  apply bind_result_Ok in H as (pd & Hpd & H).
  injection H as <- <-. exists nm, lbl, un, sp, pd. split_and!; [done|..].
  - intros E. rewrite E in Hlbl. by injection Hlbl as <-.
  - intros E. rewrite E in Hnm. by injection Hnm as <-.
  - intros E. rewrite E in Hun. by injection Hun as <-.
Qed.

Lemma created_flag_attr array g st st' a m :
  _create_dataarray_dset array g st = (Ok tt, st') →
  st_heap st !! array = Some a →
  members_of st g = Some m →
  ∃ m' d,
    members_of st' g = Some m' ∧ m' !! array_id a = Some d ∧
    attrs d !! py "is_setpoint"
    = Some (VBytes (py (if is_setpoint a then "True" else "False"))).
Proof.
  intros Hrun Ha Hm.
  destruct (create_dataarray_dset_Ok _ _ _ _ _ _ Hrun Ha Hm)
    as (n & vl & vn & vu & vs & d & _ & _ & _ & _ & _ & _
        & _ & _ & _ & Hattrs & ->).
  exists (<[array_id a := d]> m), d.
  rewrite (members_of_with_members _ m) by done.
  rewrite lookup_insert_eq. split_and!; [done..|]. rewrite Hattrs.
  destruct vs as [v|]; cbn [id].
  - rewrite lookup_insert_ne by (by vm_compute). apply lookup_insert_eq.
  - apply lookup_insert_eq.
Qed.

(** * The claims *)

Import Scenario Prepared.

Ltac each_entry H :=
  apply elem_of_map_to_list in H;
  match type of H with
  | _ ∈ ?L =>
      let l := eval vm_compute in L in
      replace L with l in H by (vm_compute; reflexivity)
  end;
  repeat (apply elem_of_cons in H as [H|H]; [injection H as -> ->|]);
  [..|apply not_elem_of_nil in H; destruct H].

Ltac decodable :=
  let a := fresh "a" in let v := fresh "v" in
  let Ha := fresh "Ha" in let Hv := fresh "Hv" in
  intros a v Ha Hv;
  repeat (apply elem_of_cons in Ha as [->|Ha]);
  [..|apply not_elem_of_nil in Ha; destruct Ha];
  vm_compute in Hv; try discriminate Hv;
  injection Hv as <-; eexists; vm_compute; reflexivity.

(** C1. The first write persists three rows of [x] and of [y]. The write
    after a fourth sample was taken raises ValueError while it handles
    [x]: the one new cell is reshaped to the whole new shape (4, 1). The
    table of [x] is left with four rows, the fourth unwritten, and the table
    of [y] with three. *)
Theorem incremental_append_raises :
  (write data_set false start).1 = Ok tt ∧
  stored_shape after_first_write (py "x") = Some (3, 1) ∧
  stored_shape after_first_write (py "y") = Some (3, 1) ∧
  (write data_set false grown).1 = Raise ValueError ∧
  stored_value (write data_set false grown).2 (py "x")
  = Some [num 0; num 1; num 2; fillvalue] ∧
  stored_shape (write data_set false grown).2 (py "y") = Some (3, 1).
Proof. vm_compute. done. Qed.

(** C2, as the claim has it, fails: there is no guard. After the arrays
    were cleared the write succeeds and the tables, which held three rows,
    hold none. *)
Lemma cleared_write_truncates :
  stored_shape cleared (py "x") = Some (3, 1) ∧
  stored_shape cleared (py "y") = Some (3, 1) ∧
  (write data_set false cleared).1 = Ok tt ∧
  stored_shape (write data_set false cleared).2 (py "x") = Some (0, 1) ∧
  stored_shape (write data_set false cleared).2 (py "y") = Some (0, 1).
Proof. vm_compute. done. Qed.

(** C2, as the source has it. There is no guard on the two lengths: for a
    table that exists, the body of the loop resizes it to the populated
    length of the in-memory array whatever its row count was, so the row
    count is the populated length afterwards (less than before when the
    populated length is less), the column count is kept, the rows below
    both lengths keep their cells and the other tables are untouched. When
    no array has new populated rows, a write by the same formatter leaves
    every row count as it was. *)
Theorem write_resizes_unconditionally :
  (∀ ds key st g m d xa x,
     arr_group (st_self st) = Some g →
     members_of st g = Some m →
     m !! key = Some d →
     dict_get key (arrays ds) = Some xa →
     st_heap st !! xa = Some x →
     maxshape d = (None, Some (shape d).2) →
     ∃ m' d',
       members_of (write_array ds false key st).2 g = Some m' ∧
       m' !! key = Some d' ∧
       shape d' = (populated_length (ndarray x), (shape d).2) ∧
       (∀ i j, i < (shape d).1 `min` populated_length (ndarray x) →
               j < (shape d).2 → cell d' i j = cell d i j) ∧
       (∀ k, k ≠ key → m' !! k = m !! k)) ∧
  (∀ ds st g m,
     data_object (st_self st) = Some g →
     arr_group (st_self st) = Some g →
     members_of st g = Some m →
     (∀ key, key ∈ dict_keys (arrays ds) →
        ∃ d xa x, m !! key = Some d ∧ dict_get key (arrays ds) = Some xa ∧
                  st_heap st !! xa = Some x ∧
                  populated_length (ndarray x) = (shape d).1) →
     ∃ m', members_of (write ds false st).2 g = Some m' ∧
           ∀ key d, m !! key = Some d →
                    ∃ d', m' !! key = Some d' ∧ shape d' = shape d).
Proof.
  split.
  - intros ds key st g m d xa x Hg Hm Hd Hxa Hx Hmax.
    destruct (write_array_resizes _ _ _ _ _ _ _ _ Hg Hm Hd Hxa Hx Hmax)
      as (r & d' & -> & Hs & _ & _ & Hc).
    exists (<[key := d']> m), d'. cbn [snd].
    rewrite (members_of_with_members _ _ _ _ Hm), lookup_insert_eq.
    split_and!; [done..|]. intros k Hk. by rewrite lookup_insert_ne.
  - apply write_no_new_rows.
Qed.

Lemma write_resizes_unconditionally_witness :
  (∃ m' d',
     members_of (write_array data_set false (py "x") cleared).2 container
     = Some m' ∧
     m' !! py "x" = Some d' ∧ shape d' = (0, 1)) ∧
  (∃ m', members_of (write data_set false after_first_write).2 container
         = Some m' ∧
         ∃ d', m' !! py "x" = Some d' ∧ shape d' = (3, 1)).
Proof.
  split.
  - edestruct (proj1 write_resizes_unconditionally data_set (py "x") cleared
                 container) as (m' & d' & Hm' & Hd' & Hs & _);
      [reflexivity..|].
    exists m', d'. split_and!; [done..|]. rewrite Hs. reflexivity.
  - edestruct (proj2 write_resizes_unconditionally data_set after_first_write
                 container) as (m' & Hm' & Hsh);
      [reflexivity..| |].
    + intros key Hkey.
      apply list_elem_of_In in Hkey. cbn in Hkey.
      destruct Hkey as [<-|[<-|[]]]; do 3 eexists;
        (split_and!; [reflexivity..|]); reflexivity.
    + exists m'. split; [done|].
      edestruct (Hsh (py "x")) as (d' & Hd' & Hs'); [reflexivity|].
      exists d'. split; [done|]. rewrite Hs'. reflexivity.
Defined.

(** C3, as the claim has it, fails: of [1, nan, 2] two rows are persisted,
    not one, and the second is the sentinel. *)
Lemma gap_persists_sentinel :
  nan_free_prefix [num 1; nan; num 2] = 1 ∧
  populated_length (vector [num 1; nan; num 2]) = 2 ∧
  (write gap_set false gap_start).1 = Ok tt ∧
  value <$> gap_stored (write gap_set false gap_start).2 = Some [num 1; nan].
Proof. vm_compute. done. Qed.

(** C3, as the source has it. The length a write persists is the number
    of values of the in-memory array that are not the sentinel, wherever
    they are. It is the length of the sentinel-free prefix when the
    sentinels form the tail of the array (the arrays are preallocated and
    filled from the start), and then no position at or after the first
    sentinel is below it. A table that exists has that many rows after the
    body of the loop. *)
Theorem populated_length_counts_values :
  (∀ x, populated_length x
        = length (List.filter (λ v, negb (is_nan v)) (nd_data x))) ∧
  (∀ x p q,
     nd_data x = p ++ q →
     Forall (λ v, is_nan v = false) p → Forall (λ v, is_nan v = true) q →
     populated_length x = nan_free_prefix (nd_data x) ∧
     ∀ i v, i < populated_length x → nd_data x !! i = Some v →
            is_nan v = false) ∧
  (∀ ds key st g m d xa x,
     arr_group (st_self st) = Some g →
     members_of st g = Some m →
     m !! key = Some d →
     dict_get key (arrays ds) = Some xa →
     st_heap st !! xa = Some x →
     maxshape d = (None, Some (shape d).2) →
     ∃ m' d',
       members_of (write_array ds false key st).2 g = Some m' ∧
       m' !! key = Some d' ∧
       (shape d').1 = populated_length (ndarray x)).
Proof.
  split_and!.
  - apply populated_length_count.
  - intros x p q Hd Hp Hq.
    destruct (populated_prefix _ _ _ Hd Hp Hq) as [Hl Hn].
    split; [congruence|]. intros i v Hi Hv. rewrite Hl in Hi.
    rewrite Hd, lookup_app_l in Hv by done.
    by apply (proj1 (Forall_lookup _ _) Hp i).
  - intros ds key st g m d xa x Hg Hm Hd Hxa Hx Hmax.
    destruct (write_array_resizes _ _ _ _ _ _ _ _ Hg Hm Hd Hxa Hx Hmax)
      as (r & d' & -> & Hs & _).
    exists (<[key := d']> m), d'. cbn [snd].
    rewrite (members_of_with_members _ _ _ _ Hm), lookup_insert_eq.
    split_and!; [done..|]. by rewrite Hs.
Qed.

Lemma populated_length_counts_values_witness :
  (populated_length (vector [num 0; num 1; nan; nan])
   = nan_free_prefix [num 0; num 1; nan; nan]) ∧
  (∃ m' d',
     members_of (write_array data_set false (py "x") grown).2 container
     = Some m' ∧ m' !! py "x" = Some d' ∧ (shape d').1 = 4).
Proof.
  split.
  - refine (proj1 (proj1 (proj2 populated_length_counts_values)
              (vector [num 0; num 1; nan; nan]) [num 0; num 1] [nan; nan]
              eq_refl _ _)); by repeat constructor.
  - edestruct (proj2 (proj2 populated_length_counts_values) data_set
                 (py "x") grown container)
      as (m' & d' & Hm' & Hd' & Hs); [reflexivity..|].
    exists m', d'. split_and!; [done..|]. rewrite Hs. reflexivity.
Defined.

(** C4. A formatter created after the container was written finds the
    group 'Data Arrays', skips its creation and never assigns [arr_group]:
    the first array raises AttributeError and nothing is appended. *)
Theorem reopened_write_raises :
  (members_of reopened container ≫= λ _, Some tt) = Some tt ∧
  data_object (st_self reopened) = None ∧
  (write data_set false reopened).1 = Raise AttributeError ∧
  stored_shape (write data_set false reopened).2 (py "x") = Some (3, 1) ∧
  stored_shape (write data_set false reopened).2 (py "y") = Some (3, 1).
Proof. vm_compute. done. Qed.

(** C5. Reading a container whose stored entries are well formed into an
    empty data set: when every array id kept in a set_arrays attribute is
    the id of a stored array, [read] returns, and the set_arrays of each
    reconstructed array are, in order, the addresses of the reconstructed
    arrays filed in the data set under the stored ids (objects of the same
    heap, each with the id it was looked up by; none for a setpoint
    array), the ids having been kept by the first loop and looked up by the
    second; when some kept id is the id of no stored array, [read] raises
    KeyError. *)
Theorem read_resolves_set_arrays ds st grp :
  members_of st (location ds) = Some grp →
  arrays ds = [] →
  (∀ key dat, grp !! key = Some dat → ∃ o, read_entry key dat = Ok o) →
  ((∀ key dat d0 ids id,
      grp !! key = Some dat → read_entry key dat = Ok (d0, ids) →
      id ∈ ids → is_Some (grp !! id)) →
   ∃ ds' st',
     read ds st = (Ok ds', st') ∧
     ∀ key dat, grp !! key = Some dat →
       ∃ a o d0 ids,
         dict_get key (arrays ds') = Some a ∧
         st_heap st' !! a = Some o ∧
         read_entry key dat = Ok (d0, ids) ∧
         array_id o = key ∧
         _sa_array_ids o = Some ids ∧
         (is_setpoint o = true → set_arrays o = []) ∧
         Forall2 (λ id r, dict_get id (arrays ds') = Some r ∧
                          ∃ t, st_heap st' !! r = Some t ∧ array_id t = id)
                 ids (set_arrays o)) ∧
  (∀ key dat d0 ids id,
     grp !! key = Some dat → read_entry key dat = Ok (d0, ids) →
     id ∈ ids → grp !! id = None →
     (read ds st).1 = Raise KeyError).
Proof.
  intros Hm Hempty Hwf.
  pose proof (read_run ds st grp Hm Hempty) as Hrun. cbv zeta in Hrun.
  destruct (mapM_result_all_Ok (λ kd, read_entry kd.1 kd.2) (map_to_list grp))
    as [objs Hobjs].
  { intros [k d] Hkd. apply Hwf. by apply elem_of_map_to_list. }
  fold (read_entries (map_to_list grp)) in Hobjs. rewrite Hobjs in Hrun.
  pose proof (resolve_all_is_Some _ _
    (zip (map_to_list grp).*1
       (seq (length (st_heap st)) (length (map_to_list grp)))) Hobjs) as HS.
  rewrite <- (length_fst_entries grp), fst_zip_seq in HS.
  split.
  - intros Hclosed.
    destruct (proj2 HS) as [rss Hrss].
    { intros [k d] d0 ids id Hkd Hread Hid. apply stored_key.
      apply elem_of_map_to_list in Hkd. eapply Hclosed; done. }
    rewrite (length_fst_entries grp) in Hrss. rewrite Hrss in Hrun.
    eexists _, _. split; [done|]. intros key dat Hkey.
    destruct (read_Ok_spec _ _ _ _ _ Hm Hempty Hrun key dat Hkey)
      as (a & d0 & ids & rs & Ha & Hd0 & Hrs & Hobj & Hall).
    exists a, (second_pass_object (d0, ids) rs), d0, ids.
    apply read_entry_Ok in Hd0 as Hfacts.
    destruct Hfacts as (Hid & Hsa & _ & _ & _ & _ & Hsp & _).
    cbn [second_pass_object with_set_arrays first_pass_object set_sa_array_ids
         array_id _sa_array_ids is_setpoint set_arrays fst snd].
    rewrite Hsa. cbn [app]. split_and!; [done..| |done].
    intros Hsp'. specialize (Hsp Hsp'). subst ids.
    by apply Forall2_nil_inv_l in Hall.
  - intros key dat d0 ids id Hkey Hread Hid Hnone.
    destruct (resolve_all _ objs) as [rss|] eqn:Hrss; [|done].
    exfalso. rewrite <- (length_fst_entries grp) in Hrss.
    assert (id ∈ (map_to_list grp).*1) as Hin.
    { apply (proj1 HS (ltac:(by eexists)) (key, dat) d0 ids id); [|done..].
      by apply elem_of_map_to_list. }
    apply stored_key in Hin as [d Hd]. congruence.
Qed.

Lemma read_resolves_set_arrays_witness :
  (∃ ds' st',
     read to_read after_first_write = (Ok ds', st') ∧
     ∃ a o r t,
       dict_get (py "y") (arrays ds') = Some a ∧
       st_heap st' !! a = Some o ∧ set_arrays o = [r] ∧
       dict_get (py "x") (arrays ds') = Some r ∧
       st_heap st' !! r = Some t ∧ array_id t = py "x") ∧
  (read to_read without_x).1 = Raise KeyError.
Proof.
  split.
  - edestruct (read_resolves_set_arrays to_read after_first_write)
      as [Hread _]; [reflexivity|reflexivity| |].
    { intros key dat H. each_entry H; eexists; vm_compute; reflexivity. }
    destruct Hread as (ds' & st' & Hread & Hall).
    { intros key dat d0 ids id H Hd0 Hid.
      each_entry H; vm_compute in Hd0; injection Hd0 as <- <-.
      - apply list_elem_of_singleton in Hid as ->. vm_compute. eauto.
      - by apply not_elem_of_nil in Hid. }
    exists ds', st'. split; [done|].
    edestruct (Hall (py "y")) as (a & o & d0 & ids & Ha & Ho & Hd0 & _ & _ & _ & Hsa);
      [reflexivity|].
    vm_compute in Hd0. injection Hd0 as <- <-.
    apply Forall2_cons_inv_l in Hsa as (r & rs & (Hr & t & Ht & Hid) & Hrs & Heq).
    apply Forall2_nil_inv_l in Hrs as ->.
    exists a, o, r, t.
    split_and!; [exact Ha|exact Ho|exact Heq|exact Hr|exact Ht|exact Hid].
  - edestruct (read_resolves_set_arrays to_read without_x) as [_ Hraise];
      [reflexivity|reflexivity| |].
    { intros key dat H. each_entry H; eexists; vm_compute; reflexivity. }
    eapply (Hraise (py "y") _ _ _ (py "x"));
      [reflexivity|vm_compute; reflexivity|apply list_elem_of_here|reflexivity].
Defined.

(** C6. The is_setpoint flag is stored as the text token "True" or
    "False": that is what the storage of an array is created with. On read
    "True" is true, "False" is false and every other token raises
    ValueError, in [str_to_bool] and so in the reading of an entry; parsing
    what was stored gives the flag back. *)
Theorem str_to_bool_strict :
  str_to_bool (py "True") = Ok true ∧
  str_to_bool (py "False") = Ok false ∧
  (∀ s, s ≠ py "True" → s ≠ py "False" → str_to_bool s = Raise ValueError) ∧
  (∀ b : bool,
     _encode_to_utf8 (VStr (py_str (VBool b)))
     = Ok (VBytes (py (if b then "True" else "False"))) ∧
     (decode_method (VBytes (py (if b then "True" else "False")))
        ≫= str_to_bool) = Ok b) ∧
  (∀ array g st st' a m,
     _create_dataarray_dset array g st = (Ok tt, st') →
     st_heap st !! array = Some a →
     members_of st g = Some m →
     ∃ m' d,
       members_of st' g = Some m' ∧ m' !! array_id a = Some d ∧
       attrs d !! py "is_setpoint"
       = Some (VBytes (py (if is_setpoint a then "True" else "False")))) ∧
  (∀ key dat v s,
     optional_attrs_decodable dat →
     attrs dat !! py "is_setpoint" = Some v →
     decode_method v = Ok s → s ≠ py "True" → s ≠ py "False" →
     read_entry key dat = Raise ValueError) ∧
  (∀ key dat d0 ids,
     read_entry key dat = Ok (d0, ids) →
     ∃ v, attrs dat !! py "is_setpoint" = Some v ∧
          decode_method v
          = Ok (py (if is_setpoint d0 then "True" else "False"))).
Proof.
  split_and!; [done|done| | | | |].
  - intros s H1 H2. unfold str_to_bool.
    by rewrite !bool_decide_eq_false_2.
  - by intros [].
  - apply created_flag_attr.
  - apply read_entry_bad_token.
  - intros key dat d0 ids H.
    apply read_entry_Ok in H as (_ & _ & _ & _ & _ & _ & _ & Hflag & _).
    destruct Hflag as (v & s & Hv & Hs & Hb). exists v. split; [done|].
    by rewrite Hs, (str_to_bool_Ok _ _ Hb).
Qed.

Lemma str_to_bool_strict_witness :
  str_to_bool (py "yes") = Raise ValueError ∧
  (∃ m' d,
     members_of (_create_dataarray_dset 0 ohm_container ohm_ready).2
       ohm_container = Some m' ∧
     m' !! py "r" = Some d ∧
     attrs d !! py "is_setpoint" = Some (VBytes (py "True"))) ∧
  read_entry (py "x") corrupted_x = Raise ValueError ∧
  (∃ v, attrs entry_y !! py "is_setpoint" = Some v ∧
        decode_method v = Ok (py "False")).
Proof.
  destruct str_to_bool_strict as (_ & _ & Hstrict & _ & Hw & Hbad & Hok).
  split_and!.
  - apply Hstrict; vm_compute; discriminate.
  - edestruct (Hw 0 ohm_container ohm_ready) as (m' & d & Hm' & Hd & Hattr);
      [vm_compute; reflexivity|reflexivity..|].
    exists m', d. split_and!; [exact Hm'|exact Hd|exact Hattr].
  - eapply Hbad;
      [decodable|vm_compute; reflexivity|vm_compute; reflexivity|
       vm_compute; discriminate|vm_compute; discriminate].
  - edestruct (Hok (py "y") entry_y) as (v & Hv & Hs);
      [vm_compute; reflexivity|].
    exists v. split; [exact Hv|exact Hs].
Defined.

(** C7, as the claim has it, fails: handed an integer or [None], the helper
    iterates over it and raises TypeError; it does not return the encoding
    of the stringified value. *)
Lemma encode_to_utf8_other_raises :
  _encode_to_utf8 (VInt 5) = Raise TypeError ∧
  _encode_to_utf8 VNone = Raise TypeError ∧
  _encode_to_utf8 (VInt 5) ≠ encode_method (VStr (py_str (VInt 5))).
Proof. done. Qed.

(** C7, as the source has it. The helper encodes a text and, element by
    element, a sequence of texts; it does not stringify anything: the
    formatter applies [str] before it calls the helper, and for [None], a
    boolean or an integer that composition is the encoding of the
    stringified form and does not raise. Decoding gives the text back. *)
Theorem encode_to_utf8_texts :
  (∀ s, _encode_to_utf8 (VStr s)
        = match Utf8.encode s with
          | Some b => Ok (VBytes b)
          | None => Raise UnicodeEncodeError
          end) ∧
  (∀ (l : list pystr) (bs : list pybytes), mapM Utf8.encode l = Some bs →
           _encode_to_utf8 (VList (VStr <$> l)) = Ok (VList (VBytes <$> bs))) ∧
  (∀ v, match v with VNone | VBool _ | VInt _ => True | _ => False end →
        ∃ b, Utf8.encode (py_str v) = Some b ∧
             _encode_to_utf8 (VStr (py_str v)) = Ok (VBytes b)) ∧
  (∀ s b, _encode_to_utf8 (VStr s) = Ok (VBytes b) →
          decode_method (VBytes b) = Ok s).
Proof.
  split_and!.
  - done.
  - intros l bs H. unfold _encode_to_utf8. cbn.
    by rewrite (mapM_encode_texts _ _ H).
  - intros v Hv.
    assert (∃ s, py_str v = py s) as [s Hs].
    { destruct v as [|[]| | | | |]; try done; by eexists. }
    rewrite Hs. destruct (utf8_encode_latin1 _ (py_range s)) as [b Hb].
    exists b. split; [done|]. unfold _encode_to_utf8. cbn. by rewrite Hb.
  - intros s b. unfold _encode_to_utf8. cbn.
    destruct (Utf8.encode s) as [b'|] eqn:E; [|done]. intros [= <-].
    by rewrite (utf8_decode_encode _ _ E).
Qed.

Lemma encode_to_utf8_texts_witness :
  _encode_to_utf8 (VList (VStr <$> [py "x"; py "y"]))
  = Ok (VList (VBytes <$> [py "x"; py "y"])) ∧
  (∃ b, Utf8.encode (py_str (VInt 5)) = Some b ∧
        _encode_to_utf8 (VStr (py_str (VInt 5))) = Ok (VBytes b)) ∧
  decode_method (VBytes (py "x")) = Ok (py "x").
Proof.
  split_and!.
  - by apply encode_to_utf8_texts.
  - by apply encode_to_utf8_texts.
  - by apply (proj2 (proj2 (proj2 encode_to_utf8_texts))).
Defined.



(** C9. The body names [data_object], which is neither a local nor a name
    of the module: every call raises NameError and writes nothing, whatever
    the snapshot. *)
Theorem save_instrument_snapshot_raises snapshot st :
  save_instrument_snapshot module_globals snapshot st = (Raise NameError, st).
Proof. reflexivity. Qed.



(** * Further properties *)

(** What the methods leave alone, the exact outcome of the body of the
    loop of [write], the first write as a whole, and a first write followed
    by a read. *)

(** ** What a write and a read leave alone *)

Lemma with_placeholder_units_twice a :
  with_placeholder_units (with_placeholder_units a) = with_placeholder_units a.
Proof. unfold with_placeholder_units. by destruct a as [? ? ? []]. Qed.

#[global] Instance write_frame_preorder p : PreOrder (write_frame p).
Proof.
  split.
  - intros st. split_and!; try done. { by left. } intros q f ?. by exists f.
  - intros s1 s2 s3 (L12 & H12 & N12 & F12 & D12 & S12)
                    (L23 & H23 & N23 & F23 & D23 & S23).
    split_and!.
    + congruence.
    + intros i a Ha. destruct (H12 _ _ Ha) as [H|H];
        destruct (H23 _ _ H) as [H'|H']; rewrite ?with_placeholder_units_twice in H';
        auto.
    + intros q Hq Hn. auto.
    + intros q f Hf. destruct (F12 _ _ Hf) as (f2 & Hf2 & M2).
      destruct (F23 _ _ Hf2) as (f3 & Hf3 & M3). exists f3. split; congruence.
    + set_solver.
    + congruence.
Qed.

#[global] Instance read_frame_preorder p : PreOrder (read_frame p).
Proof.
  split.
  - intros st. split_and!; auto.
  - intros s1 s2 s3 (F12 & D12 & P12 & G12 & S12 & L12 & O12)
                    (F23 & D23 & P23 & G23 & S23 & L23 & O23).
    split_and!; try congruence; [lia|].
    destruct O23 as [O23|O23]; [|by right]. rewrite O23. exact O12.
Qed.

Section preserved_at.
Context (R : relation state) `{!PreOrder R}.

(** The rule of [preserved_bind] for a first step that is examined in the
    state at hand. *)
Lemma preserved_bind_at {A B} (m : M A) (f : A → M B) st :
  (∀ r st1, m st = (r, st1) → R st st1) →
  (∀ a st1, m st = (Ok a, st1) → ∀ r st', f a st1 = (r, st') → R st1 st') →
  ∀ r st', (m ≫= f) st = (r, st') → R st st'.
Proof.
  intros Hm Hf r st'. rewrite run_bind.
  destruct (m st) as [[a|e] st1] eqn:E.
  - intros H. etrans; [by eapply Hm|by eapply Hf].
  - intros [= _ <-]. by eapply Hm.
Qed.
End preserved_at.

Lemma write_frame_self p s st : 
  station s = station (st_self st) → write_frame p st (set_self s st).
Proof.
  intros Hs. split_and!; try done. { by left. } intros q f ?. by exists f.
Qed.

Lemma write_frame_with_members p g m st : write_frame p st (with_members g m st).
Proof.
  unfold with_members. destruct (st_files st !! g) as [f|] eqn:E; [|reflexivity].
  split_and!; try done.
  - by left.
  - intros q Hq Hn. cbn. destruct (decide (q = g)) as [->|]; [congruence|].
    by rewrite lookup_insert_ne.
  - intros q f0 Hf. cbn. destruct (decide (q = g)) as [->|].
    + rewrite lookup_insert_eq. eexists. split; [done|]. cbn. congruence.
    + rewrite lookup_insert_ne by done. by exists f0.
Qed.

Lemma put_members_frame p g m : preserved (write_frame p) (put_members g m).
Proof.
  intros st r st'. unfold put_members, get_file. rewrite !run_bind. unfold gets.
  destruct (st_files st !! g) as [f|] eqn:E; cbn [from_option];
    [rewrite run_ret|intros [= _ <-]; reflexivity].
  unfold put_file, modify. intros [= _ <-].
  pose proof (write_frame_with_members p g m st) as H.
  unfold with_members in H. by rewrite E in H.
Qed.

Lemma get_file_frame p h : preserved (write_frame p) (get_file h).
Proof. pbind; [pleaf|]. intros fs. pleaf. Qed.

Lemma group_members_frame p g : preserved (write_frame p) (group_members g).
Proof. pbind; [apply get_file_frame|]. intros f. pleaf. Qed.

Lemma group_getitem_frame p g key :
  preserved (write_frame p) (group_getitem g key).
Proof. pbind; [apply group_members_frame|]. intros m. pleaf. Qed.

Lemma put_dset_frame p g key d : preserved (write_frame p) (put_dset g key d).
Proof. pbind; [apply group_members_frame|]. intros m. apply put_members_frame. Qed.

Lemma attrs_setitem_frame p g key a v :
  preserved (write_frame p) (attrs_setitem g key a v).
Proof. pbind; [apply group_getitem_frame|]. intros d. apply put_dset_frame. Qed.

Lemma create_dataset_frame p g key shp mx :
  preserved (write_frame p) (create_dataset g key shp mx).
Proof.
  pbind; [apply group_members_frame|]. intros m.
  destruct (m !! key); [pleaf|apply put_members_frame].
Qed.

Lemma dset_resize_frame p g key shp :
  preserved (write_frame p) (dset_resize g key shp).
Proof.
  pbind; [apply group_getitem_frame|]. intros d.
  pbind; [pleaf|]. intros d'. apply put_dset_frame.
Qed.

Lemma dset_setitem_frame p g key a b v :
  preserved (write_frame p) (dset_setitem g key a b v).
Proof.
  pbind; [apply group_getitem_frame|]. intros d.
  pbind; [pleaf|]. intros d'. apply put_dset_frame.
Qed.

Lemma deref_frame p a : preserved (write_frame p) (deref a).
Proof. pbind; [pleaf|]. intros h. pleaf. Qed.

Lemma load_arr_group_frame p : preserved (write_frame p) load_arr_group.
Proof. pbind; [pleaf|]. intros h. pleaf. Qed.

Lemma write_frame_placeholder p array a st :
  st_heap st !! array = Some a →
  write_frame p st
    (set_heap (<[array := with_placeholder_units a]> (st_heap st)) st).
Proof.
  intros Ha. split_and!; try done.
  - cbn. by rewrite length_insert.
  - intros i b Hb. cbn. destruct (decide (i = array)) as [->|].
    + right. rewrite list_lookup_insert_eq by (by eapply lookup_lt_Some).
      congruence.
    + left. by rewrite list_lookup_insert_ne.
  - intros q f ?. by exists f.
Qed.

Lemma create_dataarray_dset_frame p array group :
  preserved (write_frame p) (_create_dataarray_dset array group).
Proof.
  intros st. unfold _create_dataarray_dset.
  apply preserved_bind_at; [exact _|apply deref_frame|].
  intros a st1 Hd. apply deref_Ok_inv in Hd as [-> Ha].
  apply preserved_bind_at; [exact _| |].
  { intros r st1 Hrun.
    assert (st1 = set_heap (<[array := with_placeholder_units a]>
                              (st_heap st)) st
            ∨ st1 = st) as [->| ->].
    { unfold with_placeholder_units. destruct (units a);
        injection Hrun as _ <-; auto. }
    - by apply write_frame_placeholder.
    - reflexivity. }
  intros _ st1 _. revert st1.
  apply (preserved_bind (write_frame p)); [apply deref_frame|]. intros a'.
  pbind; [pleaf|]. intros n.
  pbind; [apply create_dataset_frame|]. intros _.
  do 4 (pbind; [pleaf|]; intros ?;
        pbind; [apply attrs_setitem_frame|]; intros _).
  destruct (negb _); [|pleaf].
  pbind; [|intros ?; apply attrs_setitem_frame].
  apply preserved_fold_each; [exact _|]. intros acc i.
  pbind; [pleaf|]. intros r.
  pbind; [apply deref_frame|]. intros sa.
  pbind; [pleaf|]. intros v. pleaf.
Qed.

Lemma append_new_values_frame p ds key :
  preserved (write_frame p) (append_new_values ds key).
Proof.
  unfold append_new_values.
  pbind; [apply load_arr_group_frame|]. intros grp.
  pbind; [apply group_getitem_frame|]. intros d.
  pbind; [pleaf|]. intros xa.
  pbind; [apply deref_frame|]. intros x.
  pbind; [apply dset_resize_frame|]. intros _.
  pbind; [pleaf|]. intros ya.
  pbind; [apply deref_frame|]. intros y.
  pbind; [pleaf|]. intros s.
  pbind; [pleaf|]. intros v.
  apply dset_setitem_frame.
Qed.

Lemma write_array_frame p ds force key :
  preserved (write_frame p) (write_array ds force key).
Proof.
  unfold write_array.
  pbind; [apply load_arr_group_frame|]. intros grp.
  pbind. { pbind; [apply group_members_frame|]. intros m. pleaf. }
  intros keys. pbind.
  { destruct (_ || _); [|pleaf].
    pbind; [pleaf|]. intros a.
    pbind; [apply load_arr_group_frame|]. intros g.
    apply create_dataarray_dset_frame. }
  intros _. apply append_new_values_frame.
Qed.

Lemma write_frame_new_file p f st :
  st_files st !! p = None →
  write_frame p st (set_files (<[p := f]> (st_files st)) st).
Proof.
  intros Hp. split_and!; try done.
  - by left.
  - intros q Hq Hn. cbn. by rewrite lookup_insert_ne.
  - intros q f0 Hf. cbn. exists f0. split; [|done].
    rewrite lookup_insert_ne; [done|congruence].
Qed.

Lemma create_file_frame p : preserved (write_frame p) (_create_file p).
Proof.
  unfold _create_file. destruct (os_path_split p) as [folder fn].
  pbind; [pleaf|]. intros isdir.
  pbind.
  { destruct (negb isdir); [|pleaf].
    apply preserved_modify. intros st. split_and!; try done.
    - by left.
    - intros q f ?. by exists f.
    - cbn. set_solver. }
  intros _. pbind; [|intros f; pleaf].
  intros st r st'. unfold h5py_File_a. rewrite run_bind. unfold gets.
  destruct (st_files st !! p) as [f|] eqn:E.
  - intros [= _ <-]. reflexivity.
  - rewrite run_bind. unfold modify. intros [= _ <-].
    by apply write_frame_new_file.
Qed.

Lemma create_arrays_group_frame p h :
  preserved (write_frame p) (create_arrays_group h).
Proof.
  intros st r st'. unfold create_arrays_group, get_file.
  rewrite !run_bind. unfold gets.
  destruct (st_files st !! h) as [f|] eqn:E; cbn [from_option];
    [rewrite run_ret|intros [= _ <-]; reflexivity].
  destruct (data_arrays f) eqn:Ef; [intros [= _ <-]; reflexivity|].
  rewrite run_bind. unfold put_file, modify. intros [= _ <-].
  pose proof (write_frame_with_members p h ∅ st) as H.
  unfold with_members in H. by rewrite E in H.
Qed.

Lemma write_frame_kept ds force :
  preserved (write_frame (container_path ds)) (write ds force).
Proof.
  unfold write. pbind; [pleaf|]. intros obj.
  pbind.
  { destruct (_ || _); [|pleaf].
    pbind. { apply preserved_modify. intros st. by apply write_frame_self. }
    intros _. pbind; [apply create_file_frame|]. intros f.
    apply preserved_modify. intros st. by apply write_frame_self. }
  intros _. pbind; [pbind; [pleaf|intros ?; pleaf]|]. intros f.
  pbind. { pbind; [apply get_file_frame|]. intros ?. pleaf. }
  intros keys. pbind.
  { destruct (bool_decide _); [|pleaf].
    pbind; [apply create_arrays_group_frame|]. intros g.
    apply preserved_modify. intros st. by apply write_frame_self. }
  intros _. apply preserved_for_each; [exact _|]. intros key.
  apply write_array_frame.
Qed.

Lemma read_frame_heap p h st :
  length (st_heap st) ≤ length h → read_frame p st (set_heap h st).
Proof. intros. split_and!; auto. Qed.

Lemma deref_read_frame p a : preserved (read_frame p) (deref a).
Proof. pbind; [pleaf|]. intros h. pleaf. Qed.

Lemma heap_store_read_frame p a d : preserved (read_frame p) (heap_store a d).
Proof.
  apply preserved_modify. intros st. apply read_frame_heap.
  by rewrite length_insert.
Qed.

Lemma file_arrays_group_read_frame p f :
  preserved (read_frame p) (file_arrays_group f).
Proof.
  pbind; [|intros ?; pleaf]. pbind; [pleaf|]. intros fs. pleaf.
Qed.

Lemma read_array_read_frame p f ds k :
  preserved (read_frame p) (read_array f ds k).
Proof.
  unfold read_array.
  pbind; [apply file_arrays_group_read_frame|]. intros grp.
  pbind; [pleaf|]. intros dat.
  pbind; [pleaf|]. intros [d_array ids].
  pbind.
  { unfold alloc. intros st r st'. rewrite !run_bind. unfold gets, modify.
    intros [= _ <-]. apply read_frame_heap. rewrite length_app. lia. }
  intros d. pbind; [pleaf|]. intros a.
  pbind; [apply deref_read_frame|]. intros o.
  pbind; [apply heap_store_read_frame|]. intros _. pleaf.
Qed.

Lemma resolve_array_read_frame p ds item :
  preserved (read_frame p) (resolve_array ds item).
Proof.
  destruct item as [k a]. unfold resolve_array.
  pbind; [apply deref_read_frame|]. intros d.
  pbind; [pleaf|]. intros ids.
  apply preserved_for_each; [exact _|]. intros id. unfold append_set_array.
  pbind; [pleaf|]. intros r.
  pbind; [apply deref_read_frame|]. intros o. apply heap_store_read_frame.
Qed.

Lemma read_run_missing ds st :
  st_files st !! location ds = None → read ds st = (Raise OSError, st).
Proof.
  intros H. unfold read, h5py_File_rw. rewrite !run_bind. unfold gets.
  by rewrite H.
Qed.

Lemma read_run_no_group ds st f :
  st_files st !! location ds = Some f → data_arrays f = None →
  read ds st = (Raise KeyError, set_self (reading ds (st_self st)) st).
Proof.
  intros H Hf. unfold read, h5py_File_rw. rewrite !run_bind. unfold gets.
  rewrite H, run_ret. unfold store_data_object, modify.
  unfold read_arrays, file_arrays_group, get_file. rewrite !run_bind.
  unfold gets. cbn [st_files set_self]. rewrite H. cbn [from_option].
  rewrite run_ret, Hf. reflexivity.
Qed.

Lemma read_frame_reading ds st :
  read_frame (location ds) st (set_self (reading ds (st_self st)) st).
Proof. split_and!; auto. Qed.

Lemma read_loops ds st grp r st' :
  members_of st (location ds) = Some grp →
  read ds st = (r, st') →
  read_frame (location ds) (set_self (reading ds (st_self st)) st) st'.
Proof.
  intros Hg. rewrite (read_unfold _ _ _ Hg).
  destruct (fold_each _ _ _ _) as [[ds1|e] st1] eqn:E1.
  - apply (preserved_fold_each (read_frame (location ds))) in E1;
      [|intros; apply read_array_read_frame].
    destruct (for_each _ _ _) as [[u|e] st2] eqn:E2;
      (apply (preserved_for_each (read_frame (location ds))) in E2;
       [|intros; apply resolve_array_read_frame]);
      intros [= _ <-]; by trans st1.
  - apply (preserved_fold_each (read_frame (location ds))) in E1;
      [|intros; apply read_array_read_frame].
    by intros [= _ <-].
Qed.

Lemma read_frame_kept ds : preserved (read_frame (location ds)) (read ds).
Proof.
  intros st r st' Hrun.
  destruct (st_files st !! location ds) as [f|] eqn:E.
  - destruct (data_arrays f) as [grp|] eqn:Ef.
    + trans (set_self (reading ds (st_self st)) st);
        [apply read_frame_reading|].
      eapply read_loops; [|done]. unfold members_of. by rewrite E.
    + rewrite (read_run_no_group _ _ _ E Ef) in Hrun. injection Hrun as _ <-.
      apply read_frame_reading.
  - rewrite (read_run_missing _ _ E) in Hrun. injection Hrun as _ <-.
    reflexivity.
Qed.

Lemma read_Ok_members ds st ds' st' :
  read ds st = (Ok ds', st') → is_Some (members_of st (location ds)).
Proof.
  intros H. unfold members_of.
  destruct (st_files st !! location ds) as [f|] eqn:E.
  - cbn. destruct (data_arrays f) eqn:Ef; [done|].
    rewrite (read_run_no_group _ _ _ E Ef) in H. discriminate H.
  - rewrite (read_run_missing _ _ E) in H. discriminate H.
Qed.

Lemma read_Ok_data_object ds st ds' st' :
  read ds st = (Ok ds', st') → data_object (st_self st') = Some (location ds).
Proof.
  intros H. destruct (read_Ok_members _ _ _ _ H) as [grp Hg].
  apply (read_loops _ _ _ _ _ Hg) in H as (_ & _ & _ & _ & _ & _ & [H|H]);
    [|done].
  by rewrite H.
Qed.

(** ** Opening the container *)

Lemma create_file_run p st :
  _create_file p st
  = (Ok p,
     {| st_heap := st_heap st;
        st_dirs := if bool_decide ((os_path_split p).1 ∈ st_dirs st)
                   then st_dirs st else {[(os_path_split p).1]} ∪ st_dirs st;
        st_files := match st_files st !! p with
                    | Some _ => st_files st
                    | None => <[p := empty_h5file]> (st_files st)
                    end;
        st_self := st_self st |}).
Proof.
  unfold _create_file. destruct (os_path_split p) as [folder fn]. cbn [fst].
  rewrite run_bind. unfold os_path_isdir, gets.
  destruct (bool_decide (folder ∈ st_dirs st)); cbn [negb];
    rewrite run_bind; [rewrite run_ret|unfold os_makedirs, modify];
    rewrite run_bind; unfold h5py_File_a; rewrite run_bind; unfold gets;
    cbn [st_files set_dirs]; destruct (st_files st !! p);
    rewrite ?run_bind; unfold modify; rewrite !run_ret; by destruct st.
Qed.

Ltac run_monad :=
  cbv beta iota zeta delta
    [mbind M_bind mret M_ret gets modify raise lift from_option
     store_filepath store_data_object store_arr_group load_data_object
     load_arr_group file_keys get_file put_file create_arrays_group
     _create_file os_path_isdir os_makedirs h5py_File_a h5py_File_rw
     set_self set_files set_dirs set_heap st_self st_files st_heap st_dirs
     data_object filepath arr_group station holding].

Lemma write_opens ds force st :
  data_object (st_self st) = None ∨ force = true →
  write ds force st
  = for_each (dict_keys (arrays ds)) (write_array ds force) (opened ds st).
Proof.
  intros Hc. unfold write, opened. fold (container_path ds).
  set (p := container_path ds).
  assert (bool_decide (data_object (st_self st) = None) || force = true) as Hb.
  { destruct Hc as [->| ->]; [done|]. by rewrite orb_true_r. }
  clear Hc. destruct st as [heap dirs files [dobj fp grp stn]].
  cbn [st_self data_object] in Hb.
  run_monad. rewrite Hb.
  destruct (os_path_split p) as [folder fn]. run_monad. cbn [fst].
  destruct (bool_decide (folder ∈ dirs)); cbn [negb]; run_monad;
    (destruct (files !! p) as [f|] eqn:E; run_monad;
     cbv beta iota delta [option.from_option id];
     [rewrite ?E; run_monad; destruct (data_arrays f) as [m|] eqn:Em;
      [rewrite bool_decide_eq_false_2
         by (intros H; apply H, list_elem_of_here);
       run_monad; reflexivity
      |rewrite bool_decide_eq_true_2
         by (destruct (meta_data f); cbn;
             [apply not_elem_of_cons; split; [discriminate|]|];
             apply not_elem_of_nil);
       run_monad; rewrite E; run_monad; rewrite Em; run_monad; reflexivity]
     |rewrite !lookup_insert_eq; run_monad;
      cbv beta iota delta [empty_h5file data_arrays meta_data app];
      rewrite bool_decide_eq_true_2 by apply not_elem_of_nil; run_monad;
      rewrite !lookup_insert_eq; run_monad;
      cbv beta iota delta [empty_h5file data_arrays meta_data app];
      rewrite insert_insert_eq; reflexivity]).
Qed.

Lemma members_of_opened ds st :
  members_of (opened ds st) (container_path ds)
  = Some (default ∅ (members_of st (container_path ds))).
Proof.
  unfold members_of, opened. cbn [st_files].
  destruct (st_files st !! container_path ds) as [f|] eqn:E; cbn [default].
  - cbn. destruct (data_arrays f) eqn:Ef.
    + rewrite E. cbn. by rewrite Ef.
    + by rewrite lookup_insert_eq.
  - by rewrite lookup_insert_eq.
Qed.

Lemma opened_self ds st :
  st_self (opened ds st)
  = holding (container_path ds)
      (match members_of st (container_path ds) with
       | Some _ => arr_group (st_self st)
       | None => Some (container_path ds)
       end) (st_self st).
Proof.
  unfold opened, members_of. cbn [st_self].
  by destruct (st_files st !! container_path ds).
Qed.

Lemma opened_twice ds st : opened ds (opened ds st) = opened ds st.
Proof.
  pose proof (members_of_opened ds st) as Hm. unfold members_of in Hm.
  unfold opened at 1.
  destruct (st_files (opened ds st) !! container_path ds) as [f|] eqn:E;
    [|discriminate Hm].
  change (data_arrays f
          = Some (default ∅ (st_files st !! container_path ds
                             ≫= data_arrays))) in Hm.
  change (default empty_h5file (Some f)) with f. rewrite Hm.
  unfold opened. cbn [st_heap st_dirs st_files st_self station].
  f_equal.
  destruct (bool_decide (_ ∈ st_dirs st)) eqn:Hd; [by rewrite Hd|].
  rewrite bool_decide_eq_true_2 by set_solver. reflexivity.
Qed.

Lemma io_join_id_path ds :
  (∀ s, io_join ds s = s) → container_path ds ≠ location ds.
Proof.
  intros Hj. unfold container_path. rewrite Hj. intros H.
  apply (f_equal length) in H. rewrite !length_app in H. cbn in H. lia.
Qed.

Lemma write_array_no_group ds force key st :
  arr_group (st_self st) = None →
  write_array ds force key st = (Raise AttributeError, st).
Proof.
  intros H. unfold write_array. rewrite run_bind, load_arr_group_run.
  by rewrite H.
Qed.

Lemma write_loop_no_group ds force st :
  arr_group (st_self st) = None → arrays ds ≠ [] →
  for_each (dict_keys (arrays ds)) (write_array ds force) st
  = (Raise AttributeError, st).
Proof.
  intros H Ha. destruct (arrays ds) as [|[k a] l]; [done|].
  cbn [dict_keys fmap list_fmap fst for_each].
  by rewrite run_bind, write_array_no_group.
Qed.

Lemma st_files_opened ds st m :
  members_of st (container_path ds) = Some m →
  st_files (opened ds st) = st_files st.
Proof.
  unfold members_of, opened. cbn [st_files].
  destruct (st_files st !! container_path ds) as [f|]; [|done].
  cbn. by intros ->.
Qed.

(** ** The outcome of the body of the loop on a table that exists *)

Lemma populated_length_le x : populated_length x ≤ length (nd_data x).
Proof. rewrite populated_length_count. apply List.filter_length_le. Qed.

Lemma nd_slice_vector x a b :
  nd_shape x = [length (nd_data x)] → b ≤ length (nd_data x) →
  nd_slice x a b
  = Ok {| nd_shape := [b - a `min` length (nd_data x)];
          nd_data := take (b - a `min` length (nd_data x))
                       (drop (a `min` length (nd_data x)) (nd_data x)) |}.
Proof.
  intros Hs Hb. unfold nd_slice. rewrite Hs. cbn [nd_size foldr].
  rewrite !Nat.mul_1_r. by rewrite (Nat.min_l b) by lia.
Qed.

Lemma broadcast_rows_column v n :
  length (nd_data v) = n →
  broadcast_rows v n 1 n 1 = nd_data v.
Proof.
  intros Hn. unfold broadcast_rows.
  apply (nth_ext _ _ fillvalue fillvalue).
  { by rewrite length_table, Nat.mul_1_r. }
  intros i. rewrite length_table, Nat.mul_1_r. intros Hi.
  replace i with (i * 1 + 0) at 1 by lia.
  rewrite (nth_table
             (λ i j, nth ((if bool_decide (n = 1) then 0 else i) * 1
                          + (if bool_decide (1 = 1) then 0 else j))
                         (nd_data v) fillvalue) 1 fillvalue n 0 i 0)
    by lia.
  cbn [Nat.add]. f_equal. rewrite (bool_decide_eq_true_2 (1 = 1)) by done.
  case_bool_decide; lia.
Qed.

Lemma append_rows_first x d1 new :
  nd_shape x = [length (nd_data x)] → new ≤ length (nd_data x) →
  shape d1 = (new, 1) → length (value d1) = new →
  append_rows x d1 0 new
  = Ok {| shape := (new, 1); maxshape := maxshape d1;
          value := take new (nd_data x); attrs := attrs d1 |}.
Proof.
  intros Hs Hn Hd Hv. unfold append_rows.
  rewrite (nd_slice_vector _ _ _ Hs Hn). cbn [mbind result_bind].
  rewrite Nat.min_0_l, Nat.sub_0_r, drop_0.
  unfold nd_reshape. cbn [nd_data]. rewrite nd_size_pair, Hd. cbn [snd].
  rewrite bool_decide_eq_true_2 by (rewrite length_take; lia).
  unfold assign_rows. rewrite Hd. cbn [nd_shape nd_data].
  rewrite Nat.min_0_l, Nat.min_id, Nat.sub_0_r, Nat.mul_1_r.
  cbn [mbind result_bind nd_shape].
  case_bool_decide as H0.
  - subst new. destruct d1 as [sh mx v at_]. cbn in *. subst sh.
    by destruct v.
  - rewrite (bool_decide_eq_true_2 (new = new)) by done.
    rewrite (bool_decide_eq_true_2 (1 = 1)) by done.
    rewrite orb_true_r. cbn [andb].
    rewrite drop_ge by lia. cbn [Nat.mul take app]. rewrite app_nil_r.
    rewrite broadcast_rows_column by (cbn; rewrite length_take; lia).
    reflexivity.
Qed.

Lemma append_rows_none x d1 old c :
  nd_shape x = [length (nd_data x)] → shape d1 = (0, c) →
  append_rows x d1 old 0 = Ok d1.
Proof.
  intros Hs Hd. unfold append_rows.
  rewrite (nd_slice_vector _ _ _ Hs) by lia. cbn [mbind result_bind].
  unfold nd_reshape. cbn [nd_data]. rewrite nd_size_pair, Hd. cbn [snd].
  rewrite bool_decide_eq_true_2 by done.
  unfold assign_rows. rewrite Hd. rewrite Nat.min_0_r. cbn [Nat.sub Nat.mul].
  cbn [mbind result_bind]. by rewrite bool_decide_eq_true_2.
Qed.

Lemma append_rows_mismatch x d1 old new c :
  nd_shape x = [length (nd_data x)] → new ≤ length (nd_data x) →
  shape d1 = (new, c) → 1 ≤ new → 1 ≤ c → ¬ (old = 0 ∧ c = 1) →
  append_rows x d1 old new = Raise ValueError.
Proof.
  intros Hs Hn Hd Hnew Hc Hno. unfold append_rows.
  rewrite (nd_slice_vector _ _ _ Hs Hn). cbn [mbind result_bind].
  unfold nd_reshape. cbn [nd_data]. rewrite nd_size_pair, Hd. cbn [snd].
  rewrite bool_decide_eq_false_2; [done|].
  rewrite length_take, length_drop. nia.
Qed.

(** ** Creating the storage of an array, forwards *)

Lemma create_dataarray_dset_unfold array g st a :
  st_heap st !! array = Some a →
  let a' := with_placeholder_units a in
  _create_dataarray_dset array g st
  = (n ← lift (py_len (units a'));
     create_dataset g (array_id a) (0, n) (None, Some n);;
     v ← lift (_encode_to_utf8 (VStr (default (array_id a) (label a))));
     attrs_setitem g (array_id a) (py "label") v;;
     v ← lift (_encode_to_utf8 (VStr (default (array_id a) (name a))));
     attrs_setitem g (array_id a) (py "name") v;;
     v ← lift (_encode_to_utf8 (VStr (py_str (units a'))));
     attrs_setitem g (array_id a) (py "units") v;;
     v ← lift (_encode_to_utf8 (VStr (py_str (VBool (is_setpoint a)))));
     attrs_setitem g (array_id a) (py "is_setpoint") v;;
     if negb (is_setpoint a) then
       set_arrays ← fold_each (seq 0 (length (set_arrays a))) []
         (λ acc i,
            r ← from_option IndexError (set_arrays a !! i);
            sa ← deref r;
            v ← lift (_encode_to_utf8 (VStr (py_str (VStr (array_id sa)))));
            mret (acc ++ [v]));
       attrs_setitem g (array_id a) (py "set_arrays") (VList set_arrays)
     else mret tt)
      (set_heap (<[array := a']> (st_heap st)) st).
Proof.
  intros Ha a'. unfold _create_dataarray_dset.
  rewrite run_bind, deref_run, Ha. rewrite run_bind.
  assert (match units a with
          | VNone => heap_store array (set_units (VList [VStr []]) a)
          | _ => mret tt
          end st = (Ok tt, set_heap (<[array := a']> (st_heap st)) st)) as ->.
  { subst a'. unfold with_placeholder_units.
    destruct (units a); try reflexivity;
      rewrite run_ret, list_insert_id, set_heap_id by done; reflexivity. }
  rewrite run_bind, deref_run. cbn [st_heap set_heap].
  rewrite list_lookup_insert_eq by (by eapply lookup_lt_Some).
  assert (array_id a' = array_id a ∧ label a' = label a ∧ name a' = name a
          ∧ is_setpoint a' = is_setpoint a ∧ set_arrays a' = set_arrays a)
    as (-> & _ & _ & -> & ->).
  { subst a'. unfold with_placeholder_units. by destruct (units a). }
  by destruct (label a), (name a).
Qed.

Lemma create_dataarray_dset_exists array g st a m d :
  st_heap st !! array = Some a →
  members_of st g = Some m →
  m !! array_id a = Some d →
  ∃ e, _create_dataarray_dset array g st
       = (Raise e,
          set_heap (<[array := with_placeholder_units a]> (st_heap st)) st).
Proof.
  intros Ha Hm Hd. rewrite (create_dataarray_dset_unfold _ _ _ _ Ha).
  rewrite run_bind. unfold lift at 1.
  destruct (py_len _) as [n|e]; [|by exists e].
  exists RuntimeError. rewrite run_bind. unfold create_dataset.
  rewrite run_bind, (group_members_run _ _ m) by done. by rewrite Hd.
Qed.

Lemma encoded_run s v : encoded s = Some v → _encode_to_utf8 (VStr s) = Ok v.
Proof.
  unfold encoded. rewrite encode_to_utf8_str. cbn [encode_method].
  destruct (Utf8.encode s); [|done]. by intros [= <-].
Qed.

Lemma attrs_setitem_step g key a v st m d :
  members_of st g = Some m →
  attrs_setitem g key a v (with_members g (<[key := d]> m) st)
  = (Ok tt, with_members g (<[key := set_attr a v d]> m) st).
Proof.
  intros Hm. unfold attrs_setitem.
  pose proof (members_of_with_members g m (<[key := d]> m) st Hm) as Hm'.
  rewrite run_bind, (group_getitem_run _ _ _ _ Hm'), lookup_insert_eq.
  rewrite (put_dset_run _ _ _ _ _ Hm'), insert_insert_eq.
  by rewrite (with_members_twice _ m).
Qed.

Lemma collect_set_arrays_run (refs : list nat) st :
  ∀ k i acc ids,
    i + k = length refs →
    mapM (λ r, st_heap st !! r ≫= λ sa, encoded (array_id sa)) (drop i refs)
    = Some ids →
    fold_each (seq i k) acc
      (λ acc i,
         r ← from_option IndexError (refs !! i);
         sa ← deref r;
         v ← lift (_encode_to_utf8 (VStr (py_str (VStr (array_id sa)))));
         mret (acc ++ [v])) st = (Ok (acc ++ ids), st).
Proof.
  induction k as [|k IH]; intros i acc ids Hik Hids.
  - rewrite drop_ge in Hids by lia. injection Hids as <-.
    cbn [seq fold_each]. by rewrite run_ret, app_nil_r.
  - destruct (lookup_lt_is_Some_2 refs i) as [r Hr]; [lia|].
    rewrite (drop_S _ _ _ Hr) in Hids. cbn [mapM] in Hids.
    apply bind_Some in Hids as (v & Hv & Hids).
    apply bind_Some in Hids as (vs & Hvs & [= <-]).
    apply bind_Some in Hv as (sa & Hsa & Hv).
    cbn [seq fold_each]. rewrite run_bind, run_bind, Hr.
    cbn [from_option]. rewrite run_ret, run_bind, deref_run, Hsa.
    rewrite run_bind.
    rewrite (encoded_run _ _ Hv
               : _encode_to_utf8 (VStr (py_str (VStr (array_id sa)))) = Ok v).
    unfold lift at 1. rewrite run_ret.
    rewrite (IH (S i) (acc ++ [v]) vs) by (done || lia).
    by rewrite <- app_assoc.
Qed.

Lemma create_dataarray_dset_run array g st a m n A :
  st_heap st !! array = Some a →
  members_of st g = Some m →
  m !! array_id a = None →
  let a' := with_placeholder_units a in
  let heap' := <[array := a']> (st_heap st) in
  py_len (units a') = Ok n →
  stored_attrs heap' a' = Some A →
  _create_dataarray_dset array g st
  = (Ok tt,
     with_members g
       (<[array_id a := {| shape := (0, n); maxshape := (None, Some n);
                           value := []; attrs := A |}]> m)
       (set_heap heap' st)).
Proof.
  intros Ha Hm Hk a' heap' Hn HA.
  rewrite (create_dataarray_dset_unfold _ _ _ _ Ha). fold a' heap'.
  set (st1 := set_heap heap' st).
  assert (members_of st1 g = Some m) as Hm1 by done.
  assert (array_id a' = array_id a ∧ label a' = label a ∧ name a' = name a
          ∧ is_setpoint a' = is_setpoint a ∧ set_arrays a' = set_arrays a)
    as (Hid & Hlab & Hnam & Hsp & Hsa).
  { subst a'. unfold with_placeholder_units. by destruct (units a). }
  unfold stored_attrs in HA. rewrite Hid, Hlab, Hnam, Hsp, Hsa in HA.
  apply bind_Some in HA as (vl & Hvl & HA).
  apply bind_Some in HA as (vn & Hvn & HA).
  apply bind_Some in HA as (vu & Hvu & HA).
  rewrite run_bind, Hn. unfold lift at 1.
  rewrite run_bind. unfold create_dataset.
  rewrite run_bind, (group_members_run _ _ _ Hm1), Hk.
  rewrite (put_members_run _ _ _ _ Hm1). cbn [fst snd Nat.mul replicate].
  rewrite run_bind, (encoded_run _ _ Hvl). unfold lift at 1.
  rewrite run_bind, (attrs_setitem_step _ _ _ _ _ _ _ Hm1).
  rewrite run_bind, (encoded_run _ _ Hvn). unfold lift at 1.
  rewrite run_bind, (attrs_setitem_step _ _ _ _ _ _ _ Hm1).
  rewrite run_bind, (encoded_run _ _ Hvu). unfold lift at 1.
  rewrite run_bind, (attrs_setitem_step _ _ _ _ _ _ _ Hm1).
  rewrite run_bind.
  assert (_encode_to_utf8 (VStr (py_str (VBool (is_setpoint a))))
          = Ok (VBytes (py (if is_setpoint a then "True" else "False"))))
    as -> by (by destruct (is_setpoint a)).
  unfold lift at 1.
  rewrite run_bind, (attrs_setitem_step _ _ _ _ _ _ _ Hm1).
  destruct (is_setpoint a) eqn:Esp; cbn [negb].
  - injection HA as <-. by rewrite run_ret.
  - apply bind_Some in HA as (ids & Hids & [= <-]).
    rewrite run_bind.
    rewrite (collect_set_arrays_run _ _ _ 0 [] ids);
      [|lia|by rewrite drop_0, st_heap_with_members].
    cbn [app]. by rewrite (attrs_setitem_step _ _ _ _ _ _ _ Hm1).
Qed.

(** ** The first write *)

Lemma key_not_in_group (m : gmap pystr dset) key :
  m !! key = None → bool_decide (key ∉ (map_to_list m).*1) = true.
Proof.
  intros H. apply bool_decide_eq_true_2. rewrite stored_key, H.
  by intros [? ?].
Qed.

Lemma with_placeholder_units_fields a :
  array_id (with_placeholder_units a) = array_id a ∧
  name (with_placeholder_units a) = name a ∧
  label (with_placeholder_units a) = label a ∧
  is_setpoint (with_placeholder_units a) = is_setpoint a ∧
  set_arrays (with_placeholder_units a) = set_arrays a ∧
  ndarray (with_placeholder_units a) = ndarray a ∧
  _sa_array_ids (with_placeholder_units a) = _sa_array_ids a.
Proof. unfold with_placeholder_units. by destruct (units a). Qed.

Lemma stored_attrs_placeholders h0 h a :
  placeholders_only h0 h → stored_attrs h a = stored_attrs h0 a.
Proof.
  intros [HL HH]. unfold stored_attrs.
  assert (∀ r, (h !! r ≫= λ sa, encoded (array_id sa))
               = (h0 !! r ≫= λ sa, encoded (array_id sa))) as Hr.
  { intros r. destruct (h0 !! r) as [b|] eqn:E.
    - destruct (HH _ _ E) as [-> | ->]; [done|]. cbn.
      by rewrite (proj1 (with_placeholder_units_fields b)).
    - apply lookup_ge_None in E. rewrite (proj2 (lookup_ge_None h r)); [done|].
      lia. }
  assert (mapM (λ r, h !! r ≫= λ sa, encoded (array_id sa)) (set_arrays a)
          = mapM (λ r, h0 !! r ≫= λ sa, encoded (array_id sa)) (set_arrays a))
    as ->; [|done].
  induction (set_arrays a) as [|r l IH]; [done|]. cbn. by rewrite Hr, IH.
Qed.

Lemma placeholders_only_insert h0 h i a :
  placeholders_only h0 h → h0 !! i = Some a →
  placeholders_only h0 (<[i := with_placeholder_units a]> h).
Proof.
  intros [HL HH] Ha. split; [by rewrite length_insert|].
  intros j b Hb. destruct (decide (j = i)) as [->|].
  - right. rewrite list_lookup_insert_eq; [congruence|].
    rewrite HL. by eapply lookup_lt_Some.
  - rewrite list_lookup_insert_ne by done. auto.
Qed.

Lemma map_const_seq {A} (c : A) n s : map (λ _, c) (seq s n) = replicate n c.
Proof.
  revert s. induction n as [|n IH]; intros s; [done|]. cbn. by f_equal.
Qed.

Lemma resized_value_empty d shp :
  (shape d).1 = 0 → resized_value d shp = replicate (shp.1 * shp.2) fillvalue.
Proof.
  intros H0. unfold resized_value. rewrite H0.
  assert (∀ s k,
            flat_map (λ i, map (λ j, if bool_decide (i < 0)
                                        && bool_decide (j < (shape d).2)
                                     then cell d i j else fillvalue)
                             (seq 0 shp.2)) (seq s k)
            = replicate (k * shp.2) fillvalue) as H; [|apply H].
  intros s k. revert s. induction k as [|k IH]; intros s; [done|].
  cbn [seq flat_map Nat.mul]. rewrite replicate_add, IH. f_equal.
  rewrite bool_decide_eq_false_2 by lia. cbn [andb]. apply map_const_seq.
Qed.

(** The body of the loop for an array that has no table yet: the storage
    is created with [n] columns, resized, and the new values are added. *)
Lemma write_array_new ds force key st g m xa a n A :
  arr_group (st_self st) = Some g →
  members_of st g = Some m →
  m !! key = None →
  dict_get key (arrays ds) = Some xa →
  st_heap st !! xa = Some a →
  array_id a = key →
  let a' := with_placeholder_units a in
  let heap' := <[xa := a']> (st_heap st) in
  let new := populated_length (ndarray a) in
  let d1 := {| shape := (new, n); maxshape := (None, Some n);
               value := replicate (new * n) fillvalue; attrs := A |} in
  py_len (units a') = Ok n →
  stored_attrs heap' a' = Some A →
  write_array ds force key st
  = match append_rows (ndarray a) d1 0 new with
    | Ok d2 => (Ok tt, with_members g (<[key := d2]> m) (set_heap heap' st))
    | Raise e =>
        (Raise e, with_members g (<[key := d1]> m) (set_heap heap' st))
    end.
Proof.
  intros Hg Hm Hk Hxa Ha Hid a' heap' new d1 Hn HA. unfold write_array.
  rewrite run_bind, load_arr_group_run, Hg.
  rewrite run_bind, (group_keys_run _ _ _ Hm).
  rewrite (key_not_in_group _ _ Hk). cbn [orb].
  rewrite run_bind, run_bind, Hxa. cbn [from_option].
  rewrite run_ret, run_bind, load_arr_group_run, Hg.
  rewrite <- Hid in Hk.
  rewrite (create_dataarray_dset_run _ _ _ _ _ _ _ Ha Hm Hk Hn HA), Hid.
  fold a' heap'. set (st1 := set_heap heap' st).
  set (d0 := {| shape := (0, n); maxshape := (None, Some n); value := [];
                attrs := A |}).
  assert (members_of st1 g = Some m) as Hm1 by done.
  pose proof (members_of_with_members g m (<[key := d0]> m) st1 Hm1) as Hm2.
  assert (st_heap (with_members g (<[key := d0]> m) st1) !! xa = Some a')
    as Ha'.
  { rewrite st_heap_with_members. subst st1 heap'. cbn [st_heap set_heap].
    apply list_lookup_insert_eq. by eapply lookup_lt_Some. }
  rewrite (append_new_values_run ds key _ g (<[key := d0]> m) d0 xa a');
    [|by rewrite st_self_with_members|done|by rewrite lookup_insert_eq
     |done|done].
  assert (ndarray a' = ndarray a) as -> by apply with_placeholder_units_fields.
  fold new.
  assert (resize (new, (shape d0).2) d0 = Ok d1) as ->.
  { subst d0 d1. unfold resize. cbn [shape maxshape fst snd within attrs].
    rewrite bool_decide_eq_true_2 by done. cbn [andb]. do 2 f_equal.
    by rewrite resized_value_empty. }
  change ((shape d0).1) with 0.
  destruct (append_rows (ndarray a) d1 0 new) as [d2|e];
    rewrite !insert_insert_eq, (with_members_twice _ m); done.
Qed.

Lemma write_array_first ds force key st g m xa a A :
  arr_group (st_self st) = Some g →
  members_of st g = Some m →
  m !! key = None →
  dict_get key (arrays ds) = Some xa →
  st_heap st !! xa = Some a →
  array_id a = key →
  nd_shape (ndarray a) = [length (nd_data (ndarray a))] →
  let a' := with_placeholder_units a in
  let heap' := <[xa := a']> (st_heap st) in
  py_len (units a') = Ok 1 →
  stored_attrs heap' a' = Some A →
  write_array ds force key st
  = (Ok tt,
     with_members g (<[key := first_table A (ndarray a)]> m)
       (set_heap heap' st)).
Proof.
  intros Hg Hm Hk Hxa Ha Hid Hs a' heap' Hn HA.
  rewrite (write_array_new _ _ _ _ _ _ _ _ _ _ Hg Hm Hk Hxa Ha Hid Hn HA).
  rewrite append_rows_first;
    [done|done|apply populated_length_le|done
    |cbn [value]; by rewrite length_replicate, Nat.mul_1_r].
Qed.

Lemma append_rows_first_mismatch x d1 new c :
  nd_shape x = [length (nd_data x)] → new ≤ length (nd_data x) →
  shape d1 = (new, c) → 1 ≤ new → c ≠ 1 →
  append_rows x d1 0 new = Raise ValueError.
Proof.
  intros Hs Hn Hd Hnew Hc. unfold append_rows.
  rewrite (nd_slice_vector _ _ _ Hs Hn). cbn [mbind result_bind].
  unfold nd_reshape. cbn [nd_data]. rewrite nd_size_pair, Hd. cbn [snd].
  rewrite bool_decide_eq_false_2; [done|].
  rewrite length_take, length_drop. nia.
Qed.

Lemma write_array_new_outcome ds force key st g m xa a n A :
  arr_group (st_self st) = Some g →
  members_of st g = Some m →
  m !! key = None →
  dict_get key (arrays ds) = Some xa →
  st_heap st !! xa = Some a →
  array_id a = key →
  nd_shape (ndarray a) = [length (nd_data (ndarray a))] →
  py_len (units (with_placeholder_units a)) = Ok n →
  stored_attrs (<[xa := with_placeholder_units a]> (st_heap st))
    (with_placeholder_units a) = Some A →
  (write_array ds force key st).1
  = if bool_decide (n = 1 ∨ populated_length (ndarray a) = 0)
    then Ok tt else Raise ValueError.
Proof.
  intros Hg Hm Hk Hxa Ha Hid Hs Hn HA.
  rewrite (write_array_new _ _ _ _ _ _ _ _ _ _ Hg Hm Hk Hxa Ha Hid Hn HA).
  pose proof (populated_length_le (ndarray a)) as Hle.
  case_bool_decide as Hcase.
  - destruct (decide (populated_length (ndarray a) = 0)) as [E|E].
    + rewrite E. by erewrite append_rows_none.
    + destruct Hcase as [->|]; [|done].
      rewrite append_rows_first; try done.
      cbn [value]. by rewrite length_replicate, Nat.mul_1_r.
  - erewrite append_rows_first_mismatch; try done; lia.
Qed.

Lemma dict_get_elem_of {V} k (v : V) (A : list (pystr * V)) :
  dict_get k A = Some v → (k, v) ∈ A.
Proof.
  induction A as [|[k' v'] A IH]; [done|]. cbn [dict_get].
  case_bool_decide as E.
  - intros [= ->]. subst. apply list_elem_of_here.
  - intros H. apply list_elem_of_further. auto.
Qed.

Lemma dict_get_NoDup {V} k (v : V) (A : list (pystr * V)) :
  NoDup A.*1 → (k, v) ∈ A → dict_get k A = Some v.
Proof.
  induction A as [|[k' v'] A IH]; [by intros _ ?%not_elem_of_nil|].
  cbn [fmap list_fmap fst]. intros [Hn Hd]%NoDup_cons [E|E]%elem_of_cons.
  - injection E as -> ->. cbn [dict_get]. by rewrite bool_decide_eq_true_2.
  - cbn [dict_get]. rewrite bool_decide_eq_false_2; [auto|].
    intros ->. apply Hn. apply list_elem_of_fmap. by exists (k, v).
Qed.

(** The loop of [write] over arrays none of which has a table yet. [h0] is
    the heap the write started with. *)
Lemma first_write_loop ds force g h0 :
  ∀ (todo : list (pystr * nat)) st m,
    arr_group (st_self st) = Some g →
    members_of st g = Some m →
    NoDup todo.*1 →
    placeholders_only h0 (st_heap st) →
    (∀ k xa, (k, xa) ∈ todo →
       dict_get k (arrays ds) = Some xa ∧ m !! k = None ∧
       ∃ a, h0 !! xa = Some a ∧ st_heap st !! xa = Some a ∧
            storable h0 k a) →
    ∃ st' m',
      for_each todo.*1 (write_array ds force) st = (Ok tt, st') ∧
      members_of st' g = Some m' ∧
      st_self st' = st_self st ∧ st_dirs st' = st_dirs st ∧
      (∀ q, q ≠ g → st_files st' !! q = st_files st !! q) ∧
      placeholders_only h0 (st_heap st') ∧
      (∀ k, k ∉ todo.*1 → m' !! k = m !! k) ∧
      (∀ i, i ∉ todo.*2 → st_heap st' !! i = st_heap st !! i) ∧
      (∀ k xa a, (k, xa) ∈ todo → h0 !! xa = Some a →
         st_heap st' !! xa = Some (with_placeholder_units a) ∧
         ∃ A, stored_attrs h0 (with_placeholder_units a) = Some A ∧
              m' !! k = Some (first_table A (ndarray a))).
Proof.
  induction todo as [|[k0 xa0] todo IH]; intros st m Hg Hm Hnd Hrel Htodo.
  { exists st, m. cbn [fmap list_fmap for_each]. rewrite run_ret.
    split_and!; try done. by intros k xa a ?%not_elem_of_nil. }
  cbn [fmap list_fmap fst] in Hnd. apply NoDup_cons in Hnd as [Hk0 Hnd].
  destruct (Htodo k0 xa0) as (Hget0 & Hnone0 & a0 & Hh0 & Ha0 & Hst0);
    [apply list_elem_of_here|].
  destruct Hst0 as (Hid0 & Hs0 & Hn0 & A0 & HA0).
  pose proof (placeholders_only_insert _ _ _ _ Hrel Hh0) as Hrel1.
  assert (stored_attrs (<[xa0 := with_placeholder_units a0]> (st_heap st))
            (with_placeholder_units a0) = Some A0) as HA1.
  { by rewrite (stored_attrs_placeholders h0). }
  pose proof (write_array_first ds force k0 st g m xa0 a0 A0 Hg Hm Hnone0
                Hget0 Ha0 Hid0 Hs0 Hn0 HA1) as Hrun.
  set (st1 := with_members g (<[k0 := first_table A0 (ndarray a0)]> m)
                (set_heap (<[xa0 := with_placeholder_units a0]> (st_heap st))
                   st)) in *.
  assert (members_of st1 g = Some (<[k0 := first_table A0 (ndarray a0)]> m))
    as Hm1 by (by apply (members_of_with_members _ m)).
  assert (st_heap st1 = <[xa0 := with_placeholder_units a0]> (st_heap st))
    as Hheap1 by (subst st1; by rewrite st_heap_with_members).
  assert (st_self st1 = st_self st) as Hself1
      by (subst st1; by rewrite st_self_with_members).
  assert (∀ k xa, (k, xa) ∈ todo → k ≠ k0 ∧ xa ≠ xa0) as Hfresh.
  { intros k xa Hin.
    assert (k ≠ k0) as Hk.
    { intros ->. apply Hk0. apply list_elem_of_fmap. by exists (k0, xa). }
    split; [done|]. intros ->.
    destruct (Htodo k xa0) as (_ & _ & a & Hh & _ & Hid & _);
      [by apply list_elem_of_further|].
    apply Hk. congruence. }
  destruct (IH st1 (<[k0 := first_table A0 (ndarray a0)]> m))
    as (st' & m' & Hloop & Hm' & Hself & Hdirs & Hfiles & Hrel' & Hother
        & Hheap & Hdone); try done.
  { by rewrite Hself1. }
  { by rewrite Hheap1. }
  { intros k xa Hin. destruct (Hfresh _ _ Hin) as [Hk Hxa].
    destruct (Htodo k xa) as (Hget & Hnone & a & Hh & Ha & Hst);
      [by apply list_elem_of_further|].
    split_and!; [done|by rewrite lookup_insert_ne|].
    exists a. split_and!; [done| |done].
    by rewrite Hheap1, list_lookup_insert_ne. }
  exists st', m'. cbn [fmap list_fmap fst for_each].
  rewrite run_bind, Hrun. split_and!; try done.
  - by rewrite Hself.
  - rewrite Hdirs. subst st1. unfold with_members.
    by destruct (st_files _ !! g).
  - intros q Hq. rewrite (Hfiles q Hq). subst st1. unfold with_members.
    cbn [st_files set_heap]. destruct (st_files st !! g); [|done].
    cbn. by rewrite lookup_insert_ne.
  - intros k Hk. apply not_elem_of_cons in Hk as [Hk Hk'].
    rewrite (Hother k Hk'). by rewrite lookup_insert_ne.
  - intros i Hi. cbn [fmap list_fmap snd] in Hi.
    apply not_elem_of_cons in Hi as [Hi Hi'].
    rewrite (Hheap i Hi'), Hheap1. by rewrite list_lookup_insert_ne.
  - intros k xa a [E|Hin]%elem_of_cons Hh.
    + injection E as -> ->. assert (a = a0) as -> by congruence. split.
      * rewrite Hheap.
        -- rewrite Hheap1. apply list_lookup_insert_eq.
           by eapply lookup_lt_Some.
        -- intros (kx & Hkx & Hin)%list_elem_of_fmap. destruct kx as [k x].
           cbn in Hkx. subst x. by destruct (Hfresh _ _ Hin).
      * exists A0. split; [done|]. rewrite (Hother _ Hk0).
        by rewrite lookup_insert_eq.
    + by apply Hdone.
Qed.

Lemma first_write_run ds force st :
  data_object (st_self st) = None ∨ force = true →
  members_of st (container_path ds) = None →
  NoDup (dict_keys (arrays ds)) →
  (∀ k xa, (k, xa) ∈ arrays ds →
     ∃ a, st_heap st !! xa = Some a ∧ storable (st_heap st) k a) →
  ∃ st' m',
    write ds force st = (Ok tt, st') ∧
    members_of st' (container_path ds) = Some m' ∧
    st_self st'
    = holding (container_path ds) (Some (container_path ds)) (st_self st) ∧
    placeholders_only (st_heap st) (st_heap st') ∧
    (∀ k, k ∉ dict_keys (arrays ds) → m' !! k = None) ∧
    (∀ i, i ∉ (arrays ds).*2 → st_heap st' !! i = st_heap st !! i) ∧
    (∀ k xa a, (k, xa) ∈ arrays ds → st_heap st !! xa = Some a →
       st_heap st' !! xa = Some (with_placeholder_units a) ∧
       ∃ A, stored_attrs (st_heap st) (with_placeholder_units a) = Some A ∧
            m' !! k = Some (first_table A (ndarray a))).
Proof.
  intros Hc Hnone Hnd Hgood. rewrite (write_opens _ _ _ Hc).
  pose proof (members_of_opened ds st) as Hm. rewrite Hnone in Hm.
  cbn [default] in Hm.
  pose proof (opened_self ds st) as Hself. rewrite Hnone in Hself.
  destruct (first_write_loop ds force (container_path ds) (st_heap st)
              (arrays ds) (opened ds st) ∅)
    as (st' & m' & Hloop & Hm' & Hself' & _ & _ & Hrel & Hother & Hheap
        & Hdone); try done.
  { by rewrite Hself. }
  { split; [done|]. auto. }
  { intros k xa Hin. destruct (Hgood _ _ Hin) as (a & Ha & Hst).
    split_and!; [by apply dict_get_NoDup|done|]. by exists a. }
  exists st', m'. split_and!; try done. by rewrite Hself', Hself.
Qed.

(** ** Reading what a first write stored *)

Lemma column_values (l : list spec_float) :
  (λ i, nth (i * 1 + 0) l fillvalue) <$> seq 0 (length l) = l.
Proof.
  apply list_eq. intros i. rewrite list_lookup_fmap.
  destruct (decide (i < length l)) as [Hi|Hi].
  - rewrite lookup_seq_lt by done. cbn.
    replace (i * 1 + 0) with i by lia. rewrite nth_lookup.
    destruct (lookup_lt_is_Some_2 l i Hi) as [x ->]. done.
  - rewrite lookup_seq_ge by lia. cbn. symmetry. apply lookup_ge_None. lia.
Qed.

Lemma first_column_first_table A x :
  first_column (first_table A x) = Ok (take (populated_length x) (nd_data x)).
Proof.
  unfold first_column, first_table. cbn [shape fst snd].
  rewrite bool_decide_eq_false_2 by done. f_equal. unfold cell.
  cbn [shape value snd].
  pose proof (populated_length_le x) as Hle.
  etrans; [|apply column_values]. by rewrite length_take, Nat.min_l.
Qed.

Lemma decode_encoded s v : encoded s = Some v → decode_method v = Ok s.
Proof.
  unfold encoded. destruct (Utf8.encode s) as [b|] eqn:E; [|done].
  intros [= <-]. cbn. by rewrite (utf8_decode_encode _ _ E).
Qed.

Lemma decode_set_array_ids (h : list DataArray) refs vs :
  mapM (λ r, h !! r ≫= λ sa, encoded (array_id sa)) refs = Some vs →
  ∃ ids, mapM (λ r, array_id <$> h !! r) refs = Some ids ∧
         mapM decode_method vs = Ok ids.
Proof.
  revert vs. induction refs as [|r refs IH]; intros vs.
  - intros [= <-]. by exists [].
  - cbn [mapM]. intros H.
    apply bind_Some in H as (v & Hv & H).
    apply bind_Some in H as (vs' & Hvs & [= <-]).
    apply bind_Some in Hv as (sa & Hsa & Hv).
    destruct (IH _ Hvs) as (ids & Hids & Hdec).
    exists (array_id sa :: ids). rewrite Hsa, Hids. split; [done|].
    by rewrite mapM_result_cons, (decode_encoded _ _ Hv), Hdec.
Qed.

Ltac other_key := let E := fresh in intros E; vm_compute in E; discriminate E.

Lemma stored_attrs_lookup h a A :
  stored_attrs h a = Some A →
  ∃ vl vn vu,
    encoded (default (array_id a) (label a)) = Some vl ∧
    encoded (default (array_id a) (name a)) = Some vn ∧
    encoded (py_str (units a)) = Some vu ∧
    A !! py "label" = Some vl ∧ A !! py "name" = Some vn ∧
    A !! py "units" = Some vu ∧
    A !! py "is_setpoint"
    = Some (VBytes (py (if is_setpoint a then "True" else "False"))) ∧
    (if is_setpoint a then True
     else ∃ vs,
       mapM (λ r, h !! r ≫= λ sa, encoded (array_id sa)) (set_arrays a)
       = Some vs ∧
       A !! py "set_arrays" = Some (VList vs)).
Proof.
  unfold stored_attrs. intros HA.
  apply bind_Some in HA as (vl & Hvl & HA).
  apply bind_Some in HA as (vn & Hvn & HA).
  apply bind_Some in HA as (vu & Hvu & HA).
  exists vl, vn, vu. split_and!; try done.
  - destruct (is_setpoint a);
      [injection HA as <-|apply bind_Some in HA as (vs & _ & [= <-])];
      rewrite !lookup_insert_ne by other_key; apply lookup_insert_eq.
  - destruct (is_setpoint a);
      [injection HA as <-|apply bind_Some in HA as (vs & _ & [= <-])];
      rewrite !(lookup_insert_ne _ _ (py "name")) by other_key;
      apply lookup_insert_eq.
  - destruct (is_setpoint a);
      [injection HA as <-|apply bind_Some in HA as (vs & _ & [= <-])];
      rewrite !(lookup_insert_ne _ _ (py "units")) by other_key;
      apply lookup_insert_eq.
  - destruct (is_setpoint a);
      [injection HA as <-|apply bind_Some in HA as (vs & _ & [= <-])];
      rewrite ?(lookup_insert_ne _ _ (py "is_setpoint")) by other_key;
      apply lookup_insert_eq.
  - destruct (is_setpoint a); [done|].
    apply bind_Some in HA as (vs & Hvs & [= <-]). exists vs.
    split; [done|]. apply lookup_insert_eq.
Qed.

Lemma read_entry_first_table h a A key :
  stored_attrs h a = Some A →
  ∃ ids, set_array_ids h a = Some ids ∧
         read_entry key (first_table A (ndarray a))
         = Ok (read_back key a, ids).
Proof.
  intros HA.
  destruct (stored_attrs_lookup _ _ _ HA)
    as (vl & vn & vu & Hvl & Hvn & Hvu & Ll & Ln & Lu & Ls & Hsa).
  unfold read_entry, read_back, set_array_ids.
  rewrite first_column_first_table.
  cbn [first_table attrs]. rewrite Ll, Ln, Lu, Ls.
  rewrite (decode_encoded _ _ Hvl), (decode_encoded _ _ Hvn),
    (decode_encoded _ _ Hvu).
  cbn [fmap result_fmap mbind result_bind].
  destruct (is_setpoint a) eqn:Esp.
  - exists []. split; [done|].
    change (decode_method (VBytes (py "True")))
      with (Ok (A := pystr) (py "True")).
    cbn [mbind result_bind]. reflexivity.
  - destruct Hsa as (vs & Hvs & Lsa).
    destruct (decode_set_array_ids _ _ _ Hvs) as (ids & Hids & Hdec).
    exists ids. split; [done|].
    change (decode_method (VBytes (py "False")))
      with (Ok (A := pystr) (py "False")).
    cbn [mbind result_bind]. 
    change (str_to_bool (py "False")) with (Ok (A := bool) false).
    cbn [mbind result_bind negb]. rewrite Lsa.
    cbn [mbind result_bind py_iter]. rewrite Hdec. reflexivity.
Qed.

(** ** A first write, then a read *)

Lemma first_write_read_back ds force st dr fmt :
  data_object (st_self st) = None ∨ force = true →
  members_of st (container_path ds) = None →
  NoDup (dict_keys (arrays ds)) →
  (∀ k xa, (k, xa) ∈ arrays ds →
     ∃ a, st_heap st !! xa = Some a ∧ storable (st_heap st) k a ∧
          (is_setpoint a = false →
           ∀ r, r ∈ set_arrays a → r ∈ (arrays ds).*2)) →
  location dr = container_path ds →
  arrays dr = [] →
  ∃ st1 dr' st2,
    write ds force st = (Ok tt, st1) ∧
    read dr (set_self fmt st1) = (Ok dr', st2) ∧
    dict_keys (arrays dr') ≡ₚ dict_keys (arrays ds) ∧
    ∀ k xa a, (k, xa) ∈ arrays ds → st_heap st !! xa = Some a →
      ∃ xa' ids rs,
        dict_get k (arrays dr') = Some xa' ∧
        set_array_ids (st_heap st) (with_placeholder_units a) = Some ids ∧
        st_heap st2 !! xa'
        = Some (second_pass_object
                  (read_back k (with_placeholder_units a), ids) rs) ∧
        Forall2 (λ id r, dict_get id (arrays dr') = Some r ∧
                         ∃ t, st_heap st2 !! r = Some t ∧ array_id t = id)
                ids rs.
Proof.
  intros Hc Hnone Hnd Hgood Hloc Hempty.
  destruct (first_write_run ds force st Hc Hnone Hnd)
    as (st1 & m1 & Hw & Hm1 & _ & _ & Hother & _ & Hdone).
  { intros k xa Hin. destruct (Hgood _ _ Hin) as (a & Ha & Hst & _). eauto. }
  set (str := set_self fmt st1).
  assert (members_of str (location dr) = Some m1) as Hmr by (by rewrite Hloc).
  assert (∀ k d, m1 !! k = Some d →
            ∃ xa a ids,
              (k, xa) ∈ arrays ds ∧ st_heap st !! xa = Some a ∧
              set_array_ids (st_heap st) (with_placeholder_units a)
              = Some ids ∧
              read_entry k d
              = Ok (read_back k (with_placeholder_units a), ids))
    as Hentry.
  { intros k d Hd.
    destruct (decide (k ∈ dict_keys (arrays ds))) as [Hk|Hk];
      [|rewrite (Hother _ Hk) in Hd; discriminate Hd].
    apply list_elem_of_fmap in Hk as ([k' xa] & -> & Hin). cbn [fst] in *.
    destruct (Hgood _ _ Hin) as (a & Ha & _ & _).
    destruct (Hdone _ _ _ Hin Ha) as (_ & A & HA & Hk).
    assert (d = first_table A (ndarray (with_placeholder_units a))) as ->.
    { rewrite (proj1 (proj2 (proj2 (proj2 (proj2 (proj2
                 (with_placeholder_units_fields a))))))). congruence. }
    destruct (read_entry_first_table _ _ _ k' HA) as (ids & Hids & Hre).
    by exists xa, a, ids. }
  assert (∀ k, k ∈ dict_keys (arrays ds) → is_Some (m1 !! k)) as Hstored.
  { intros k Hk. apply list_elem_of_fmap in Hk as ([k' xa] & -> & Hin).
    destruct (Hgood _ _ Hin) as (a & Ha & _ & _).
    destruct (Hdone _ _ _ Hin Ha) as (_ & A & _ & Hk). by eexists. }
  pose proof (read_run dr str m1 Hmr Hempty) as Hrun. cbv zeta in Hrun.
  destruct (mapM_result_all_Ok (λ kd : pystr * dset, read_entry kd.1 kd.2)
              (map_to_list m1)) as [objs Hobjs].
  { intros [k d] Hin%elem_of_map_to_list.
    destruct (Hentry _ _ Hin) as (xa & a & ids & _ & _ & _ & Hre). by eexists. }
  unfold read_entries in Hrun. rewrite Hobjs in Hrun.
  destruct (proj2 (resolve_all_is_Some (map_to_list m1) objs
                     (zip (map_to_list m1).*1
                        (seq (length (st_heap str))
                           (length (map_to_list m1)))) Hobjs))
    as [rss Hrss].
  { intros [k d] d0 ids id Hin%elem_of_map_to_list Hre Hid. cbn [fst snd] in *.
    rewrite <- length_fst_entries, fst_zip_seq. apply stored_key, Hstored.
    destruct (Hentry _ _ Hin) as (xa & a & ids' & Hxa & Ha & Hids & Hre').
    assert (ids' = ids) as -> by congruence.
    destruct (Hgood _ _ Hxa) as (a' & Ha' & _ & Hclosed).
    assert (a' = a) as -> by congruence.
    unfold set_array_ids in Hids.
    rewrite (proj1 (proj2 (proj2 (proj2 (with_placeholder_units_fields a)))))
      in Hids.
    destruct (is_setpoint a) eqn:Esp.
    { injection Hids as <-. by apply not_elem_of_nil in Hid. }
    rewrite (proj1 (proj2 (proj2 (proj2 (proj2
               (with_placeholder_units_fields a)))))) in Hids.
    apply mapM_Some in Hids.
    apply list_elem_of_lookup in Hid as [i Hi].
    destruct (Forall2_lookup_r _ _ _ _ _ Hids Hi) as (r & Hr & Hrid).
    apply list_elem_of_lookup_2 in Hr.
    apply (Hclosed eq_refl) in Hr.
    apply list_elem_of_fmap in Hr as ([k2 r2] & -> & Hin2). cbn [snd] in *.
    destruct (Hgood _ _ Hin2) as (b & Hb & (Hbid & _) & _).
    rewrite Hb in Hrid. injection Hrid as <-. rewrite Hbid.
    apply list_elem_of_fmap. by exists (k2, r2). }
  rewrite Hrss in Hrun.
  exists st1. eexists. eexists. split_and!; [done|exact Hrun| |].
  - cbn [arrays]. unfold dict_keys.
    rewrite <- length_fst_entries, fst_zip_seq.
    apply NoDup_Permutation; [apply NoDup_fst_map_to_list|done|].
    intros k. rewrite stored_key. split; [|apply Hstored].
    intros [d Hd]. destruct (Hentry _ _ Hd) as (xa & _ & _ & Hin & _).
    apply list_elem_of_fmap. by exists (k, xa).
  - intros k xa a Hin Ha.
    destruct (Hdone _ _ _ Hin Ha) as (_ & A & _ & Hk).
    destruct (read_Ok_spec _ _ _ _ _ Hmr Hempty Hrun _ _ Hk)
      as (xa' & d0 & ids & rs & Hget & Hre & _ & Hobj & Hall).
    destruct (Hentry _ _ Hk) as (xa2 & a2 & ids2 & Hin2 & Ha2 & Hids2 & Hre2).
    assert (xa2 = xa) as ->.
    { pose proof (dict_get_NoDup _ _ _ Hnd Hin).
      pose proof (dict_get_NoDup _ _ _ Hnd Hin2). congruence. }
    assert (a2 = a) as -> by congruence.
    rewrite Hre2 in Hre. injection Hre as <- <-.
    by exists xa', ids2, rs.
Qed.

(** ** A forced write; the helper on sequences *)

Lemma encode_method_Ok x v :
  encode_method x = Ok v →
  ∃ s b, x = VStr s ∧ Utf8.encode s = Some b ∧ v = VBytes b.
Proof.
  destruct x as [| | |s| | |]; try done. cbn.
  destruct (Utf8.encode s) as [b|] eqn:E; [|done]. intros [= <-]. eauto.
Qed.

Lemma encode_to_utf8_list l :
  _encode_to_utf8 (VList l) = VList <$> mapM encode_method l.
Proof. reflexivity. Qed.

Lemma utf8_encode_nonempty c s b : Utf8.encode (c :: s) = Some b → b ≠ [].
Proof.
  cbn [Utf8.encode]. destruct (Utf8.encode_cp c) as [bc|] eqn:Ec; [|done].
  destruct (Utf8.encode s) as [bs|]; [|done]. intros [= <-].
  assert (bc ≠ []) as Hbc.
  { unfold Utf8.encode_cp in Ec.
    repeat match type of Ec with
           | (if ?c then _ else _) = _ => destruct c
           end; by (discriminate Ec || injection Ec as <-). }
  by destruct bc.
Qed.

(** ** The properties *)



(** X2. A write never touches a payload. Whatever the data set, the flag and
    the outcome, every object of the heap is where it was and has the array
    id, name, label, flag, set arrays and values it had; its units are those
    it had, or the placeholder [['']] where it had none. *)
Theorem write_keeps_payloads ds force st i a :
  st_heap st !! i = Some a →
  length (st_heap (write ds force st).2) = length (st_heap st) ∧
  ∃ a', st_heap (write ds force st).2 !! i = Some a' ∧
        array_id a' = array_id a ∧ name a' = name a ∧ label a' = label a ∧
        is_setpoint a' = is_setpoint a ∧ set_arrays a' = set_arrays a ∧
        ndarray a' = ndarray a ∧ _sa_array_ids a' = _sa_array_ids a ∧
        (units a' = units a ∨
         units a = VNone ∧ units a' = VList [VStr []]).
Proof.
  intros Ha. destruct (write ds force st) as [r st'] eqn:E.
  apply write_frame_kept in E as (HL & HH & _). cbn [snd]. split; [done|].
  destruct (HH _ _ Ha) as [H|H]; eexists; (split; [exact H|]).
  - split_and!; auto.
  - unfold with_placeholder_units.
    destruct (units a) eqn:Eu; split_and!; auto.
Qed.

Lemma write_keeps_payloads_witness :
  ∃ a', st_heap (write Scenario.data_set false Scenario.start).2 !! 1
        = Some a' ∧
        ndarray a'
        = Scenario.vector [Scenario.num 10; Scenario.num 11; Scenario.num 12;
                           Scenario.nan; Scenario.nan] ∧
        set_arrays a' = [0].
Proof.
  edestruct (write_keeps_payloads Scenario.data_set false Scenario.start 1)
    as (_ & a' & H & _ & _ & _ & _ & Hs & Hn & _); [reflexivity|].
  exists a'. split_and!; [exact H|exact Hn|exact Hs].
Defined.

(** X3. A write creates no container but its own and deletes nothing.
    Whatever the data set, the flag and the outcome: a path other than the
    container's that held no container holds none afterwards, every
    container that existed exists and has the meta-data it had, every
    directory stays, and the station of the formatter is kept. *)
Theorem write_creates_one_container ds force st :
  (∀ q, q ≠ container_path ds → st_files st !! q = None →
        st_files (write ds force st).2 !! q = None) ∧
  (∀ q f, st_files st !! q = Some f →
          ∃ f', st_files (write ds force st).2 !! q = Some f' ∧
                meta_data f' = meta_data f) ∧
  st_dirs st ⊆ st_dirs (write ds force st).2 ∧
  station (st_self (write ds force st).2) = station (st_self st).
Proof.
  destruct (write ds force st) as [r st'] eqn:E.
  apply write_frame_kept in E as (_ & _ & HN & HF & HD & HS). by split_and!.
Qed.

(** X4. A read never touches the disk. Whatever the data set and the
    outcome, the containers and the directories are as they were; of the
    formatter only [data_object] may change, and no object leaves the heap. *)
Theorem read_leaves_disk ds st :
  st_files (read ds st).2 = st_files st ∧
  st_dirs (read ds st).2 = st_dirs st ∧
  filepath (st_self (read ds st).2) = filepath (st_self st) ∧
  arr_group (st_self (read ds st).2) = arr_group (st_self st) ∧
  station (st_self (read ds st).2) = station (st_self st) ∧
  length (st_heap st) ≤ length (st_heap (read ds st).2).
Proof.
  destruct (read ds st) as [r st'] eqn:E.
  apply read_frame_kept in E as (? & ? & ? & ? & ? & ? & _). by split_and!.
Qed.

(** X5. What [read] does without tables to read. When there is no container
    at the location of the data set it raises OSError and changes nothing;
    when the container has no group 'Data Arrays' it raises KeyError, and
    the formatter holds the container by then. *)
Theorem read_without_tables_raises ds st :
  (st_files st !! location ds = None → read ds st = (Raise OSError, st)) ∧
  (∀ f, st_files st !! location ds = Some f → data_arrays f = None →
        read ds st = (Raise KeyError, set_self (reading ds (st_self st)) st)).
Proof. split; [apply read_run_missing|apply read_run_no_group]. Qed.

Lemma read_without_tables_raises_witness :
  read Scenario.to_read Scenario.start = (Raise OSError, Scenario.start) ∧
  (read Scenario.to_read
     (set_files {[Scenario.container := empty_h5file]} Scenario.start)).1
  = Raise KeyError.
Proof.
  split.
  - apply (read_without_tables_raises Scenario.to_read Scenario.start).
    reflexivity.
  - erewrite (proj2 (read_without_tables_raises Scenario.to_read _));
      reflexivity.
Defined.

(** X6. [write] and [read] do not agree on the path. [write] puts the
    container at [location/<last component of location>.hdf5], [read] opens
    [location] itself: with the path join of the io manager the identity,
    the two differ, and a [read] of the data set that was just written, no
    container being at its location, raises OSError. *)
Theorem read_after_write_other_path ds force st :
  (∀ s, io_join ds s = s) →
  st_files st !! location ds = None →
  container_path ds ≠ location ds ∧
  (read ds (write ds force st).2).1 = Raise OSError.
Proof.
  intros Hj Hn. pose proof (io_join_id_path _ Hj) as Hp. split; [done|].
  destruct (write ds force st) as [r st'] eqn:E. cbn [snd].
  apply write_frame_kept in E as (_ & _ & HN & _).
  rewrite read_run_missing; [done|]. apply HN; [congruence|done].
Qed.

Lemma read_after_write_other_path_witness :
  (read Scenario.data_set (write Scenario.data_set false Scenario.start).2).1
  = Raise OSError.
Proof.
  apply (read_after_write_other_path Scenario.data_set false Scenario.start);
    reflexivity.
Defined.

(** X7. A formatter that has read cannot write. [read] assigns [data_object]
    and never [arr_group]: after a successful read by a formatter without a
    group object, a write by it of a data set that has arrays finds the
    container, skips the creation of the group, and raises AttributeError at
    the first array, changing nothing. *)
Theorem write_after_read_raises ds0 ds st ds' st' :
  arr_group (st_self st) = None →
  read ds0 st = (Ok ds', st') →
  arrays ds ≠ [] →
  write ds false st' = (Raise AttributeError, st').
Proof.
  intros Hg Hr Ha.
  pose proof (read_Ok_data_object _ _ _ _ Hr) as Ho.
  destruct (read_Ok_members _ _ _ _ Hr) as [grp Hm].
  apply read_frame_kept in Hr as (HF & _ & _ & HG & _).
  assert (members_of st' (location ds0) = Some grp) as Hm'.
  { unfold members_of in *. by rewrite HF. }
  rewrite (write_same_formatter _ _ _ _ Ho Hm').
  apply write_loop_no_group; [congruence|done].
Qed.

Lemma write_after_read_raises_witness :
  let st' := (read Scenario.to_read
                (set_self __init__ Scenario.after_first_write)).2 in
  write Scenario.data_set false st' = (Raise AttributeError, st').
Proof.
  destruct (read Scenario.to_read
              (set_self __init__ Scenario.after_first_write))
    as [[ds'|e] st'] eqn:E; cbn [snd].
  - apply (write_after_read_raises Scenario.to_read Scenario.data_set
             (set_self __init__ Scenario.after_first_write) ds' st');
      [reflexivity|exact E|discriminate].
  - vm_compute in E. discriminate E.
Defined.

(** X8. A formatter that did not create the group cannot write. [arr_group]
    is assigned only where the group 'Data Arrays' is created: when the
    container of the data set has the group already and the formatter has no
    group object (a new formatter, or one that has read), a write that opens
    the container raises AttributeError at the first array; the tables are
    untouched. *)
Theorem write_existing_group_raises ds force st m :
  has_folder (container_path ds) →
  data_object (st_self st) = None ∨ force = true →
  arr_group (st_self st) = None →
  members_of st (container_path ds) = Some m →
  arrays ds ≠ [] →
  (write ds force st).1 = Raise AttributeError ∧
  st_files (write ds force st).2 = st_files st ∧
  st_heap (write ds force st).2 = st_heap st.
Proof.
  intros _ Hc Hg Hm Ha. rewrite (write_opens _ _ _ Hc).
  rewrite write_loop_no_group; [|by rewrite opened_self, Hm|done].
  cbn [fst snd]. split_and!; [done|by eapply st_files_opened|done].
Qed.

Lemma write_existing_group_raises_witness :
  (write Scenario.data_set false Scenario.reopened).1 = Raise AttributeError ∧
  st_files (write Scenario.data_set false Scenario.reopened).2
  = st_files Scenario.reopened.
Proof.
  edestruct (write_existing_group_raises Scenario.data_set false
               Scenario.reopened) as (H1 & H2 & _);
    [intros E; vm_compute in E; discriminate E
    |left; reflexivity|reflexivity|vm_compute; reflexivity|discriminate|].
  split; [exact H1|exact H2].
Defined.



(** X10. The outcome of the body of the loop on a table that exists, for a
    one-dimensional array and a table of at least one column: it returns
    normally exactly when the array has no populated value, or the table has
    no row and one column; otherwise it raises ValueError. So once a table
    holds a row, no write that finds a populated value succeeds. *)
Theorem append_to_table_outcome ds key st g m d xa x :
  arr_group (st_self st) = Some g →
  members_of st g = Some m →
  m !! key = Some d →
  dict_get key (arrays ds) = Some xa →
  st_heap st !! xa = Some x →
  maxshape d = (None, Some (shape d).2) →
  nd_shape (ndarray x) = [length (nd_data (ndarray x))] →
  1 ≤ (shape d).2 →
  (write_array ds false key st).1
  = if bool_decide (populated_length (ndarray x) = 0
                    ∨ (shape d).1 = 0 ∧ (shape d).2 = 1)
    then Ok tt else Raise ValueError.
Proof.
  intros Hg Hm Hd Hxa Hx Hmax Hs Hc.
  rewrite (write_array_existing _ _ _ _ _ _ _ _ Hg Hm Hd Hxa Hx).
  destruct (resize_unlimited (populated_length (ndarray x)) d Hmax) as [d1 Hr].
  rewrite Hr. apply resize_spec in Hr as (Hs1 & _ & _ & Hl & _).
  cbn [fst snd] in Hl.
  pose proof (populated_length_le (ndarray x)) as Hle.
  case_bool_decide as Hcase.
  - destruct Hcase as [H0|[H0 H1]].
    + rewrite H0 in *. by erewrite append_rows_none.
    + rewrite H0, H1 in *. rewrite append_rows_first; try done. lia.
  - erewrite append_rows_mismatch; try done; lia.
Qed.

Lemma append_to_table_outcome_witness :
  (write_array Scenario.data_set false (py "x") Scenario.after_first_write).1
  = Raise ValueError.
Proof.
  erewrite (append_to_table_outcome Scenario.data_set (py "x")
              Scenario.after_first_write Scenario.container);
    [|reflexivity|vm_compute; reflexivity|vm_compute; reflexivity
     |reflexivity|vm_compute; reflexivity|reflexivity|reflexivity
     |vm_compute; lia].
  vm_compute. reflexivity.
Defined.



(** X12. A forced write cannot replace a table. With [force_write] the
    storage of every array is created anew, and h5py refuses the name of a
    table that exists: when the formatter holds the group of the container
    and the first array of the data set has a table there, the write raises
    and no container is changed. *)
Theorem forced_write_raises ds st m k xa rest a d :
  arr_group (st_self st) = Some (container_path ds) →
  members_of st (container_path ds) = Some m →
  arrays ds = (k, xa) :: rest →
  st_heap st !! xa = Some a →
  m !! array_id a = Some d →
  ∃ e st', write ds true st = (Raise e, st') ∧ st_files st' = st_files st.
Proof.
  intros Hg Hm Harr Ha Hd. rewrite write_opens by auto.
  pose proof (members_of_opened ds st) as Hmo. rewrite Hm in Hmo.
  cbn [default] in Hmo.
  pose proof (opened_self ds st) as Hself. rewrite Hm, Hg in Hself.
  rewrite Harr. cbn [dict_keys fmap list_fmap fst for_each].
  rewrite run_bind. unfold write_array.
  rewrite run_bind, load_arr_group_run, Hself. cbn [arr_group holding].
  rewrite run_bind, (group_keys_run _ _ _ Hmo). rewrite orb_true_r.
  rewrite run_bind, run_bind, Harr. cbn [dict_get].
  rewrite bool_decide_eq_true_2 by done. cbn [from_option].
  rewrite run_ret, run_bind, load_arr_group_run, Hself.
  cbn [arr_group holding].
  destruct (create_dataarray_dset_exists xa (container_path ds) (opened ds st)
              a m d) as [e He]; [done..|].
  rewrite He. eexists _, _. split; [done|].
  cbn [st_files set_heap]. by eapply st_files_opened.
Qed.

Lemma forced_write_raises_witness :
  ∃ e st', write Scenario.data_set true Scenario.after_first_write
           = (Raise e, st') ∧
           st_files st' = st_files Scenario.after_first_write.
Proof.
  eapply (forced_write_raises Scenario.data_set Scenario.after_first_write);
    [reflexivity|vm_compute; reflexivity|reflexivity|reflexivity
    |vm_compute; reflexivity].
Defined.





(** X15. The helper on values that are no text. Bytes are not passed
    through: they are iterated over, so every byte string but the empty one
    raises AttributeError, and the empty one comes back as an empty list; in
    particular the helper rejects its own result for a text that is not
    empty. A list comes back encoded only when each of its elements is a
    text that has an encoding, and a list with an element that is no text
    raises. *)
Theorem encode_to_utf8_sequences :
  (∀ b, _encode_to_utf8 (VBytes b)
        = match b with [] => Ok (VList []) | _ => Raise AttributeError end) ∧
  (∀ s v, s ≠ [] → _encode_to_utf8 (VStr s) = Ok v →
          _encode_to_utf8 v = Raise AttributeError) ∧
  (∀ l v, _encode_to_utf8 (VList l) = Ok v →
          ∃ bs, v = VList (VBytes <$> bs) ∧
                Forall2 (λ x b, ∃ s, x = VStr s ∧ Utf8.encode s = Some b)
                        l bs) ∧
  (∀ l x, x ∈ l → (∀ s, x ≠ VStr s) →
          ∃ e, _encode_to_utf8 (VList l) = Raise e).
Proof.
  split_and!.
  - by intros [|c b].
  - intros s v Hs. rewrite encode_to_utf8_str.
    intros (s' & b & [= <-] & Hb & ->)%encode_method_Ok.
    destruct s as [|c s]; [done|].
    apply utf8_encode_nonempty in Hb. by destruct b.
  - intros l v. rewrite encode_to_utf8_list.
    destruct (mapM encode_method l) as [k|e] eqn:E; [|done].
    intros [= <-]. apply mapM_result_Ok in E.
    assert (∃ bs, k = VBytes <$> bs ∧
                  Forall2 (λ x b, ∃ s, x = VStr s ∧ Utf8.encode s = Some b)
                    l bs) as (bs & -> & H).
    { induction E as [|x y l k Hxy _ (bs & -> & IH)]; [by exists []|].
      apply encode_method_Ok in Hxy as (s & b & -> & Hb & ->).
      exists (b :: bs). split; [done|]. constructor; eauto. }
    by exists bs.
  - intros l x Hx Hno. rewrite encode_to_utf8_list.
    destruct (mapM encode_method l) as [k|e] eqn:E; [|by exists e].
    apply mapM_result_Ok in E.
    apply list_elem_of_lookup in Hx as [i Hi].
    destruct (Forall2_lookup_l _ _ _ _ _ E Hi) as (y & _ & Hy).
    apply encode_method_Ok in Hy as (s & _ & -> & _). by destruct (Hno s).
Qed.

Lemma encode_to_utf8_sequences_witness :
  _encode_to_utf8 (VBytes (py "x")) = Raise AttributeError ∧
  (∃ e, _encode_to_utf8 (VList [VStr (py "x"); VInt 5]) = Raise e).
Proof.
  destruct encode_to_utf8_sequences as (H1 & H2 & _ & H4). split.
  - apply (H2 (py "x") (VBytes (py "x"))); [discriminate|reflexivity].
  - apply (H4 _ (VInt 5)); [|intros s E; discriminate E].
    apply list_elem_of_further, list_elem_of_here.
Defined.



(** ** Tables that cannot be read, writes that cannot append *)

Lemma read_entry_no_column key dat :
  (shape dat).2 = 0 → ∀ o, read_entry key dat ≠ Ok o.
Proof.
  intros H0 o H. unfold read_entry in H.
  apply bind_result_Ok in H as (lbl & _ & H).
  apply bind_result_Ok in H as (nm & _ & H).
  apply bind_result_Ok in H as (un & _ & H).
  apply bind_result_Ok in H as (v & _ & H).
  apply bind_result_Ok in H as (s & _ & H).
  apply bind_result_Ok in H as (sp & _ & H).
  apply bind_result_Ok in H as (sa & _ & H).
  apply bind_result_Ok in H as (pd & Hpd & _).
  unfold first_column in Hpd. by rewrite bool_decide_eq_true_2 in Hpd.
Qed.

(** X17. A table without a column cannot be read. [read] takes the first
    column of every table: an entry whose table has no column makes the
    reading of the entry raise, whatever its attributes, and a container
    that holds such a table makes [read] into an empty data set raise. *)
Theorem read_needs_a_column ds st grp key dat :
  members_of st (location ds) = Some grp →
  arrays ds = [] →
  grp !! key = Some dat →
  (shape dat).2 = 0 →
  (∀ o, read_entry key dat ≠ Ok o) ∧
  ∃ e, (read ds st).1 = Raise e.
Proof.
  intros Hg He Hk H0. split; [by apply read_entry_no_column|].
  pose proof (read_run ds st grp Hg He) as Hrun. cbv zeta in Hrun.
  destruct (read_entries (map_to_list grp)) as [objs|e] eqn:Eo;
    [|by exists e].
  apply mapM_result_Ok in Eo.
  apply elem_of_map_to_list, list_elem_of_lookup in Hk as [i Hi].
  destruct (Forall2_lookup_l _ _ _ _ _ Eo Hi) as (o & _ & Ho).
  by destruct (read_entry_no_column key dat H0 o).
Qed.

Lemma read_needs_a_column_witness :
  ∃ e, (read Scenario.to_read
          (Scenario.with_entry (py "x")
             {| shape := (0, 0); maxshape := (None, Some 0); value := [];
                attrs := attrs Scenario.entry_x |})).1 = Raise e.
Proof.
  eapply (read_needs_a_column Scenario.to_read _ _ (py "x"));
    [vm_compute; reflexivity|reflexivity|vm_compute; reflexivity|reflexivity].
Defined.

(** X18. No later write of data succeeds. When the formatter holds the
    container and its group, and the first array of the data set is
    one-dimensional, has a populated value and already has a table with a
    row (and at least one column), [write] raises ValueError: with
    [write_array] failing as soon as a table holds a row, the formatter
    cannot append. *)
Theorem later_write_raises ds st g m k xa rest d x :
  data_object (st_self st) = Some g →
  arr_group (st_self st) = Some g →
  members_of st g = Some m →
  arrays ds = (k, xa) :: rest →
  m !! k = Some d →
  st_heap st !! xa = Some x →
  maxshape d = (None, Some (shape d).2) →
  nd_shape (ndarray x) = [length (nd_data (ndarray x))] →
  1 ≤ (shape d).1 → 1 ≤ (shape d).2 →
  1 ≤ populated_length (ndarray x) →
  (write ds false st).1 = Raise ValueError.
Proof.
  intros Ho Hg Hm Harr Hk Hx Hmax Hs Hrows Hcols Hnew.
  rewrite (write_same_formatter _ _ _ _ Ho Hm), Harr.
  cbn [dict_keys fmap list_fmap fst for_each]. rewrite run_bind.
  assert (dict_get k (arrays ds) = Some xa) as Hget.
  { rewrite Harr. cbn [dict_get]. by rewrite bool_decide_eq_true_2. }
  rewrite (write_array_existing _ _ _ _ _ _ _ _ Hg Hm Hk Hget Hx).
  destruct (resize_unlimited (populated_length (ndarray x)) d Hmax) as [d1 Hr].
  rewrite Hr. apply resize_spec in Hr as (Hs1 & _).
  pose proof (populated_length_le (ndarray x)) as Hle.
  erewrite append_rows_mismatch; [done|done|done|done|lia|lia|lia].
Qed.

Lemma later_write_raises_witness :
  (write Scenario.data_set false Scenario.after_first_write).1
  = Raise ValueError.
Proof.
  eapply (later_write_raises Scenario.data_set Scenario.after_first_write
            Scenario.container);
    [reflexivity|reflexivity|vm_compute; reflexivity|reflexivity
    |vm_compute; reflexivity|vm_compute; reflexivity|reflexivity|reflexivity
    |vm_compute; lia|vm_compute; lia|vm_compute; lia].
Defined.
